(** * chatalyst-ai: the SQL-generation request pipeline and its validator

    A shallow embedding of

      - [src/validation/sql_validator.py]  (class [SQLValidator]),
      - [src/database/schema_manager.py]   (class [SchemaManager], the cache
        and the column-name set),
      - [src/database/connector.py]        (class [PostgreSQLConnector]),
      - [src/agent/vanna_agent.py]         (class [VannaAgent]: conversation
        history, [initialize], [ask], [execute]),

    followed by the properties of the specification that concern them.

    Conventions of the embedding.

      - a Python [str] is a [string], the bytes of its UTF-8 encoding.
        On a text of ASCII characters ([isascii]) the operations of [PyStr]
        and [Re] are those of Python: there a byte is a character, and case
        mapping, white space and word characters are those of the ASCII
        range.  A property that depends on the case mapping, the white
        space or the word characters of a text is stated for ASCII texts;
      - the frames of [pandas] are the rows they were built from; what
        [pandas] makes of the values when it gives the rows back
        ([DataFrame.to_dict], [DataFrame.iterrows]) is the answer of a
        collaborator;
      - a Python dict with string keys is a [gmap string _] when only its
        lookups matter and an insertion-ordered association list when its
        iteration order matters;
      - a Python set of strings is a [gset]; the order in which Python
        iterates over a set depends on string hashing and is a parameter
        ([SetOrder]);
      - every exception class derives from [Exception]; a computation is a
        state transformer that returns a value or raises;
      - the external collaborators (database driver, generation engine,
        file system, clock) are fields of a record [Env]; each answers as a
        function of the calls made so far, so a collaborator may be
        stateful. *)

From Stdlib Require Import ZArith Ascii String List Lia.
From stdpp Require Import base option list gmap strings pretty.

Local Open Scope Z_scope.

(** Python's [and] and [or] evaluate their second operand only when the
    first does not decide. *)
Notation "a 'and_then' b" := (if a then b else false)
  (at level 45, right associativity, only parsing).
Notation "a 'or_else' b" := (if a then true else b)
  (at level 55, right associativity, only parsing).

(** ** Python strings *)

Module PyStr.

Definition chars (s : string) : list ascii := list_ascii_of_string s.
Definition str (l : list ascii) : string := string_of_list_ascii l.

(** [s.isascii()]: every character is below 128. *)
Definition isascii (s : string) : bool :=
  forallb (fun c => (N_of_ascii c <? 128)%N) (chars s).

(** [str.isspace] on the ASCII range: TAB..CR, FS..US and the blank. *)
Definition is_space (c : ascii) : bool :=
  let n := N_of_ascii c in
  ((9 <=? n) && (n <=? 13) || (28 <=? n) && (n <=? 32))%N.

Definition is_upper (c : ascii) : bool :=
  let n := N_of_ascii c in ((65 <=? n) && (n <=? 90))%N.
Definition is_lower (c : ascii) : bool :=
  let n := N_of_ascii c in ((97 <=? n) && (n <=? 122))%N.
Definition is_digit (c : ascii) : bool :=
  let n := N_of_ascii c in ((48 <=? n) && (n <=? 57))%N.

(** The class [\w] of the [re] module on the ASCII range. *)
Definition is_word (c : ascii) : bool :=
  is_upper c || is_lower c || is_digit c || bool_decide (c = "_"%char).

Definition lower_char (c : ascii) : ascii :=
  if is_upper c then ascii_of_N (N_of_ascii c + 32) else c.

(** [s.lower()] of an ASCII text *)
Definition lower (s : string) : string := str (map lower_char (chars s)).

Definition upper_char (c : ascii) : ascii :=
  if is_lower c then ascii_of_N (N_of_ascii c - 32) else c.

(** [s.upper()] of an ASCII text *)
Definition upper (s : string) : string := str (map upper_char (chars s)).

Fixpoint lstrip_chars (l : list ascii) : list ascii :=
  match l with
  | c :: r => if is_space c then lstrip_chars r else l
  | [] => []
  end.

Definition strip_chars (l : list ascii) : list ascii :=
  rev (lstrip_chars (rev (lstrip_chars l))).

(** [s.strip()] of an ASCII text *)
Definition strip (s : string) : string := str (strip_chars (chars s)).

(** [p] is a prefix of [s], as [s.startswith(p)]. *)
Fixpoint starts_with (p s : list ascii) : bool :=
  match p, s with
  | [], _ => true
  | a :: p', b :: s' => bool_decide (a = b) and_then starts_with p' s'
  | _ :: _, [] => false
  end.

(** Index of the first occurrence of [p] in [s], counting from [i];
    [-1] when there is none. *)
Fixpoint find_chars (p s : list ascii) (i : Z) : Z :=
  if starts_with p s then i
  else match s with
       | [] => -1
       | _ :: r => find_chars p r (i + 1)
       end.

(** [s.find(sub)] *)
Definition find (s sub : string) : Z := find_chars (chars sub) (chars s) 0.

(** [sub in s] *)
Definition contains (sub s : string) : bool :=
  negb (Z.eqb (find s sub) (-1)).

(** Every index at which [p] occurs in [s] (occurrences may overlap), in
    increasing order, counting from [i]. *)
Fixpoint occurrences_chars (p s : list ascii) (i : Z) : list Z :=
  (if starts_with p s then [i] else []) ++
  match s with
  | [] => []
  | _ :: r => occurrences_chars p r (i + 1)
  end.

(** [s[a:b]] for indices that are not negative. *)
Definition slice (s : string) (a b : Z) : string :=
  str (take (Z.to_nat (b - a)) (drop (Z.to_nat a) (chars s))).

(** [s.split(sep)] for a separator that is not empty: [acc] holds the
    current piece in reverse, [skip] the characters of a separator still
    to be passed over. *)
Fixpoint split_go (sep s acc : list ascii) (skip : nat) : list string :=
  match s with
  | [] => [str (rev acc)]
  | c :: r =>
      match skip with
      | S k => split_go sep r acc k
      | O =>
          if starts_with sep s
          then str (rev acc) :: split_go sep r [] (length sep - 1)
          else split_go sep r (c :: acc) 0
      end
  end.

Definition split (s sep : string) : list string :=
  split_go (chars sep) (chars s) [] 0.

(** [s.split()] of an ASCII text: the maximal runs of characters that are
    not white space. *)
Fixpoint words_go (s : list ascii) (acc : list ascii) : list string :=
  match s with
  | [] => match acc with [] => [] | _ => [str (rev acc)] end
  | c :: r =>
      if is_space c
      then match acc with
           | [] => words_go r []
           | _ => str (rev acc) :: words_go r []
           end
      else words_go r (c :: acc)
  end.

Definition words (s : string) : list string := words_go (chars s) [].

End PyStr.

Import PyStr.

(** ** The fragment of Python's [re] that the validator uses

    The patterns of [_is_likely_column_reference] are built from literal
    text, one character of a set, [c*] and [c+] over a character class, the
    word boundary [\b] and concatenation.  [re.search] is truthy exactly
    when some match exists, so the order in which a backtracking matcher
    tries the alternatives plays no role.  The subject is an ASCII text, on
    which the classes [\w] and [\s] are [is_word] and [is_space]. *)

Module Re.

Inductive regex : Type :=
| Lit (l : list ascii)            (* literal text *)
| Class (f : ascii -> bool)       (* one character of a set *)
| Star (f : ascii -> bool)        (* c* *)
| Plus (f : ascii -> bool)        (* c+ *)
| WordBoundary                    (* \b *)
| Cat (r1 r2 : regex).

(** The character before the current position after reading [w]. *)
Definition last_char (prev : option ascii) (w : list ascii) : option ascii :=
  match last w with
  | Some c => Some c
  | None => prev
  end.

Definition wordish (o : option ascii) : bool :=
  match o with
  | Some c => is_word c
  | None => false
  end.

(** [\b]: exactly one side of the position is a word character (the start
    and the end of the text count as non-word). *)
Definition at_boundary (prev : option ascii) (rest : list ascii) : bool :=
  xorb (wordish prev) (wordish (head rest)).

(** The matcher, in continuation-passing style: [k] receives the
    character before and the text after the match. *)
Fixpoint star_k (f : ascii -> bool) (prev : option ascii) (s : list ascii)
    (k : option ascii -> list ascii -> bool) : bool :=
  k prev s or_else
  match s with
  | c :: r => f c and_then star_k f (Some c) r k
  | [] => false
  end.

Fixpoint match_k (r : regex) (prev : option ascii) (s : list ascii)
    (k : option ascii -> list ascii -> bool) : bool :=
  match r with
  | Lit l => starts_with l s and_then k (last_char prev l) (drop (length l) s)
  | Class f =>
      match s with
      | c :: r => f c and_then k (Some c) r
      | [] => false
      end
  | Star f => star_k f prev s k
  | Plus f =>
      match s with
      | c :: r => f c and_then star_k f (Some c) r k
      | [] => false
      end
  | WordBoundary => at_boundary prev s and_then k prev s
  | Cat r1 r2 => match_k r1 prev s (fun p s' => match_k r2 p s' k)
  end.

Fixpoint search_from (r : regex) (prev : option ascii) (s : list ascii) : bool :=
  match_k r prev s (fun _ _ => true) or_else
  match s with
  | c :: rest => search_from r (Some c) rest
  | [] => false
  end.

(** [bool(re.search(r, s))] *)
Definition search (r : regex) (s : string) : bool :=
  search_from r None (chars s).

(** What a regex denotes: [w], found after [prev] and before [post], is
    matched by [r]. *)
Fixpoint den (r : regex) (prev : option ascii) (w post : list ascii) : Prop :=
  match r with
  | Lit l => w = l
  | Class f => exists c, w = [c] /\ f c = true
  | Star f => Forall (fun c => f c = true) w
  | Plus f => w <> [] /\ Forall (fun c => f c = true) w
  | WordBoundary => w = [] /\ at_boundary prev post = true
  | Cat r1 r2 =>
      exists w1 w2, w = w1 ++ w2 /\
        den r1 prev w1 (w2 ++ post) /\
        den r2 (last_char prev w1) w2 post
  end.

End Re.

(** ** Python values, exceptions and the state of one agent *)

(** A value of a database row.  Of a value that is neither [None] nor a
    [bool], an [int] or a [str] (a [float], as [pandas] makes of a number in
    a column with missing values, a [Decimal], a [datetime], ...) the
    program takes the truth value and [str()] only. *)
Inductive cell : Type :=
| CNull
| CBool (b : bool)
| CInt (z : Z)
| CStr (s : string)
| COther (truth : bool) (text : string).

(** A row as the driver's [dict_row] factory returns it, and as
    [DataFrame.to_dict('records')] gives it back. *)
Definition row : Type := list (string * cell).

(** A [pandas.DataFrame] built from the rows of a cursor. *)
Inductive dataframe : Type :=
| DataFrame (rows : list row).

Inductive pyval : Type :=
| PyNone
| PyBool (b : bool)
| PyInt (z : Z)
| PyStr (s : string)
| PyTime (t : Z)                  (* a [datetime] *)
| PyRecords (rows : list row).    (* a list of dicts *)

(** Exceptions: the two [except] clauses of the connector tell
    [psycopg.Error] from the other subclasses of [Exception]. *)
Inductive exn : Type :=
| PsycopgError (msg : string)
| PyError (cls msg : string).

Inductive result (A : Type) : Type :=
| Ok (a : A)
| Raise (e : exn).
Arguments Ok {A} a.
Arguments Raise {A} e.

Inductive level : Type := DEBUG | INFO | WARNING | ERROR.

(** What [vanna_instance.train] is given. *)
Inductive train_arg : Type :=
| TrainDocumentation (doc : string)
| TrainDdl (ddl : string)
| TrainQuestionSql (question sql : string).

(** The calls to the collaborators, in the order they are made. *)
Inductive call : Type :=
| CallPsycopgConnect                              (* psycopg.connect(...) *)
| CallConnectionClosed                            (* connection.closed *)
| CallCursorExecute (query : string) (params : list cell)
| CallCommit
| CallRollback
| CallCreateOracle                                (* MyVanna(config=...) *)
| CallConnectToPostgres                           (* vanna.connect_to_postgres *)
| CallTrain (arg : train_arg)                     (* vanna.train(...) *)
| CallGenerateSql (question : string)             (* vanna.generate_sql *)
| CallRewrite (last_question : pyval) (new_question : string)
| CallLoadSampleQueries                           (* training_loader *)
| CallListEmbeddings                              (* os.path.exists, os.listdir *)
| CallNow.                                        (* datetime.now() *)

(** What [cursor.execute] leaves behind: rows to fetch when the statement
    has a description, a row count otherwise. *)
Inductive cursor_result : Type :=
| Fetched (rows : list row)
| Affected (rowcount : Z).

(** A schema snapshot: the dict of [get_schema_info], in insertion order. *)
Definition snapshot : Type := list (cell * list row).

Global Instance cell_eq_dec : EqDecision cell.
Proof. solve_decision. Defined.

Definition cell_encode (c : cell) : unit + bool + Z + string + bool * string :=
  match c with
  | CNull => inl (inl (inl (inl tt)))
  | CBool b => inl (inl (inl (inr b)))
  | CInt z => inl (inl (inr z))
  | CStr s => inl (inr s)
  | COther truth text => inr (truth, text)
  end.

Definition cell_decode (x : unit + bool + Z + string + bool * string) : cell :=
  match x with
  | inl (inl (inl (inl _))) => CNull
  | inl (inl (inl (inr b))) => CBool b
  | inl (inl (inr z)) => CInt z
  | inl (inr s) => CStr s
  | inr (truth, text) => COther truth text
  end.

Global Instance cell_countable : Countable cell.
Proof.
  apply (inj_countable' cell_encode cell_decode).
  intros []; reflexivity.
Defined.

(** The order in which Python iterates over a set: some enumeration of its
    elements. *)
Record SetOrder : Type := {
  iter_strs : gset string -> list string;
  iter_strs_perm : forall X, iter_strs X ≡ₚ elements X;
  iter_cells : gset cell -> list cell;
  iter_cells_perm : forall X, iter_cells X ≡ₚ elements X
}.

(** One admissible order. *)
Definition canonical_order : SetOrder :=
  {| iter_strs := elements; iter_strs_perm := fun X => reflexivity _;
     iter_cells := elements; iter_cells_perm := fun X => reflexivity _ |}.

(** The environment of an agent: its configuration and its collaborators.
    A collaborator answers as a function of the calls made before. *)
Record Env : Type := {
  (* VANNA_CONFIG *)
  config_api_key : pyval;
  config_force_retrain : bool;
  config_load_training_on_startup : bool;
  (* PromptManager: static texts *)
  system_prompt : string;
  schema_enforcement_prompt : string;
  (* str() of the values that are not scalars *)
  repr_compound : pyval -> string;
  (* psycopg *)
  psycopg_connect : list call -> result unit;
  connection_closed : list call -> bool;
  cursor_execute : list call -> string -> list cell -> result cursor_result;
  connection_commit : list call -> result unit;
  connection_rollback : list call -> result unit;
  (* the generation engine (class MyVanna) *)
  oracle_create : list call -> result unit;
  oracle_connect_to_postgres : list call -> result unit;
  oracle_train : list call -> train_arg -> result unit;
  oracle_generate_sql : list call -> string -> result pyval;
  oracle_generate_rewritten_question : list call -> pyval -> string -> result pyval;
  (* TrainingDataLoader.load_sample_queries: validated (question, sql) pairs *)
  load_sample_queries : list call -> result (list (string * string));
  (* os.path.exists(persist_dir) and os.listdir(persist_dir) *)
  embeddings_exist : list call -> result bool;
  (* datetime.now() *)
  now : list call -> Z;
  (* pandas: pd.DataFrame(rows).to_dict('records'), and the rows that
     pd.DataFrame(rows).iterrows() yields *)
  frame_records : list row -> list row;
  frame_iterrows : list row -> list row;
  set_order : SetOrder
}.

(** The mutable state: the fields of [VannaAgent], of its
    [PostgreSQLConnector] and of its [SchemaManager], the calls made and the
    log records written. *)
Record State : Type := mkState {
  initialized : bool;
  vanna_instance : bool;                             (* is not None *)
  conversation_history : list (gmap string pyval);
  max_history_length : nat;
  connection : bool;                                 (* is not None *)
  _schema_cache : option snapshot;
  calls : list call;
  logs : list (level * string)
}.

Definition set_initialized (b : bool) (s : State) : State :=
  mkState b (vanna_instance s) (conversation_history s) (max_history_length s)
          (connection s) (_schema_cache s) (calls s) (logs s).
Definition set_vanna_instance (b : bool) (s : State) : State :=
  mkState (initialized s) b (conversation_history s) (max_history_length s)
          (connection s) (_schema_cache s) (calls s) (logs s).
Definition set_conversation_history (h : list (gmap string pyval)) (s : State) : State :=
  mkState (initialized s) (vanna_instance s) h (max_history_length s)
          (connection s) (_schema_cache s) (calls s) (logs s).
Definition set_connection (b : bool) (s : State) : State :=
  mkState (initialized s) (vanna_instance s) (conversation_history s)
          (max_history_length s) b (_schema_cache s) (calls s) (logs s).
Definition set_schema_cache (c : option snapshot) (s : State) : State :=
  mkState (initialized s) (vanna_instance s) (conversation_history s)
          (max_history_length s) (connection s) c (calls s) (logs s).
Definition add_call (c : call) (s : State) : State :=
  mkState (initialized s) (vanna_instance s) (conversation_history s)
          (max_history_length s) (connection s) (_schema_cache s)
          (calls s ++ [c]) (logs s).
Definition add_log (l : level) (msg : string) (s : State) : State :=
  mkState (initialized s) (vanna_instance s) (conversation_history s)
          (max_history_length s) (connection s) (_schema_cache s)
          (calls s) (logs s ++ [(l, msg)]).

(** Computations: a state transformer that returns or raises; the state
    reached when an exception is raised is kept. *)
Definition M (A : Type) : Type := State -> result A * State.

Global Instance M_ret : MRet M := fun A a s => (Ok a, s).
Global Instance M_bind : MBind M := fun A B f m s =>
  match m s with
  | (Ok a, s') => f a s'
  | (Raise e, s') => (Raise e, s')
  end.

Definition bind {A B : Type} (m : M A) (f : A -> M B) : M B := mbind f m.

Notation "x <- m ; k" := (bind m (fun x => k))
  (at level 20, m at level 100, k at level 200, only parsing).

Definition raise {A : Type} (e : exn) : M A := fun s => (Raise e, s).

(** [try: m  except Exception as e: h e] *)
Definition try_except {A : Type} (m : M A) (h : exn -> M A) : M A := fun s =>
  match m s with
  | (Ok a, s') => (Ok a, s')
  | (Raise e, s') => h e s'
  end.

Definition get_state : M State := fun s => (Ok s, s).
Definition modify (f : State -> State) : M unit := fun s => (Ok tt, f s).

(** [logger.<level>(msg)]; the values formatted into a message are left out. *)
Definition log (l : level) (msg : string) : M unit := modify (add_log l msg).

(** A call to a collaborator: recorded, and answered from the calls before. *)
Definition invoke {A : Type} (c : call) (answer : list call -> result A) : M A :=
  fun s => (answer (calls s), add_call c s).

Definition lift {A : Type} (r : result A) : M A := fun s => (r, s).

(** [for x in l: body x], stopping at the first exception. *)
Fixpoint for_each {A : Type} (l : list A) (body : A -> M unit) : M unit :=
  match l with
  | [] => mret tt
  | x :: r => body x ;; for_each r body
  end.

Definition exn_msg (e : exn) : string :=
  match e with
  | PsycopgError msg => msg
  | PyError _ msg => msg
  end.

(** Truth value of a Python value. *)
Definition truthy (v : pyval) : bool :=
  match v with
  | PyNone => false
  | PyBool b => b
  | PyInt z => negb (Z.eqb z 0)
  | PyStr s => negb (bool_decide (s = ""))
  | PyTime _ => true
  | PyRecords rows => negb (bool_decide (rows = []))
  end.

(** [v.strip()]: a method of [str] only. *)
Definition py_strip (v : pyval) : M string :=
  match v with
  | PyStr s => mret (strip s)
  | _ => raise (PyError "AttributeError" "object has no attribute 'strip'")
  end.

(** [row[key]] *)
Definition row_get (r : row) (key : string) : M cell :=
  match list_find (fun kv => kv.1 = key) r with
  | Some (_, kv) => mret kv.2
  | None => raise (PyError "KeyError" ("'" +:+ key +:+ "'"))
  end.

(** [d[k] = v] on a dict kept in insertion order. *)
Fixpoint dict_set (d : snapshot) (k : cell) (v : list row) : snapshot :=
  match d with
  | [] => [(k, v)]
  | (k', v') :: r => if decide (k' = k) then (k, v) :: r else (k', v') :: dict_set r k v
  end.

(** ** [PostgreSQLConnector] (src/database/connector.py) *)

Module Connector.
Section WithEnv.
Variable E : Env.

(** [connect]: the keyword arguments are prepared and [psycopg.connect] is
    called; the preparation ([int(port)]) is part of the collaborator's
    answer. *)
Definition connect : M bool :=
  try_except
    (log INFO "Attempting to connect to PostgreSQL" ;;
     invoke CallPsycopgConnect (psycopg_connect E) ;;
     modify (set_connection true) ;;
     log INFO "Successfully connected to PostgreSQL database." ;;
     mret true)
    (fun e =>
       match e with
       | PsycopgError _ =>
           log ERROR "Error connecting to PostgreSQL database" ;;
           log DEBUG "Connection arguments used (excluding password)" ;;
           modify (set_connection false) ;;
           mret false
       | PyError _ _ =>
           log ERROR "Unexpected error connecting to PostgreSQL database" ;;
           modify (set_connection false) ;;
           mret false
       end).

(** [not self.connection or self.connection.closed] *)
Definition connection_inactive : M bool :=
  s <- get_state;
  if connection s
  then invoke CallConnectionClosed (fun tr => Ok (connection_closed E tr))
  else mret true.

(** [self.connection and not self.connection.closed] *)
Definition connection_open : M bool :=
  s <- get_state;
  if connection s
  then closed <- invoke CallConnectionClosed (fun tr => Ok (connection_closed E tr));
       mret (negb closed)
  else mret false.

Definition execute_query (query : string) (params : list cell) : M (option dataframe) :=
  try_except
    (inactive <- connection_inactive;
     reconnected ←
       (if inactive
        then log INFO "Connection is not active. Attempting to reconnect." ;;
             connect
        else mret true);
     if negb reconnected
     then log ERROR "Failed to establish database connection for query execution." ;;
          mret None
     else
       s <- get_state;
       if negb (connection s)
       then log ERROR "Database connection is None even after connect attempt." ;;
            mret None
       else
         log DEBUG "Executing query" ;;
         r <- invoke (CallCursorExecute query params)
                    (fun tr => cursor_execute E tr query params);
         match r with
         | Fetched rows =>
             (* pd.DataFrame(rows) if rows else pd.DataFrame() *)
             log INFO "Query executed successfully" ;;
             mret (Some (DataFrame rows))
         | Affected rowcount =>
             invoke CallCommit (connection_commit E) ;;
             log INFO "Non-SELECT query executed successfully." ;;
             mret (Some (DataFrame
                     [[("status", CStr "Query executed successfully");
                       ("rows_affected", CInt rowcount)]]))
         end)
    (fun e =>
       match e with
       | PsycopgError _ =>
           log ERROR "Database error executing query" ;;
           open <- connection_open;
           (if open
            then try_except
                   (invoke CallRollback (connection_rollback E) ;;
                    log INFO "Transaction rolled back due to error.")
                   (fun rb_e =>
                      match rb_e with
                      | PsycopgError _ => log ERROR "Error during rollback"
                      | PyError _ _ => raise rb_e
                      end)
            else mret tt) ;;
           mret None
       | PyError _ _ =>
           log ERROR "Unexpected error executing query" ;;
           mret None
       end).

Definition newline : string := String (ascii_of_N 10) "".

(** The two statements of [get_schema_info], with the line breaks and the
    indentation of their triple-quoted texts. *)
Definition tables_query : string :=
  newline +:+
  "        SELECT table_name " +:+ newline +:+
  "        FROM information_schema.tables " +:+ newline +:+
  "        WHERE table_schema = 'public' AND table_type = 'BASE TABLE'" +:+ newline +:+
  "        ORDER BY table_name;" +:+ newline +:+
  "        ".

Definition columns_query : string :=
  newline +:+
  "                SELECT column_name, data_type, udt_name, is_nullable," +:+ newline +:+
  "                       column_default, character_maximum_length, numeric_precision, numeric_scale" +:+ newline +:+
  "                FROM information_schema.columns" +:+ newline +:+
  "                WHERE table_schema = 'public' AND table_name = %s" +:+ newline +:+
  "                ORDER BY ordinal_position;" +:+ newline +:+
  "                ".

(** [df is None or df.empty] *)
Definition none_or_empty (df : option dataframe) : bool :=
  match df with
  | None => true
  | Some (DataFrame rows) => bool_decide (rows = [])
  end.

(** The body of the loop over [tables_df.iterrows()]. *)
Definition describe_table (schema_info : snapshot) (r : row) : M snapshot :=
  table_name <- row_get r "table_name";
  columns_df <- execute_query columns_query [table_name];
  match columns_df with
  | Some (DataFrame (c :: cols)) =>
      (* columns_df.to_dict('records') *)
      mret (dict_set schema_info table_name (frame_records E (c :: cols)))
  | _ =>
      log WARNING "No columns found for table or error fetching columns." ;;
      mret (dict_set schema_info table_name [])
  end.

Fixpoint describe_tables (schema_info : snapshot) (rows : list row) : M snapshot :=
  match rows with
  | [] => mret schema_info
  | r :: rest =>
      schema_info' ← describe_table schema_info r;
      describe_tables schema_info' rest
  end.

Definition get_schema_info : M snapshot :=
  try_except
    (tables_df <- execute_query tables_query [];
     match tables_df with
     | Some (DataFrame (r :: rows)) =>
         schema_info <- describe_tables [] (frame_iterrows E (r :: rows));
         log INFO "Successfully retrieved schema" ;;
         mret schema_info
     | _ =>
         log WARNING "No tables found in 'public' schema or error fetching tables." ;;
         mret []
     end)
    (fun e =>
       log ERROR "Error getting schema info" ;;
       mret []).

End WithEnv.
End Connector.

(** ** [SchemaManager] (src/database/schema_manager.py) *)

Module SchemaManager.

Definition newline : string := String (ascii_of_N 10) "".

(** [column.get(key, default)] *)
Definition row_get_default (r : row) (key : string) (default : cell) : cell :=
  match list_find (fun kv => kv.1 = key) r with
  | Some (_, kv) => kv.2
  | None => default
  end.

(** Truth value and [str()] of a database value. *)
Definition cell_truthy (c : cell) : bool :=
  match c with
  | CNull => false
  | CBool b => b
  | CInt z => negb (Z.eqb z 0)
  | CStr s => negb (bool_decide (s = ""))
  | COther truth _ => truth
  end.

Definition cell_str (c : cell) : string :=
  match c with
  | CNull => "None"
  | CBool true => "True"
  | CBool false => "False"
  | CInt z => pretty z
  | CStr s => s
  | COther _ text => text
  end.

Definition _normalize_data_type (data_type : cell) (column : row) : cell :=
  if decide (data_type = CStr "character varying")
  then
    let max_length := row_get_default column "character_maximum_length" CNull in
    if cell_truthy max_length
    then CStr ("VARCHAR(" +:+ cell_str max_length +:+ ")")
    else CStr "VARCHAR"
  else if decide (data_type = CStr "timestamp with time zone") then CStr "TIMESTAMPTZ"
  else if decide (data_type = CStr "timestamp without time zone") then CStr "TIMESTAMP"
  else data_type.

Definition _get_column_comment (column_name data_type : cell) : M string :=
  if decide (column_name ∈ [CStr "id"; CStr "experiment_id"])
  then mret (cell_str column_name +:+ ": Primary/Foreign key identifier")
  else if decide (column_name = CStr "store_name")
  then mret (cell_str column_name +:+ ": Store identification field")
  else
    match data_type with
    | CStr d =>
        if contains "jsonb" (lower d)
        then mret " -- JSONB column for flexible configuration"
        else mret ""
    | _ => raise (PyError "AttributeError" "object has no attribute 'lower'")
    end.

Definition _get_table_notes (table_name : cell) : string :=
  if decide (table_name = CStr "experiments")
  then newline +:+ "-- Main experiments table with unified ID system" +:+
       newline +:+ "-- Use experiments.id for all PostgreSQL table joins" +:+
       newline +:+ "-- experiment_goal: Defines calculation metric (conversion_rate, average_order_value, revenue_per_visitor)"
  else if decide (table_name = CStr "experiment_daily_metrics")
  then newline +:+ "-- Precomputed daily metrics for fast analytics" +:+
       newline +:+ "-- IMPORTANT: Uses is_control_group for control group identification" +:+
       newline +:+ "-- Join: experiments.id = experiment_daily_metrics.experiment_id" +:+
       newline +:+ "-- Contains: views, orders, sales_revenue for uplift calculations" +:+
       newline +:+ "-- PRIORITY: Always use this table instead of raw event tables"
  else if decide (table_name = CStr "experiment_groups")
  then newline +:+ "-- Individual test groups within experiments" +:+
       newline +:+ "-- IMPORTANT: Uses is_control_group (unified with experiment_daily_metrics)" +:+
       newline +:+ "-- Join: experiments.id = experiment_groups.experiment_id"
  else "".

(** The body of the loop of [generate_enhanced_ddl] over the columns. *)
Definition column_definition (column : row) : M string :=
  let column_name := row_get_default column "column_name" (CStr "") in
  let data_type := row_get_default column "data_type" (CStr "text") in
  match row_get_default column "is_nullable" (CStr "YES") with
  | CStr nullable =>
      let is_nullable := upper nullable in
      let column_default := row_get_default column "column_default" (CStr "") in
      let nullable_str := if decide (is_nullable = "YES") then "NULL" else "NOT NULL" in
      let data_type := _normalize_data_type data_type column in
      let column_def :=
        "    " +:+ cell_str column_name +:+ " " +:+ cell_str data_type +:+ " " +:+
        nullable_str in
      let column_def :=
        if cell_truthy column_default && negb (bool_decide (column_default = CStr "NULL"))
        then column_def +:+ " DEFAULT " +:+ cell_str column_default
        else column_def in
      comment <- _get_column_comment column_name data_type;
      mret (column_def +:+ comment)
  | _ => raise (PyError "AttributeError" "object has no attribute 'upper'")
  end.

Fixpoint column_definitions (columns : list row) : M (list string) :=
  match columns with
  | [] => mret []
  | column :: rest =>
      column_def <- column_definition column;
      column_defs <- column_definitions rest;
      mret (column_def :: column_defs)
  end.

(** [sep.join(parts)] *)
Fixpoint join (sep : string) (parts : list string) : string :=
  match parts with
  | [] => ""
  | [part] => part
  | part :: rest => part +:+ sep +:+ join sep rest
  end.

Definition generate_enhanced_ddl (table_name : cell) (columns : list row) : M string :=
  column_defs <- column_definitions columns;
  mret ("-- Table: " +:+ cell_str table_name +:+ newline +:+
        "CREATE TABLE " +:+ cell_str table_name +:+ " (" +:+ newline +:+
        join ("," +:+ newline) column_defs +:+
        newline +:+ ");" +:+
        _get_table_notes table_name).

Section WithEnv.
Variable E : Env.

Definition get_schema_info : M snapshot :=
  s <- get_state;
  match _schema_cache s with
  | Some schema => mret schema
  | None =>
      schema <- Connector.get_schema_info E;
      modify (set_schema_cache (Some schema)) ;;
      mret schema
  end.

(** The inner loop of [get_all_column_names] over the columns of a table. *)
Fixpoint add_column_names (columns : list row) (all_columns : gset cell) : M (gset cell) :=
  match columns with
  | [] => mret all_columns
  | col :: rest =>
      name <- row_get col "column_name";
      add_column_names rest (all_columns ∪ {[ name ]})
  end.

Fixpoint add_table_columns (schema_info : snapshot) (all_columns : gset cell) : M (gset cell) :=
  match schema_info with
  | [] => mret all_columns
  | (_, columns) :: rest =>
      all_columns' ← add_column_names columns all_columns;
      add_table_columns rest all_columns'
  end.

Definition get_all_column_names : M (gset cell) :=
  schema_info <- get_schema_info;
  add_table_columns schema_info ∅.

End WithEnv.
End SchemaManager.

(** ** [SQLValidator] (src/validation/sql_validator.py) *)

Module SQLValidator.

(** The denylist of [__init__]. *)
Definition _invalid_patterns : gset string :=
  list_to_set
    ["conversion_rate"; "revenue"; "clicks"; "impressions"; "created_by";
     "user_id"; "tags"; "priority"; "budget"; "success_rate";
     "participant_count"].

(** The set that [_validate_cte_query] checks. *)
Definition strict_invalid_patterns : gset string :=
  list_to_set
    ["clicks"; "impressions"; "ctr"; "roas"; "created_by"; "user_id"; "tags";
     "priority"; "budget"; "participant_count"].

Definition _is_basic_sql_valid (sql : pyval) : bool :=
  match sql with
  | PyStr s =>
      if bool_decide (s = "") then false
      else
        let sql_lower := strip (lower s) in
        existsb (fun keyword => contains keyword sql_lower)
                ["select"; "insert"; "update"; "delete"]
  | _ => false
  end.

Definition error_indicators : list string :=
  ["無法根據現有資料庫結構生成此查詢";
   "sorry"; "error"; "unable"; "cannot"; "無法"; "失敗"].

Definition _contains_error_message (sql : string) : bool :=
  let sql_lower := strip (lower sql) in
  existsb (fun indicator => contains indicator sql_lower) error_indicators.

Definition column_error (pattern : string) : string :=
  "Column '" +:+ pattern +:+ "' does not exist in schema".

(** The five patterns of [_is_likely_column_reference]; the denylisted name
    is interpolated as it is, and stands for itself since it is made of
    letters and underscores. *)
Definition is_comparison (c : ascii) : bool :=
  bool_decide (c = "="%char) || bool_decide (c = "<"%char) || bool_decide (c = ">"%char).

Definition is_equals (c : ascii) : bool := bool_decide (c = "="%char).

Definition keyword_comparison (keyword pattern : string) : Re.regex :=
  (* keyword\s+{pattern}\s*[=<>] *)
  Re.Cat (Re.Lit (chars keyword))
    (Re.Cat (Re.Plus is_space)
       (Re.Cat (Re.Lit (chars pattern))
          (Re.Cat (Re.Star is_space) (Re.Class is_comparison)))).

Definition column_ref_patterns (pattern : string) : list Re.regex :=
  [ (* \w+\.{pattern}\b *)
    Re.Cat (Re.Plus is_word)
      (Re.Cat (Re.Lit (chars "."))
         (Re.Cat (Re.Lit (chars pattern)) Re.WordBoundary));
    keyword_comparison "where" pattern;
    keyword_comparison "and" pattern;
    keyword_comparison "or" pattern;
    (* on\s+\w+\.{pattern}\s*= *)
    Re.Cat (Re.Lit (chars "on"))
      (Re.Cat (Re.Plus is_space)
         (Re.Cat (Re.Plus is_word)
            (Re.Cat (Re.Lit (chars "."))
               (Re.Cat (Re.Lit (chars pattern))
                  (Re.Cat (Re.Star is_space) (Re.Class is_equals)))))) ].

(** [re.search] on an ASCII [sql_lower]. *)
Definition _is_likely_column_reference (sql_lower pattern : string) : bool :=
  existsb (fun regex_pattern => Re.search regex_pattern sql_lower)
          (column_ref_patterns pattern).

(** [parts[-1]] of a list that is not empty. *)
Definition last_of (l : list string) : string := default "" (last l).

(** One turn of the loop over the parts of the SELECT clause. *)
Definition add_alias (aliases : gset string) (part : string) : gset string :=
  let part := strip part in
  if contains " as " part
  then aliases ∪ {[ strip (last_of (split part " as ")) ]}
  else if contains " " part &&
          negb (existsb (fun func => contains func part)
                        ["count"; "sum"; "avg"; "round"; "nullif"])
  then
    let ws := words part in
    if decide (2 <= length ws)%nat then aliases ∪ {[ last_of ws ]} else aliases
  else aliases.

(** Nothing in the body of its [try] raises. *)
Definition _extract_select_aliases (sql : string) : gset string :=
  let sql_lower := lower sql in
  let select_start := find sql_lower "select" in
  let from_start := find sql_lower "from" in
  if negb (Z.eqb select_start (-1)) && negb (Z.eqb from_start (-1))
  then
    let select_clause := strip (slice sql_lower (select_start + 6) from_start) in
    foldl add_alias ∅ (split select_clause ",")
  else ∅.

(** The loop of [_is_invalid_column_usage] over the occurrences. *)
Fixpoint invalid_occurrence (sql_lower : string) (order_by_pos : Z)
    (pattern_positions : list Z) : bool :=
  match pattern_positions with
  | [] => false
  | pos :: rest =>
      if negb (Z.eqb order_by_pos (-1)) && (order_by_pos <? pos)
      then invalid_occurrence sql_lower order_by_pos rest
      else
        let select_pos := find sql_lower "select" in
        let from_pos := find sql_lower "from" in
        if negb (Z.eqb select_pos (-1)) && negb (Z.eqb from_pos (-1)) &&
           (select_pos <? pos) && (pos <? from_pos)
        then invalid_occurrence sql_lower order_by_pos rest
        else true
  end.

Definition _is_invalid_column_usage (sql_lower pattern : string)
    (select_aliases : gset string) : bool :=
  if decide (pattern ∈ select_aliases) then false
  else
    let pattern_positions :=
      occurrences_chars (chars pattern) (chars sql_lower) 0 in
    let order_by_pos := find sql_lower "order by" in
    invalid_occurrence sql_lower order_by_pos pattern_positions.

(** [{col.lower() for col in all_columns}] *)
Fixpoint lower_all (cols : list cell) (names : gset string) : M (gset string) :=
  match cols with
  | [] => mret names
  | CStr s :: rest => lower_all rest (names ∪ {[ lower s ]})
  | _ :: _ => raise (PyError "AttributeError" "object has no attribute 'lower'")
  end.

(** The nested conditions of the loop of [_check_column_validity]. *)
Definition strict_rule_flags (sql_lower : string)
    (all_columns_lower select_aliases : gset string) (pattern : string) : bool :=
  (contains pattern sql_lower and_then bool_decide (pattern ∉ all_columns_lower))
  and_then bool_decide (pattern ∉ select_aliases)
  and_then _is_invalid_column_usage sql_lower pattern select_aliases.

(** The loop of [_check_column_validity] over the denylist. *)
Fixpoint check_patterns (sql_lower : string) (all_columns_lower select_aliases : gset string)
    (patterns : list string) : option string :=
  match patterns with
  | [] => None
  | pattern :: rest =>
      if strict_rule_flags sql_lower all_columns_lower select_aliases pattern
      then Some (column_error pattern)
      else check_patterns sql_lower all_columns_lower select_aliases rest
  end.

(** The nested conditions of the loop of [_validate_cte_query]. *)
Definition lenient_rule_flags (sql_lower : string) (all_columns_lower : gset string)
    (pattern : string) : bool :=
  (contains pattern sql_lower and_then bool_decide (pattern ∉ all_columns_lower))
  and_then _is_likely_column_reference sql_lower pattern.

(** The loop of [_validate_cte_query] over the strict set. *)
Fixpoint check_strict_patterns (sql_lower : string) (all_columns_lower : gset string)
    (patterns : list string) : option string :=
  match patterns with
  | [] => None
  | pattern :: rest =>
      if lenient_rule_flags sql_lower all_columns_lower pattern
      then Some (column_error pattern)
      else check_strict_patterns sql_lower all_columns_lower rest
  end.

(** [sql] is a common-table-expression query. *)
Definition is_cte (sql_lower : string) : bool :=
  contains "with " sql_lower && contains "as (" sql_lower.

Section WithEnv.
Variable E : Env.

Definition _validate_cte_query (sql_lower : string) : M (option string) :=
  all_columns <- SchemaManager.get_all_column_names E;
  all_columns_lower <- lower_all (iter_cells (set_order E) all_columns) ∅;
  mret (check_strict_patterns sql_lower all_columns_lower
          (iter_strs (set_order E) strict_invalid_patterns)).

Definition _check_column_validity (sql : string) : M (option string) :=
  let sql_lower := lower sql in
  if is_cte sql_lower
  then _validate_cte_query sql_lower
  else
    all_columns <- SchemaManager.get_all_column_names E;
    all_columns_lower <- lower_all (iter_cells (set_order E) all_columns) ∅;
    let select_aliases := _extract_select_aliases sql in
    mret (check_patterns sql_lower all_columns_lower select_aliases
            (iter_strs (set_order E) _invalid_patterns)).

(** The body of the [try] of [validate_sql]. *)
Definition validate_sql_body (sql question : pyval) : M (bool * option string) :=
  if negb (_is_basic_sql_valid sql)
  then mret (false, Some "Invalid SQL structure")
  else
    match sql with
    | PyStr s =>
        if _contains_error_message s
        then mret (false, Some "AI returned error message instead of SQL")
        else
          validation_error <- _check_column_validity s;
          match validation_error with
          | Some msg => mret (false, Some msg)
          | None => mret (true, None)
          end
    | _ => raise (PyError "AttributeError" "object has no attribute 'lower'")
    end.

Definition validate_sql (sql question : pyval) : M (bool * option string) :=
  try_except (validate_sql_body sql question)
    (fun e =>
       log ERROR "Error validating SQL" ;;
       mret (true, None)).

(** The loop of [get_column_suggestions] over the schema's columns. *)
Fixpoint collect_suggestions (invalid_lower : string) (cols : list cell)
    (suggestions : list cell) : M (list cell) :=
  match cols with
  | [] => mret suggestions
  | CStr c :: rest =>
      if contains invalid_lower (lower c) || contains (lower c) invalid_lower
      then collect_suggestions invalid_lower rest (suggestions ++ [CStr c])
      else collect_suggestions invalid_lower rest suggestions
  | _ :: _ => raise (PyError "AttributeError" "object has no attribute 'lower'")
  end.

Definition get_column_suggestions (invalid_column : string) : M (list cell) :=
  all_columns <- SchemaManager.get_all_column_names E;
  let invalid_lower := lower invalid_column in
  suggestions <- collect_suggestions invalid_lower (iter_cells (set_order E) all_columns) [];
  mret (take 3 suggestions).

End WithEnv.
End SQLValidator.

(** ** [VannaAgent] (src/agent/vanna_agent.py) *)

Module VannaAgent.

(** [item.get("type") == "question"] *)
Definition is_question (item : gmap string pyval) : bool :=
  match item !! "type" with
  | Some (PyStr t) => bool_decide (t = "question")
  | _ => false
  end.

(** [item.get("processed_question")] is truthy. *)
Definition has_processed_question (item : gmap string pyval) : bool :=
  match item !! "processed_question" with
  | Some v => truthy v
  | None => false
  end.

(** The loop of [_get_last_question] over [reversed(history)]. *)
Fixpoint scan_last_question (items : list (gmap string pyval)) : option pyval :=
  match items with
  | [] => None
  | item :: rest =>
      if is_question item && has_processed_question item
      then item !! "processed_question"
      else scan_last_question rest
  end.

Definition last_question_of (history : list (gmap string pyval)) : option pyval :=
  scan_last_question (rev history).

(** [l[-n:]] *)
Definition py_last {A : Type} (n : nat) (l : list A) : list A :=
  match n with
  | O => l
  | S _ => drop (length l - n) l
  end.

(** The history after [_add_to_conversation_history] stored the stamped
    entry. *)
Definition appended (max_length : nat) (history : list (gmap string pyval))
    (entry : gmap string pyval) : list (gmap string pyval) :=
  let history' := history ++ [entry] in
  if decide (max_length < length history')%nat
  then py_last max_length history'
  else history'.

(** [str(v)] *)
Definition py_str (repr : pyval -> string) (v : pyval) : string :=
  match v with
  | PyStr s => s
  | PyNone => "None"
  | PyBool true => "True"
  | PyBool false => "False"
  | PyInt z => pretty z
  | _ => repr v
  end.

(** [question.strip()] is [strip], the white space of an ASCII text. *)
Definition _validate_question (question : pyval) : bool :=
  match question with
  | PyStr s => negb (bool_decide (s = "")) && negb (bool_decide (strip s = ""))
  | _ => false
  end.

Definition newline : string := String (ascii_of_N 10) "".

Definition core_tables : list string :=
  ["experiments"; "experiment_groups"; "experiment_daily_metrics"; "shops"].

Definition critical_keywords : list string :=
  ["轉換率"; "conversion"; "價格測試"; "price-test"].

Definition not_initialized_error (question : pyval) : gmap string pyval :=
  {[ "error" := PyStr "Vanna AI agent not initialized"; "question" := question ]}.

Definition invalid_sql_message (validation_error : option string) : string :=
  "生成的SQL無效: " +:+ default "None" validation_error +:+
  ". 請重新描述您的問題或檢查欄位名稱。".

(** ["error" in result] *)
Definition is_error (result : gmap string pyval) : bool :=
  bool_decide (is_Some (result !! "error")).

Section WithEnv.
Variable E : Env.

(** [__init__] *)
Definition new_agent : State :=
  let s := mkState false false [] 20 false None [] [] in
  if truthy (config_api_key E) then s
  else add_log WARNING "No OpenAI API key provided. Please set VANNA_API_KEY in .env file." s.

Definition clear_conversation : M unit :=
  modify (set_conversation_history []) ;;
  log INFO "Conversation history cleared".

Definition get_conversation_summary : M (gmap string pyval) :=
  s <- get_state;
  if bool_decide (conversation_history s = [])
  then mret {[ "total_questions" := PyInt 0; "last_question_time" := PyNone ]}
  else
    let questions := List.filter is_question (conversation_history s) in
    mret {[ "total_questions" := PyInt (Z.of_nat (length questions));
            "last_question_time" :=
              (* questions[-1].get("timestamp") if questions else None *)
              match last questions with
              | Some item => default PyNone (item !! "timestamp")
              | None => PyNone
              end ]}.

Definition _get_last_question : M (option pyval) :=
  s <- get_state;
  mret (last_question_of (conversation_history s)).

Definition _add_to_conversation_history (entry : gmap string pyval) : M unit :=
  t <- invoke CallNow (fun tr => Ok (now E tr));
  s <- get_state;
  let history' := conversation_history s ++ [<["timestamp" := PyTime t]> entry] in
  if decide (max_history_length s < length history')%nat
  then modify (set_conversation_history (py_last (max_history_length s) history')) ;;
       log DEBUG "Conversation history cleaned up"
  else modify (set_conversation_history history').

(** A method call on [self.vanna_instance]. *)
Definition oracle_invoke {A : Type} (c : call) (answer : list call -> result A) : M A :=
  s <- get_state;
  if vanna_instance s
  then invoke c answer
  else raise (PyError "AttributeError" "'NoneType' object has no attribute").

Definition _rewrite_question_with_context (question : string) : M string :=
  last_question <- _get_last_question;
  match last_question with
  | None => mret question
  | Some last =>
      try_except
        (log INFO "Attempting to rewrite question with context." ;;
         rewritten_question <-
           oracle_invoke (CallRewrite last question)
             (fun tr => oracle_generate_rewritten_question E tr last question);
         if truthy rewritten_question
         then
           stripped <- py_strip rewritten_question;
           if decide (stripped <> strip question)
           then log INFO "Question rewritten" ;;
                mret stripped
           else log INFO "Question rewriting returned same or empty result, using original" ;;
                mret question
         else log INFO "Question rewriting returned same or empty result, using original" ;;
              mret question)
        (fun e =>
           log WARNING "Error rewriting question with context" ;;
           mret question)
  end.

Definition _validate_config : M bool :=
  if truthy (config_api_key E) then mret true
  else log ERROR "OpenAI API key not provided in configuration" ;;
       mret false.

Definition _create_vanna_instance : M bool :=
  try_except
    (invoke CallCreateOracle (oracle_create E) ;;
     modify (set_vanna_instance true) ;;
     log INFO "Vanna instance created successfully" ;;
     mret true)
    (fun e =>
       log ERROR "Error creating Vanna instance" ;;
       mret false).

Definition _connect_database : M bool :=
  try_except
    (connected <- Connector.connect E;
     if negb connected
     then log ERROR "Failed to connect to database" ;;
          mret false
     else
       oracle_invoke CallConnectToPostgres (oracle_connect_to_postgres E) ;;
       log INFO "Database connection established" ;;
       mret true)
    (fun e =>
       log ERROR "Error connecting to database" ;;
       mret false).

Definition _should_retrain : M bool :=
  if config_force_retrain E
  then log INFO "Force retrain enabled - will reload all training data" ;;
       mret true
  else
    found <- invoke CallListEmbeddings (embeddings_exist E);
    if found : bool
    then log INFO "Found existing embeddings" ;;
         mret false
    else log INFO "No existing embeddings found - will train" ;;
         mret true.

Definition _train_with_essential_prompts : M unit :=
  try_except
    (let combined_prompt :=
       system_prompt E +:+ newline +:+ newline +:+ schema_enforcement_prompt E in
     oracle_invoke (CallTrain (TrainDocumentation combined_prompt))
       (fun tr => oracle_train E tr (TrainDocumentation combined_prompt)) ;;
     log INFO "Essential prompt training completed")
    (fun e => log ERROR "Error training with essential prompts").

(** The body of the loop of [_train_with_expanded_schema] over
    [schema_info.items()]. *)
Definition train_table (entry : cell * list row) : M unit :=
  match entry.1 with
  | CStr table_name =>
      if decide (table_name ∈ core_tables)
      then
        ddl <- SchemaManager.generate_enhanced_ddl entry.1 entry.2;
        oracle_invoke (CallTrain (TrainDdl ddl))
          (fun tr => oracle_train E tr (TrainDdl ddl))
      else mret tt
  | _ => mret tt
  end.

Definition _train_with_expanded_schema : M unit :=
  try_except
    (schema_info <- SchemaManager.get_schema_info E;
     for_each schema_info train_table ;;
     log INFO "Database Schema Successfully Loaded" ;;
     log INFO "Schema training completed")
    (fun e => log ERROR "Error training with expanded schema").

Definition is_critical (query : string * string) : bool :=
  existsb (fun keyword => contains keyword (lower query.1)) critical_keywords.

Definition _load_critical_training_data : M unit :=
  try_except
    (queries <- invoke CallLoadSampleQueries (load_sample_queries E);
     let critical_queries := List.filter is_critical queries in
     for_each (take 10 critical_queries)
       (fun query =>
          oracle_invoke (CallTrain (TrainQuestionSql query.1 query.2))
            (fun tr => oracle_train E tr (TrainQuestionSql query.1 query.2))) ;;
     log INFO "Critical Training Data Successfully Loaded" ;;
     log INFO "Critical training data loading completed")
    (fun e => log ERROR "Error loading critical training data").

Definition _train_system : M unit :=
  try_except
    (retrain <- _should_retrain;
     if negb retrain
     then log INFO "Skipping training - embeddings already exist and force_retrain=False"
     else
       _train_with_essential_prompts ;;
       _train_with_expanded_schema ;;
       (if config_load_training_on_startup E
        then _load_critical_training_data
        else mret tt) ;;
       log INFO "Essential system training completed")
    (fun e => log ERROR "Error during system training").

Definition initialize : M bool :=
  try_except
    (valid <- _validate_config;
     if negb valid then mret false
     else
       created <- _create_vanna_instance;
       if negb created then mret false
       else
         connected <- _connect_database;
         if negb connected then mret false
         else
           _train_system ;;
           modify (set_initialized true) ;;
           log INFO "Vanna AI agent successfully initialized" ;;
           mret true)
    (fun e =>
       log ERROR "Error initializing Vanna AI agent" ;;
       mret false).

(** The body of the [try] of [ask]. *)
Definition ask_body (question : pyval) (use_conversation_context : bool)
    : M (gmap string pyval) :=
  if negb (_validate_question question)
  then mret {[ "error" := PyStr "Invalid question";
               "question" := PyStr (py_str (repr_compound E) question) ]}
  else
    match question with
    | PyStr q =>
        log INFO "Processing question" ;;
        processed_question <-
          (if use_conversation_context
           then _rewrite_question_with_context q
           else mret q);
        generated_sql <-
          oracle_invoke (CallGenerateSql processed_question)
            (fun tr => oracle_generate_sql E tr processed_question);
        if negb (truthy generated_sql)
        then mret {[ "error" := PyStr "Failed to generate SQL"; "question" := question ]}
        else
          v <- SQLValidator.validate_sql E generated_sql (PyStr processed_question);
          if negb v.1
          then
            log WARNING "Generated invalid SQL" ;;
            mret {[ "error" := PyStr (invalid_sql_message v.2);
                    "question" := question;
                    "processed_question" := PyStr processed_question;
                    "sql" := generated_sql ]}
          else
            _add_to_conversation_history
              {[ "type" := PyStr "question";
                 "original_question" := question;
                 "processed_question" := PyStr processed_question;
                 "sql" := generated_sql;
                 "context_used" := PyBool use_conversation_context ]} ;;
            let result : gmap string pyval :=
              {[ "question" := question; "sql" := generated_sql ]} in
            if decide (processed_question <> q)
            then mret (<["context_used" := PyBool true]>
                         (<["processed_question" := PyStr processed_question]> result))
            else mret result
    | _ => raise (PyError "AttributeError" "object has no attribute 'strip'")
    end.

Definition ask (question : pyval) (use_conversation_context : bool)
    : M (gmap string pyval) :=
  s <- get_state;
  ready <- (if initialized s then mret true else initialize);
  if negb ready
  then mret (not_initialized_error question)
  else
    try_except (ask_body question use_conversation_context)
      (fun e =>
         log ERROR "Error processing question" ;;
         mret {[ "error" := PyStr (exn_msg e); "question" := question ]}).

(** [result["sql"]] *)
Definition result_sql (result : gmap string pyval) : M pyval :=
  match result !! "sql" with
  | Some v => mret v
  | None => raise (PyError "KeyError" "'sql'")
  end.

(** [df.to_dict('records') if df is not None and not df.empty else []] *)
Definition records_of (df : option dataframe) : pyval :=
  match df with
  | Some (DataFrame (r :: rows)) => PyRecords (frame_records E (r :: rows))
  | _ => PyRecords []
  end.

Definition execute (question : pyval) (use_conversation_context : bool)
    : M (gmap string pyval) :=
  result <- ask question use_conversation_context;
  if is_error result then mret result
  else
    try_except
      (sql_value <- result_sql result;
       sql <- py_strip sql_value;
       if bool_decide (sql = "")
       then mret {[ "error" := PyStr "Empty SQL generated";
                    "question" := question;
                    "sql" := PyStr sql;
                    "success" := PyBool false ]}
       else
         log INFO "Executing SQL" ;;
         df <- Connector.execute_query E sql [];
         mret (<["success" := PyBool (bool_decide (is_Some df))]>
                 (<["results" := records_of df]> result)))
      (fun e =>
         log ERROR "Error executing query" ;;
         mret (<["success" := PyBool false]>
                 (<["error" := PyStr (exn_msg e)]> result))).

End WithEnv.
End VannaAgent.

(** ** Vocabulary of the properties *)

(** [m] relates the state it starts from to the state it reaches by [P],
    whether it returns or raises. *)
Definition preserves {A : Type} (P : State -> State -> Prop) (m : M A) : Prop :=
  forall s, P s (m s).2.

(** [m] never raises. *)
Definition total {A : Type} (m : M A) : Prop :=
  forall s, exists a, (m s).1 = Ok a.

Definition is_generate (c : call) : bool :=
  match c with
  | CallGenerateSql _ => true
  | _ => false
  end.

(** The calls to the generate operation of the generation engine. *)
Definition generate_calls (s : State) : list call :=
  List.filter is_generate (calls s).

(** Nothing of the conversation changed. *)
Definition same_history (s s' : State) : Prop :=
  conversation_history s' = conversation_history s /\
  max_history_length s' = max_history_length s.

(** Nothing of the conversation changed, the generate operation was not
    called, and the calls made before are still the first calls. *)
Definition quiet (s s' : State) : Prop :=
  same_history s s' /\ generate_calls s' = generate_calls s /\
  calls s `prefix_of` calls s'.

(** [needle] occurs in [hay]. *)
Definition substring (needle hay : string) : Prop :=
  exists pre post, chars hay = pre ++ chars needle ++ post.

(** An entry that [_get_last_question] stops at. *)
Definition qualifies (item : gmap string pyval) : bool :=
  VannaAgent.is_question item && VannaAgent.has_processed_question item.

(** The entry as [_add_to_conversation_history] stores it. *)
Definition stamped (E : Env) (s : State) (entry : gmap string pyval) : gmap string pyval :=
  <["timestamp" := PyTime (now E (calls s))]> entry.

(** The state after [entries] were appended one after the other. *)
Definition after_appends (E : Env) (entries : list (gmap string pyval)) (s : State) : State :=
  (for_each entries (VannaAgent._add_to_conversation_history E) s).2.

(** The turn that [ask] records. *)
Definition question_turn (question : pyval) (processed_question : string)
    (generated_sql : pyval) (use_conversation_context : bool) : gmap string pyval :=
  {[ "type" := PyStr "question";
     "original_question" := question;
     "processed_question" := PyStr processed_question;
     "sql" := generated_sql;
     "context_used" := PyBool use_conversation_context ]}.

(** [ask] once the agent is initialized: the [try] statement. *)
Definition answer (E : Env) (question : pyval) (use_conversation_context : bool)
    : M (gmap string pyval) :=
  try_except (VannaAgent.ask_body E question use_conversation_context)
    (fun e =>
       log ERROR "Error processing question" ;;
       mret {[ "error" := PyStr (exn_msg e); "question" := question ]}).

(** The first call of [_train_system] on a created engine. *)
Definition first_training_call (E : Env) : call :=
  if config_force_retrain E
  then CallTrain (TrainDocumentation
         (system_prompt E +:+ VannaAgent.newline +:+ VannaAgent.newline +:+
          schema_enforcement_prompt E))
  else CallListEmbeddings.

(** The calls with which the initialization sequence begins, step by step:
    nothing when the configuration has no API key; otherwise the creation of
    the engine, then (when it succeeded) the database connection, then (when
    it succeeded) the connection of the engine, then (when it succeeded) the
    first call of the training. *)
Definition init_prefix (E : Env) (s : State) : list call :=
  if negb (truthy (config_api_key E)) then []
  else
    CallCreateOracle ::
    match oracle_create E (calls s) with
    | Raise _ => []
    | Ok _ =>
        CallPsycopgConnect ::
        match psycopg_connect E (calls s ++ [CallCreateOracle]) with
        | Raise _ => []
        | Ok _ =>
            CallConnectToPostgres ::
            match oracle_connect_to_postgres E
                    (calls s ++ [CallCreateOracle; CallPsycopgConnect]) with
            | Raise _ => []
            | Ok _ => [first_training_call E]
            end
        end
    end.

(** [pattern] occurs in [sql_lower] qualified by a table name and followed
    by a word boundary: [table.pattern]. *)
Definition qualified_reference (pattern sql_lower : string) : Prop :=
  exists pre table post,
    chars sql_lower = pre ++ table ++ chars "." ++ chars pattern ++ post /\
    table <> [] /\
    Forall (fun c => is_word c = true) table /\
    Re.at_boundary (Re.last_char (Some "."%char) (chars pattern)) post = true.

(** [pattern] occurs in [sql_lower] after [keyword] and white space, and
    before optional white space and a comparison operator. *)
Definition compared_after (keyword pattern sql_lower : string) : Prop :=
  exists pre blanks1 blanks2 op post,
    chars sql_lower =
      pre ++ chars keyword ++ blanks1 ++ chars pattern ++ blanks2 ++ op :: post /\
    blanks1 <> [] /\
    Forall (fun c => is_space c = true) blanks1 /\
    Forall (fun c => is_space c = true) blanks2 /\
    SQLValidator.is_comparison op = true.

(** [pattern] occurs in [sql_lower] as [on table.pattern =]. *)
Definition joined_on (pattern sql_lower : string) : Prop :=
  exists pre blanks1 table blanks2 post,
    chars sql_lower =
      pre ++ chars "on" ++ blanks1 ++ table ++ chars "." ++ chars pattern ++
      blanks2 ++ "="%char :: post /\
    blanks1 <> [] /\
    Forall (fun c => is_space c = true) blanks1 /\
    table <> [] /\
    Forall (fun c => is_word c = true) table /\
    Forall (fun c => is_space c = true) blanks2.

(** The contexts in which the lenient rule takes a name for a column. *)
Definition column_reference_context (pattern sql_lower : string) : Prop :=
  qualified_reference pattern sql_lower \/
  compared_after "where" pattern sql_lower \/
  compared_after "and" pattern sql_lower \/
  compared_after "or" pattern sql_lower \/
  joined_on pattern sql_lower.

(** The lower-cased column names of the schema, as both rules of the
    column-existence check compute them. *)
Definition lowered_columns (E : Env) : M (gset string) :=
  all_columns <- SchemaManager.get_all_column_names E;
  SQLValidator.lower_all (iter_cells (set_order E) all_columns) ∅.

(** The names are ASCII texts. *)
Definition ascii_names (names : gset string) : Prop :=
  forall name, name ∈ names -> isascii name = true.

(** The texts among the values of the columns of the snapshot are ASCII. *)
Definition ascii_cell (c : cell) : bool :=
  match c with
  | CStr text => isascii text
  | _ => true
  end.

Definition ascii_snapshot (schema : snapshot) : bool :=
  forallb (fun entry : cell * list row =>
             forallb (fun column : row =>
                        forallb (fun kv : string * cell => ascii_cell kv.2) column)
                     entry.2)
          schema.

(** An environment for the examples: a database that accepts connections
    or not ([database]), with the single table [experiments], whose column
    query, and whose other queries, answer as given; an engine that always
    generates [generated_sql]. *)
Definition demo_env (database : result unit) (column_rows : result cursor_result)
    (generated_sql : pyval) (execution : result cursor_result) : Env :=
  {| config_api_key := PyStr "sk-demo";
     config_force_retrain := false;
     config_load_training_on_startup := true;
     system_prompt := "system prompt";
     schema_enforcement_prompt := "schema enforcement";
     repr_compound := fun _ => "<object>";
     psycopg_connect := fun _ => database;
     connection_closed := fun _ => false;
     cursor_execute := fun _ query _ =>
       if decide (query = Connector.tables_query)
       then Ok (Fetched [[("table_name", CStr "experiments")]])
       else if decide (query = Connector.columns_query)
       then column_rows
       else execution;
     connection_commit := fun _ => Ok tt;
     connection_rollback := fun _ => Ok tt;
     oracle_create := fun _ => Ok tt;
     oracle_connect_to_postgres := fun _ => Ok tt;
     oracle_train := fun _ _ => Ok tt;
     oracle_generate_sql := fun _ _ => Ok generated_sql;
     oracle_generate_rewritten_question := fun _ _ new_question => Ok (PyStr new_question);
     load_sample_queries := fun _ => Ok [];
     embeddings_exist := fun _ => Ok true;
     now := fun tr => Z.of_nat (length tr);
     frame_records := fun rows => rows;
     frame_iterrows := fun rows => rows;
     set_order := canonical_order |}.

(** The columns [id] and [name]. *)
Definition id_name_columns : result cursor_result :=
  Ok (Fetched [[("column_name", CStr "id")]; [("column_name", CStr "name")]]).

(** The example agents: the schema is fetched and the generated query
    fails when it is executed ([demo]); the column query itself fails
    ([demo_columns_fail]); the column rows have no [column_name] key
    ([demo_malformed]); the database refuses connections
    ([demo_no_database]). *)
Definition demo : Env :=
  demo_env (Ok tt) id_name_columns (PyStr "SELECT id FROM experiments")
           (Raise (PsycopgError "relation does not exist")).


Definition demo_malformed : Env :=
  demo_env (Ok tt) (Ok (Fetched [[("name", CStr "id")]]))
           (PyStr "SELECT id FROM experiments") (Ok (Fetched [])).

Definition demo_no_database : Env :=
  demo_env (Raise (PsycopgError "connection refused")) id_name_columns
           (PyStr "SELECT id FROM experiments") (Ok (Fetched [])).

Definition demo_turn : gmap string pyval :=
  question_turn (PyStr "how many experiments?") "how many experiments?"
                (PyStr "SELECT id FROM experiments") false.

(** [pattern] occurs in [text] at index [pos]. *)
Definition occurs_at (pattern text : string) (pos : Z) : Prop :=
  exists pre post,
    chars text = pre ++ chars pattern ++ post /\ pos = Z.of_nat (length pre).

(** The two positions at which the strict rule takes a name for an alias:
    behind the first "order by", and strictly between the first "select" and
    the first "from". *)
Definition after_order_by (sql_lower : string) (pos : Z) : bool :=
  negb (Z.eqb (find sql_lower "order by") (-1)) && (find sql_lower "order by" <? pos).

Definition inside_select_clause (sql_lower : string) (pos : Z) : bool :=
  negb (Z.eqb (find sql_lower "select") (-1)) &&
  negb (Z.eqb (find sql_lower "from") (-1)) &&
  (find sql_lower "select" <? pos) && (pos <? find sql_lower "from").

(** The statement keywords that [_is_basic_sql_valid] looks for. *)
Definition statement_keywords : list string :=
  ["select"; "insert"; "update"; "delete"].

(** [p] is not empty and neither begins nor ends with white space. *)
Definition trimmed (p : string) : bool :=
  match chars p with
  | [] => false
  | a :: _ => negb (is_space a)
  end &&
  match last (chars p) with
  | Some z => negb (is_space z)
  | None => false
  end.

(** [r.get(key)]: the value of the first pair of the row with this key. *)
Definition row_lookup (r : row) (key : string) : option cell :=
  match list_find (fun kv => kv.1 = key) r with
  | Some (_, kv) => Some kv.2
  | None => None
  end.

(** [column] is a column of the table [table] of the snapshot. *)
Definition column_of (schema : snapshot) (table : cell) (column : row) : Prop :=
  exists columns, (table, columns) ∈ schema /\ column ∈ columns.

(** [E] with another [rollback]. *)
Definition with_rollback (E : Env) (rollback : list call -> result unit) : Env :=
  {| config_api_key := config_api_key E;
     config_force_retrain := config_force_retrain E;
     config_load_training_on_startup := config_load_training_on_startup E;
     system_prompt := system_prompt E;
     schema_enforcement_prompt := schema_enforcement_prompt E;
     repr_compound := repr_compound E;
     psycopg_connect := psycopg_connect E;
     connection_closed := connection_closed E;
     cursor_execute := cursor_execute E;
     connection_commit := connection_commit E;
     connection_rollback := rollback;
     oracle_create := oracle_create E;
     oracle_connect_to_postgres := oracle_connect_to_postgres E;
     oracle_train := oracle_train E;
     oracle_generate_sql := oracle_generate_sql E;
     oracle_generate_rewritten_question := oracle_generate_rewritten_question E;
     load_sample_queries := load_sample_queries E;
     embeddings_exist := embeddings_exist E;
     now := now E;
     frame_records := frame_records E;
     frame_iterrows := frame_iterrows E;
     set_order := set_order E |}.

(** The status frame of a statement that returns no rows. *)
Definition status_frame (rowcount : Z) : dataframe :=
  DataFrame [[("status", CStr "Query executed successfully");
              ("rows_affected", CInt rowcount)]].

(** A database in which the generated query fails and the rollback that
    follows breaks with an error that is not the driver's. *)
Definition demo_rollback_fails : Env :=
  with_rollback demo (fun _ => Raise (PyError "OSError" "broken pipe")).

(** The calls of the set-up of an agent: the creation and the connection of
    the engine, the training, and what the training reads. *)
Definition is_setup (c : call) : bool :=
  match c with
  | CallCreateOracle | CallConnectToPostgres | CallTrain _
  | CallLoadSampleQueries | CallListEmbeddings => true
  | _ => false
  end.

Definition setup_calls (s : State) : list call :=
  List.filter is_setup (calls s).

(** Nothing of the set-up happened: no call of it was made, and the agent
    is initialized, and holds an engine, as before. *)
Definition settled (s s' : State) : Prop :=
  setup_calls s' = setup_calls s /\
  initialized s' = initialized s /\
  vanna_instance s' = vanna_instance s.

(** A snapshot that was cached is still the one cached. *)
Definition cache_kept (s s' : State) : Prop :=
  forall schema, _schema_cache s = Some schema -> _schema_cache s' = Some schema.

(** Every value that [m] returns satisfies [Q]. *)
Definition returns {A : Type} (Q : A -> Prop) (m : M A) : Prop :=
  forall s a, (m s).1 = Ok a -> Q a.

(** The result of a successful [ask]. *)
Definition success_result (question : pyval) (q processed : string) (sql : pyval)
    : gmap string pyval :=
  let result : gmap string pyval := {[ "question" := question; "sql" := sql ]} in
  if decide (processed <> q)
  then <["context_used" := PyBool true]>
         (<["processed_question" := PyStr processed]> result)
  else result.

(** The result with which [ask] reports an exception. *)
Definition exception_result (question : pyval) (e : exn) : gmap string pyval :=
  {[ "error" := PyStr (exn_msg e); "question" := question ]}.

(** The call that trains the engine with a pair of a question and its SQL,
    and the one that trains it with the DDL of a table. *)
Definition training_pair_call (query : string * string) : call :=
  CallTrain (TrainQuestionSql query.1 query.2).

Definition training_ddl_call (ddl : string) : call :=
  CallTrain (TrainDdl ddl).

(** What the engine answers when, after the calls [before], it has been
    trained with the first [i] pairs of [trained] and is trained with
    [query]. *)
Definition pair_answer (E : Env) (before : list call) (trained : list (string * string))
    (i : nat) (query : string * string) : result unit :=
  oracle_train E (before ++ map training_pair_call (take i trained))
    (TrainQuestionSql query.1 query.2).

(** [m] neither reads nor changes the state. *)
Definition stateless {A : Type} (m : M A) : Prop :=
  exists r, forall s, m s = (r, s).

(** The calls that an invariant admits: a statement sent to the database
    when [statement_ok] holds of its text, a call of the set-up when
    [setup_ok], and every other call. *)
Definition permits (setup_ok : bool) (statement_ok : string -> bool) (c : call) : bool :=
  match c with
  | CallCursorExecute query _ => statement_ok query
  | _ => if is_setup c then setup_ok else true
  end.

(** The statements sent to the database, in the order they were sent. *)
Definition statement_of (c : call) : option string :=
  match c with
  | CallCursorExecute query _ => Some query
  | _ => None
  end.

Definition statements (s : State) : list string :=
  omap statement_of (calls s).

Definition is_schema_query (query : string) : bool :=
  bool_decide (query = Connector.tables_query) ||
  bool_decide (query = Connector.columns_query).

(** No statement was sent. *)
Definition same_statements (s s' : State) : Prop :=
  statements s' = statements s.

(** The statements sent were the two queries of the schema only. *)
Definition schema_queries_only (s s' : State) : Prop :=
  exists sent,
    statements s' = statements s ++ sent /\
    Forall (fun query => is_schema_query query = true) sent.

(** The handler of [execute_query] for the errors of the driver. *)
Definition on_database_error (E : Env) : M (option dataframe) :=
  log ERROR "Database error executing query" ;;
  open <- Connector.connection_open E;
  (if open
   then try_except
          (invoke CallRollback (connection_rollback E) ;;
           log INFO "Transaction rolled back due to error.")
          (fun rb_e =>
             match rb_e with
             | PsycopgError _ => log ERROR "Error during rollback"
             | PyError _ _ => raise rb_e
             end)
   else mret tt) ;;
  mret None.

(** An entry of the kind that [ask] records: a question turn with its time
    stamp. *)
Definition is_turn (item : gmap string pyval) : Prop :=
  exists t question processed sql ctx,
    item = <["timestamp" := PyTime t]> (question_turn question processed sql ctx).

(** The states that an agent, with its validator, its schema manager and
    its connector, can be in: those that a sequence of calls of their public
    operations, and of the recording of a turn that the user interface does
    when it loads a conversation, leads to from a new agent. *)
Inductive reachable (E : Env) : State -> Prop :=
| reach_new : reachable E (VannaAgent.new_agent E)
| reach_initialize s :
    reachable E s -> reachable E (VannaAgent.initialize E s).2
| reach_ask s question ctx :
    reachable E s -> reachable E (VannaAgent.ask E question ctx s).2
| reach_execute s question ctx :
    reachable E s -> reachable E (VannaAgent.execute E question ctx s).2
| reach_clear s :
    reachable E s -> reachable E (VannaAgent.clear_conversation s).2
| reach_record s question processed sql ctx :
    reachable E s ->
    reachable E (VannaAgent._add_to_conversation_history E
                   (question_turn question processed sql ctx) s).2
| reach_validate s sql question :
    reachable E s -> reachable E (SQLValidator.validate_sql E sql question s).2
| reach_suggestions s invalid_column :
    reachable E s ->
    reachable E (SQLValidator.get_column_suggestions E invalid_column s).2
| reach_schema s :
    reachable E s -> reachable E (SchemaManager.get_schema_info E s).2
| reach_connect s :
    reachable E s -> reachable E (Connector.connect E s).2
| reach_query s query params :
    reachable E s -> reachable E (Connector.execute_query E query params s).2.

(** The history holds at most the twenty entries of [__init__], each a
    question turn, and an initialized agent has its engine. *)
Definition well_formed (s : State) : Prop :=
  max_history_length s = 20%nat /\
  (length (conversation_history s) <= 20)%nat /\
  Forall is_turn (conversation_history s) /\
  (initialized s = true -> vanna_instance s = true).

(** The conversation and the initialization flag are as before, and an
    engine that was there still is. *)
Definition engine_kept (s s' : State) : Prop :=
  conversation_history s' = conversation_history s /\
  max_history_length s' = max_history_length s /\
  initialized s' = initialized s /\
  (vanna_instance s = true -> vanna_instance s' = true).

(** * Properties *)

(** ** Computations *)

Lemma bind_run {A B : Type} (m : M A) (f : A -> M B) (s : State) :
  bind m f s =
  match m s with
  | (Ok a, s') => f a s'
  | (Raise e, s') => (Raise e, s')
  end.
Proof. reflexivity. Qed.

Lemma mbind_run {A B : Type} (m : M A) (f : A -> M B) (s : State) :
  mbind f m s =
  match m s with
  | (Ok a, s') => f a s'
  | (Raise e, s') => (Raise e, s')
  end.
Proof. reflexivity. Qed.

Lemma try_except_run {A : Type} (m : M A) (h : exn -> M A) (s : State) :
  try_except m h s =
  match m s with
  | (Ok a, s') => (Ok a, s')
  | (Raise e, s') => h e s'
  end.
Proof. reflexivity. Qed.

Section Preserves.
Context (P : State -> State -> Prop) `{!PreOrder P}.

Lemma preserves_ret {A : Type} (a : A) : preserves P (mret a).
Proof. intros s. reflexivity. Qed.

Lemma preserves_raise {A : Type} (e : exn) : preserves P (@raise A e).
Proof. intros s. reflexivity. Qed.

Lemma preserves_lift {A : Type} (r : result A) : preserves P (lift r).
Proof. intros s. reflexivity. Qed.

Lemma preserves_get : preserves P get_state.
Proof. intros s. reflexivity. Qed.

Lemma preserves_bind {A B : Type} (m : M A) (f : A -> M B) :
  preserves P m -> (forall a, preserves P (f a)) -> preserves P (bind m f).
Proof.
  intros Hm Hf s. rewrite bind_run. specialize (Hm s).
  destruct (m s) as [[a|e] s']; simpl in *; [|done].
  etrans; [exact Hm|apply Hf].
Qed.

Lemma preserves_mbind {A B : Type} (m : M A) (f : A -> M B) :
  preserves P m -> (forall a, preserves P (f a)) -> preserves P (mbind f m).
Proof. apply preserves_bind. Qed.

Lemma preserves_try {A : Type} (m : M A) (h : exn -> M A) :
  preserves P m -> (forall e, preserves P (h e)) -> preserves P (try_except m h).
Proof.
  intros Hm Hh s. rewrite try_except_run. specialize (Hm s).
  destruct (m s) as [[a|e] s']; simpl in *; [done|].
  etrans; [exact Hm|apply Hh].
Qed.

Lemma preserves_modify (f : State -> State) :
  (forall s, P s (f s)) -> preserves P (modify f).
Proof. intros Hf s. apply Hf. Qed.

Lemma preserves_invoke {A : Type} (c : call) (answer : list call -> result A) :
  (forall s, P s (add_call c s)) -> preserves P (invoke c answer).
Proof. intros Hc s. apply Hc. Qed.

Lemma preserves_for_each {A : Type} (l : list A) (body : A -> M unit) :
  (forall x, preserves P (body x)) -> preserves P (for_each l body).
Proof.
  intros Hb. induction l as [|x l IH]; simpl.
  - apply preserves_ret.
  - apply preserves_mbind; auto.
Qed.

End Preserves.

Global Instance same_history_preorder : PreOrder same_history.
Proof.
  split.
  - intros s. split; reflexivity.
  - intros s1 s2 s3 [H1 H2] [H3 H4]. split; congruence.
Qed.

Global Instance quiet_preorder : PreOrder quiet.
Proof.
  split.
  - intros s. repeat split; reflexivity.
  - intros s1 s2 s3 (H1 & H2 & H3) (H4 & H5 & H6).
    split; [by etrans|]. split; [congruence|by etrans].
Qed.

Lemma quiet_same_history {A : Type} (m : M A) :
  preserves quiet m -> preserves same_history m.
Proof. intros H s. apply H. Qed.

Lemma quiet_log l msg s : quiet s (add_log l msg s).
Proof. by repeat split. Qed.

Lemma quiet_set_connection b s : quiet s (set_connection b s).
Proof. by repeat split. Qed.

Lemma quiet_set_schema_cache c s : quiet s (set_schema_cache c s).
Proof. by repeat split. Qed.

Lemma quiet_set_vanna_instance b s : quiet s (set_vanna_instance b s).
Proof. by repeat split. Qed.

Lemma quiet_set_initialized b s : quiet s (set_initialized b s).
Proof. by repeat split. Qed.

Lemma quiet_add_call c s : is_generate c = false -> quiet s (add_call c s).
Proof.
  intros Hc. repeat split.
  - unfold generate_calls. simpl.
    rewrite List.filter_app. simpl. rewrite Hc. apply app_nil_r.
  - simpl. by apply prefix_app_r.
Qed.

Lemma same_history_add_call c s : same_history s (add_call c s).
Proof. repeat split. Qed.

Lemma preserves_quiet_log l msg : preserves quiet (log l msg).
Proof. intros s. apply quiet_log. Qed.

(** Solves [preserves quiet m] for a computation built from the
    combinators, given the facts about its parts as hints. *)
Create HintDb quiet.

Ltac quiet_step :=
  lazymatch goal with
  | |- preserves _ (log _ _) => apply preserves_quiet_log
  | |- preserves _ (mret _) => apply preserves_ret; apply _
  | |- preserves _ (raise _) => apply preserves_raise; apply _
  | |- preserves _ (lift _) => apply preserves_lift; apply _
  | |- preserves _ get_state => apply preserves_get; apply _
  | |- preserves _ (modify _) =>
      apply preserves_modify; intros;
      first [apply quiet_set_connection | apply quiet_set_schema_cache
            |apply quiet_set_vanna_instance | apply quiet_set_initialized]
  | |- preserves _ (invoke _ _) =>
      apply preserves_invoke; intros; apply quiet_add_call; reflexivity
  | |- preserves _ (bind _ _) => apply preserves_bind; [apply _| |intros]
  | |- preserves _ (mbind _ _) => apply preserves_mbind; [apply _| |intros]
  | |- preserves _ (try_except _ _) => apply preserves_try; [apply _| |intros]
  | |- preserves _ (for_each _ _) => apply preserves_for_each; [apply _|intros]
  | |- preserves _ (if ?b then _ else _) => destruct b
  | |- preserves _ (match ?x with _ => _ end) => destruct x
  | |- preserves _ _ => solve [auto with quiet]
  end.

Ltac quiet_auto := repeat quiet_step.

(** Runs the next steps of a computation applied to a state. *)
Ltac run := repeat (progress (rewrite ?mbind_run, ?bind_run, ?try_except_run; simpl)).

(** ** What the parts of the pipeline leave alone *)

Section Frames.
Variable E : Env.

Lemma connect_quiet : preserves quiet (Connector.connect E).
Proof. unfold Connector.connect. quiet_auto. Qed.
#[local] Hint Resolve connect_quiet : quiet.

Lemma connection_inactive_quiet : preserves quiet (Connector.connection_inactive E).
Proof. unfold Connector.connection_inactive. quiet_auto. Qed.
#[local] Hint Resolve connection_inactive_quiet : quiet.

Lemma connection_open_quiet : preserves quiet (Connector.connection_open E).
Proof. unfold Connector.connection_open. quiet_auto. Qed.
#[local] Hint Resolve connection_open_quiet : quiet.

Lemma execute_query_quiet query params :
  preserves quiet (Connector.execute_query E query params).
Proof. unfold Connector.execute_query. quiet_auto. Qed.
#[local] Hint Resolve execute_query_quiet : quiet.

Lemma row_get_quiet r key : preserves quiet (row_get r key).
Proof. unfold row_get. quiet_auto. Qed.
#[local] Hint Resolve row_get_quiet : quiet.

Lemma describe_table_quiet schema_info r :
  preserves quiet (Connector.describe_table E schema_info r).
Proof. unfold Connector.describe_table. quiet_auto. Qed.
#[local] Hint Resolve describe_table_quiet : quiet.

Lemma describe_tables_quiet rows schema_info :
  preserves quiet (Connector.describe_tables E schema_info rows).
Proof.
  revert schema_info. induction rows as [|r rows IH]; intros schema_info; simpl.
  - quiet_auto.
  - quiet_auto.
Qed.
#[local] Hint Resolve describe_tables_quiet : quiet.

Lemma connector_get_schema_info_quiet : preserves quiet (Connector.get_schema_info E).
Proof. unfold Connector.get_schema_info. quiet_auto. Qed.
#[local] Hint Resolve connector_get_schema_info_quiet : quiet.

Lemma get_schema_info_quiet : preserves quiet (SchemaManager.get_schema_info E).
Proof. unfold SchemaManager.get_schema_info. quiet_auto. Qed.
#[local] Hint Resolve get_schema_info_quiet : quiet.

Lemma add_column_names_quiet columns all_columns :
  preserves quiet (SchemaManager.add_column_names columns all_columns).
Proof.
  revert all_columns. induction columns as [|c columns IH]; intros all_columns; simpl.
  - quiet_auto.
  - quiet_auto.
Qed.
#[local] Hint Resolve add_column_names_quiet : quiet.

Lemma add_table_columns_quiet schema_info all_columns :
  preserves quiet (SchemaManager.add_table_columns schema_info all_columns).
Proof.
  revert all_columns.
  induction schema_info as [|[t columns] schema_info IH]; intros all_columns; simpl.
  - quiet_auto.
  - quiet_auto.
Qed.
#[local] Hint Resolve add_table_columns_quiet : quiet.

Lemma get_all_column_names_quiet : preserves quiet (SchemaManager.get_all_column_names E).
Proof. unfold SchemaManager.get_all_column_names. quiet_auto. Qed.
#[local] Hint Resolve get_all_column_names_quiet : quiet.

Lemma lower_all_quiet cols names : preserves quiet (SQLValidator.lower_all cols names).
Proof.
  revert names. induction cols as [|c cols IH]; intros names; simpl.
  - quiet_auto.
  - destruct c; quiet_auto.
Qed.
#[local] Hint Resolve lower_all_quiet : quiet.

Lemma check_column_validity_quiet sql :
  preserves quiet (SQLValidator._check_column_validity E sql).
Proof.
  unfold SQLValidator._check_column_validity, SQLValidator._validate_cte_query.
  quiet_auto.
Qed.
#[local] Hint Resolve check_column_validity_quiet : quiet.

Lemma validate_sql_quiet sql question :
  preserves quiet (SQLValidator.validate_sql E sql question).
Proof.
  unfold SQLValidator.validate_sql, SQLValidator.validate_sql_body. quiet_auto.
Qed.
#[local] Hint Resolve validate_sql_quiet : quiet.

Lemma oracle_invoke_quiet {A : Type} c (answer : list call -> result A) :
  is_generate c = false -> preserves quiet (VannaAgent.oracle_invoke c answer).
Proof.
  intros Hc. unfold VannaAgent.oracle_invoke.
  apply preserves_bind; [apply _|quiet_auto|].
  intros s. destruct (vanna_instance s); [|quiet_auto].
  apply preserves_invoke. intros s'. by apply quiet_add_call.
Qed.

Lemma py_strip_quiet v : preserves quiet (py_strip v).
Proof. unfold py_strip. quiet_auto. Qed.
#[local] Hint Resolve py_strip_quiet : quiet.

Lemma get_last_question_quiet : preserves quiet (VannaAgent._get_last_question).
Proof. unfold VannaAgent._get_last_question. quiet_auto. Qed.
#[local] Hint Resolve get_last_question_quiet : quiet.

Lemma rewrite_question_quiet question :
  preserves quiet (VannaAgent._rewrite_question_with_context E question).
Proof.
  unfold VannaAgent._rewrite_question_with_context.
  quiet_auto; apply oracle_invoke_quiet; reflexivity.
Qed.
#[local] Hint Resolve rewrite_question_quiet : quiet.

Lemma column_definitions_quiet columns :
  preserves quiet (SchemaManager.column_definitions columns).
Proof.
  induction columns as [|column columns IH]; simpl.
  - quiet_auto.
  - unfold SchemaManager.column_definition, SchemaManager._get_column_comment.
    quiet_auto.
Qed.
#[local] Hint Resolve column_definitions_quiet : quiet.

Lemma generate_enhanced_ddl_quiet table_name columns :
  preserves quiet (SchemaManager.generate_enhanced_ddl table_name columns).
Proof. unfold SchemaManager.generate_enhanced_ddl. quiet_auto. Qed.
#[local] Hint Resolve generate_enhanced_ddl_quiet : quiet.

Lemma train_system_quiet : preserves quiet (VannaAgent._train_system E).
Proof.
  unfold VannaAgent._train_system, VannaAgent._should_retrain,
    VannaAgent._train_with_essential_prompts,
    VannaAgent._train_with_expanded_schema, VannaAgent.train_table,
    VannaAgent._load_critical_training_data.
  quiet_auto; apply oracle_invoke_quiet; reflexivity.
Qed.
#[local] Hint Resolve train_system_quiet : quiet.

Lemma initialize_quiet : preserves quiet (VannaAgent.initialize E).
Proof.
  unfold VannaAgent.initialize, VannaAgent._validate_config,
    VannaAgent._create_vanna_instance, VannaAgent._connect_database.
  quiet_auto; apply oracle_invoke_quiet; reflexivity.
Qed.

End Frames.

#[global] Hint Resolve connect_quiet connection_inactive_quiet connection_open_quiet
  execute_query_quiet row_get_quiet describe_table_quiet describe_tables_quiet
  connector_get_schema_info_quiet get_schema_info_quiet add_column_names_quiet
  add_table_columns_quiet get_all_column_names_quiet lower_all_quiet
  check_column_validity_quiet validate_sql_quiet py_strip_quiet
  get_last_question_quiet rewrite_question_quiet train_system_quiet
  initialize_quiet column_definitions_quiet generate_enhanced_ddl_quiet : quiet.

#[global] Hint Extern 1 (preserves quiet (VannaAgent.oracle_invoke _ _)) =>
  apply oracle_invoke_quiet; reflexivity : quiet.

(** ** The conversation history *)

Lemma py_last_length {A : Type} (n : nat) (l : list A) :
  (0 < n)%nat -> (n < length l)%nat -> length (VannaAgent.py_last n l) = n.
Proof.
  intros Hn Hl. unfold VannaAgent.py_last. destruct n; [lia|].
  rewrite length_drop. lia.
Qed.

Lemma appended_drop (n : nat) (h : list (gmap string pyval)) (e : gmap string pyval) :
  (0 < n)%nat ->
  VannaAgent.appended n h e = drop (length h + 1 - n) (h ++ [e]).
Proof.
  intros Hn. unfold VannaAgent.appended, VannaAgent.py_last.
  rewrite length_app. simpl. destruct n; [lia|].
  case_decide as Hlt; [reflexivity|].
  replace (length h + 1 - S n)%nat with 0%nat by lia. reflexivity.
Qed.

Lemma add_to_history_run (E : Env) (entry : gmap string pyval) (s : State) :
  exists s',
    VannaAgent._add_to_conversation_history E entry s = (Ok tt, s') /\
    conversation_history s' =
      VannaAgent.appended (max_history_length s) (conversation_history s) (stamped E s entry) /\
    max_history_length s' = max_history_length s /\
    generate_calls s' = generate_calls s.
Proof.
  unfold VannaAgent._add_to_conversation_history, VannaAgent.appended, stamped.
  rewrite bind_run. simpl. rewrite bind_run. simpl.
  assert (Hg : generate_calls (add_call CallNow s) = generate_calls s).
  { by destruct (quiet_add_call CallNow s eq_refl) as (_ & Hg & _). }
  case_decide as Hlt.
  - eexists. split; [reflexivity|]. simpl. auto.
  - eexists. split; [reflexivity|]. simpl. auto.
Qed.

Lemma after_appends_max (E : Env) (entries : list (gmap string pyval)) (s : State) :
  max_history_length (after_appends E entries s) = max_history_length s.
Proof.
  unfold after_appends. revert s. induction entries as [|e entries IH]; intros s; simpl.
  - reflexivity.
  - destruct (add_to_history_run E e s) as (s' & Hrun & _ & Hmax & _).
    unfold mbind, M_bind. rewrite Hrun. rewrite IH. exact Hmax.
Qed.

(** C4: on an agent whose bound is the 20 of [__init__], after any sequence
    of appends one more append leaves at most 20 entries; the new history is
    the old one followed by the new entry, cut at the front only (so the
    survivors keep their order and the newest entry stays), and appending
    to a full history of 20 drops exactly its first entry. *)
Theorem history_bounded (E : Env) (s : State)
    (entries : list (gmap string pyval)) (entry : gmap string pyval) :
  max_history_length s = 20%nat ->
  let s1 := after_appends E entries s in
  let s2 := (VannaAgent._add_to_conversation_history E entry s1).2 in
  (length (conversation_history s2) <= 20)%nat /\
  conversation_history s2 =
    drop (length (conversation_history s1) + 1 - 20)
         (conversation_history s1 ++ [stamped E s1 entry]) /\
  (length (conversation_history s1) = 20%nat ->
   conversation_history s2 =
     drop 1 (conversation_history s1) ++ [stamped E s1 entry]).
Proof.
  intros Hmax s1 s2.
  assert (Hmax1 : max_history_length s1 = 20%nat).
  { unfold s1. rewrite after_appends_max. exact Hmax. }
  destruct (add_to_history_run E entry s1) as (s' & Hrun & Hh & _).
  assert (Hs2 : s2 = s') by (unfold s2; rewrite Hrun; reflexivity).
  rewrite Hs2, Hh, Hmax1, appended_drop by lia.
  split; [|split].
  - rewrite length_drop, length_app. simpl. lia.
  - reflexivity.
  - intros Hfull. rewrite Hfull. simpl.
    rewrite drop_app_le by lia. reflexivity.
Qed.

Lemma last_question_snoc (h : list (gmap string pyval)) (item : gmap string pyval) :
  VannaAgent.last_question_of (h ++ [item]) =
  if qualifies item then item !! "processed_question"
  else VannaAgent.last_question_of h.
Proof.
  unfold VannaAgent.last_question_of. rewrite rev_app_distr. reflexivity.
Qed.

Lemma last_question_skip (h post : list (gmap string pyval)) :
  Forall (fun item => qualifies item = false) post ->
  VannaAgent.last_question_of (h ++ post) = VannaAgent.last_question_of h.
Proof.
  induction post as [|item post IH] using rev_ind; intros Hpost.
  - by rewrite app_nil_r.
  - apply Forall_app in Hpost as [Hpost Hitem].
    apply Forall_inv in Hitem.
    rewrite List.app_assoc, last_question_snoc, Hitem. auto.
Qed.

Lemma last_question_drop (n : nat) (h : list (gmap string pyval)) (item : gmap string pyval)
    (post : list (gmap string pyval)) :
  qualifies item = true ->
  Forall (fun i => qualifies i = false) post ->
  (n <= length h)%nat ->
  VannaAgent.last_question_of (drop n (h ++ item :: post)) = item !! "processed_question".
Proof.
  intros Hq Hpost Hn.
  rewrite drop_app_le by lia.
  replace (drop n h ++ item :: post) with ((drop n h ++ [item]) ++ post)
    by (rewrite <- List.app_assoc; reflexivity).
  rewrite last_question_skip by done.
  by rewrite last_question_snoc, Hq.
Qed.

Lemma qualifies_stamped (E : Env) (s : State) (item : gmap string pyval) :
  qualifies (stamped E s item) = qualifies item /\
  stamped E s item !! "processed_question" = item !! "processed_question".
Proof.
  unfold qualifies, VannaAgent.is_question, VannaAgent.has_processed_question, stamped.
  rewrite !lookup_insert_ne by done. done.
Qed.

Lemma get_last_question_run (s : State) :
  VannaAgent._get_last_question s =
  (Ok (VannaAgent.last_question_of (conversation_history s)), s).
Proof. reflexivity. Qed.

(** C5: the last question of an empty history is None; in general it is the
    processed text of the most recent entry of kind "question" with a truthy
    processed text, whatever entries follow it, and None when there is no
    such entry; after a question turn with processed text [x] was appended
    the result is [x], and it still is after a further entry that is not a
    question was appended. *)
Theorem last_question_spec (E : Env) (s : State) :
  (conversation_history s = [] ->
   VannaAgent._get_last_question s = (Ok None, s)) /\
  (forall pre item post,
     conversation_history s = pre ++ item :: post ->
     qualifies item = true ->
     Forall (fun i => qualifies i = false) post ->
     exists x, item !! "processed_question" = Some x /\ truthy x = true /\
               VannaAgent._get_last_question s = (Ok (Some x), s)) /\
  (Forall (fun i => qualifies i = false) (conversation_history s) ->
   VannaAgent._get_last_question s = (Ok None, s)) /\
  (forall turn other x,
     max_history_length s = 20%nat ->
     VannaAgent.is_question turn = true ->
     turn !! "processed_question" = Some x ->
     truthy x = true ->
     VannaAgent.is_question other = false ->
     let s1 := (VannaAgent._add_to_conversation_history E turn s).2 in
     let s2 := (VannaAgent._add_to_conversation_history E other s1).2 in
     VannaAgent._get_last_question s1 = (Ok (Some x), s1) /\
     VannaAgent._get_last_question s2 = (Ok (Some x), s2)).
Proof.
  split; [|split; [|split]].
  - intros Hs. rewrite get_last_question_run, Hs. reflexivity.
  - intros pre item post Hs Hq Hpost. rewrite get_last_question_run, Hs.
    assert (Hx : exists x, item !! "processed_question" = Some x /\ truthy x = true).
    { unfold qualifies, VannaAgent.has_processed_question in Hq.
      apply andb_true_iff in Hq as [_ Hq].
      destruct (item !! "processed_question") as [x|]; [eauto|done]. }
    destruct Hx as (x & Hx & Ht). exists x. repeat split; try done.
    replace (pre ++ item :: post) with ((pre ++ [item]) ++ post)
      by (rewrite <- List.app_assoc; reflexivity).
    rewrite last_question_skip by done.
    by rewrite last_question_snoc, Hq, Hx.
  - intros Hnone. rewrite get_last_question_run.
    rewrite <- (app_nil_l (conversation_history s)).
    rewrite last_question_skip by done. reflexivity.
  - intros turn other x Hmax Hturn Hx Htruthy Hother s1 s2.
    destruct (add_to_history_run E turn s) as (s1' & Hrun1 & Hh1 & Hmax1 & _).
    assert (Hs1 : s1 = s1') by (unfold s1; rewrite Hrun1; reflexivity).
    destruct (add_to_history_run E other s1) as (s2' & Hrun2 & Hh2 & _).
    assert (Hs2 : s2 = s2') by (unfold s2; rewrite Hrun2; reflexivity).
    rewrite <- Hs1 in Hh1, Hmax1. rewrite <- Hs2 in Hh2.
    rewrite Hmax1, Hmax in Hh2. rewrite Hmax in Hh1.
    rewrite appended_drop in Hh1, Hh2 by lia.
    destruct (qualifies_stamped E s turn) as [Hq1 Hp1].
    destruct (qualifies_stamped E s1 other) as [Hq2 _].
    assert (Hqt : qualifies (stamped E s turn) = true).
    { rewrite Hq1. unfold qualifies, VannaAgent.has_processed_question.
      by rewrite Hturn, Hx. }
    assert (Hqo : qualifies (stamped E s1 other) = false).
    { rewrite Hq2. unfold qualifies. by rewrite Hother. }
    assert (Hlast1 : VannaAgent.last_question_of (conversation_history s1) = Some x).
    { rewrite Hh1, <- Hx, <- Hp1.
      apply (last_question_drop _ _ _ []); [done|constructor|lia]. }
    split.
    + by rewrite get_last_question_run, Hlast1.
    + rewrite get_last_question_run. do 2 f_equal. rewrite Hh2.
      destruct (decide (length (conversation_history s1) + 1 - 20 <= length (conversation_history s1) - 0)%nat) as [Hle|Hgt]; [|lia].
      rewrite drop_app_le by lia.
      rewrite last_question_snoc, Hqo.
      rewrite Hh1. rewrite drop_drop.
      rewrite <- Hx, <- Hp1.
      apply (last_question_drop _ _ _ []); [done|constructor|].
      rewrite Hh1, length_drop, length_app in *. simpl in *. lia.
Qed.

(** ** The validator never raises *)

Lemma total_try_except {A : Type} (m : M A) (h : exn -> M A) :
  (forall e, total (h e)) -> total (try_except m h).
Proof.
  intros Hh s. rewrite try_except_run.
  destruct (m s) as [[a|e] s']; [by exists a|apply Hh].
Qed.

Lemma total_log_then {A : Type} (l : level) (msg : string) (a : A) :
  total (log l msg ;; mret a).
Proof. intros s. by exists a. Qed.

Lemma validate_sql_total (E : Env) (sql question : pyval) :
  total (SQLValidator.validate_sql E sql question).
Proof.
  unfold SQLValidator.validate_sql. apply total_try_except.
  intros e. apply total_log_then.
Qed.

(** C1: [validate_sql] returns for every pair of arguments and in every
    state; when the body of its [try] raises, what it returns is the valid
    outcome [(True, None)]. *)
Theorem validate_sql_never_raises (E : Env) (sql question : pyval) (s : State) :
  exists outcome,
    (SQLValidator.validate_sql E sql question s).1 = Ok outcome /\
    (forall e,
       (SQLValidator.validate_sql_body E sql question s).1 = Raise e ->
       outcome = (true, None)).
Proof.
  unfold SQLValidator.validate_sql. rewrite try_except_run.
  destruct (SQLValidator.validate_sql_body E sql question s) as [[outcome|e] s'] eqn:Hbody.
  - exists outcome. split; [reflexivity|]. intros e He. discriminate He.
  - exists (true, None). split; [reflexivity|]. auto.
Qed.

(** ** [ask] and the conversation history *)

Lemma ask_unfold (E : Env) (question : pyval) (ctx : bool) (s : State) :
  VannaAgent.ask E question ctx s =
  if initialized s then answer E question ctx s
  else
    match VannaAgent.initialize E s with
    | (Ok true, s1) => answer E question ctx s1
    | (Ok false, s1) => (Ok (VannaAgent.not_initialized_error question), s1)
    | (Raise e, s1) => (Raise e, s1)
    end.
Proof.
  unfold VannaAgent.ask. rewrite bind_run. simpl.
  destruct (initialized s); [reflexivity|].
  rewrite bind_run.
  destruct (VannaAgent.initialize E s) as [[[]|e] s1]; reflexivity.
Qed.

Lemma initialize_total (E : Env) : total (VannaAgent.initialize E).
Proof.
  unfold VannaAgent.initialize. apply total_try_except.
  intros e. apply total_log_then.
Qed.

Lemma oracle_invoke_same_history {A : Type} (c : call) (answer : list call -> result A) :
  preserves same_history (VannaAgent.oracle_invoke c answer).
Proof.
  intros s. unfold VannaAgent.oracle_invoke. rewrite bind_run. simpl.
  destruct (vanna_instance s); [apply same_history_add_call|reflexivity].
Qed.

Lemma is_error_error (msg : pyval) (rest : gmap string pyval) :
  VannaAgent.is_error (<["error" := msg]> rest) = true.
Proof.
  unfold VannaAgent.is_error. apply bool_decide_eq_true.
  rewrite lookup_insert_eq. eauto.
Qed.

Lemma answer_cases (E : Env) (question : pyval) (ctx : bool) (s : State) :
  exists result s',
    answer E question ctx s = (Ok result, s') /\
    ((VannaAgent.is_error result = true /\ same_history s s' /\
      (VannaAgent._validate_question question = false ->
       s' = s /\ result !! "question" = Some (PyStr (VannaAgent.py_str (repr_compound E) question))))
     \/
     (VannaAgent.is_error result = false /\
      exists processed sql s0,
        VannaAgent._validate_question question = true /\
        truthy sql = true /\
        (exists text, sql = PyStr text) /\
        result !! "question" = Some question /\
        result !! "sql" = Some sql /\
        same_history s s0 /\
        max_history_length s' = max_history_length s /\
        conversation_history s' =
          VannaAgent.appended (max_history_length s) (conversation_history s)
            (stamped E s0 (question_turn question processed sql ctx)))).
Proof.
  unfold answer. rewrite try_except_run. unfold VannaAgent.ask_body.
  destruct (VannaAgent._validate_question question) eqn:Hvalid; simpl.
  2:{ do 2 eexists. split; [reflexivity|]. left.
      split; [apply is_error_error|]. split; [reflexivity|].
      intros _. split; [reflexivity|].
      rewrite lookup_insert_ne by done. by rewrite lookup_singleton_eq. }
  destruct question as [| | |q| |]; try discriminate Hvalid.
  rewrite mbind_run. simpl.
  set (s1 := add_log INFO "Processing question" s).
  assert (H1 : quiet s s1) by apply quiet_log.
  rewrite bind_run.
  assert (Hrw : preserves quiet
            (if ctx then VannaAgent._rewrite_question_with_context E q else mret q)).
  { destruct ctx; [apply rewrite_question_quiet|apply preserves_ret; apply _]. }
  specialize (Hrw s1).
  destruct ((if ctx then VannaAgent._rewrite_question_with_context E q else mret q) s1)
    as [[processed|e] s2] eqn:Hr; simpl in Hrw.
  2:{ rewrite ?mbind_run. simpl. do 2 eexists. split; [reflexivity|]. left.
      split; [apply is_error_error|]. split; [|intros; congruence].
      transitivity s1; [apply H1|]. transitivity s2; [apply Hrw|]. apply quiet_log. }
  rewrite bind_run.
  pose proof (Hgen := oracle_invoke_same_history (CallGenerateSql processed)
                        (fun tr => oracle_generate_sql E tr processed) s2).
  destruct (VannaAgent.oracle_invoke (CallGenerateSql processed)
              (fun tr => oracle_generate_sql E tr processed) s2)
    as [[generated_sql|e] s3] eqn:Hg; simpl in Hgen.
  2:{ rewrite ?mbind_run. simpl. do 2 eexists. split; [reflexivity|]. left.
      split; [apply is_error_error|]. split; [|intros; congruence].
      transitivity s1; [apply H1|]. transitivity s2; [apply Hrw|].
      transitivity s3; [apply Hgen|]. apply quiet_log. }
  assert (H3 : same_history s s3).
  { transitivity s1; [apply H1|]. transitivity s2; [apply Hrw|]. apply Hgen. }
  destruct (truthy generated_sql) eqn:Htruthy; simpl.
  2:{ do 2 eexists. split; [reflexivity|]. left.
      split; [apply is_error_error|]. split; [done|intros; congruence]. }
  rewrite bind_run.
  pose proof (Hval := validate_sql_quiet E generated_sql (PyStr processed) s3).
  destruct (validate_sql_total E generated_sql (PyStr processed) s3)
    as (outcome & Hout).
  destruct (SQLValidator.validate_sql E generated_sql (PyStr processed) s3)
    as [r4 s4] eqn:Hv4; simpl in Hval, Hout. subst r4.
  destruct outcome as [is_valid validation_error]. simpl.
  destruct is_valid; simpl.
  2:{ rewrite ?mbind_run. simpl. do 2 eexists. split; [reflexivity|]. left.
      split; [apply is_error_error|]. split; [|intros; congruence].
      transitivity s3; [done|]. transitivity s4; [apply Hval|]. apply quiet_log. }
  destruct (add_to_history_run E
              (question_turn (PyStr q) processed generated_sql ctx) s4)
    as (s5 & Hrun & Hh5 & Hmax5 & _).
  assert (H4 : same_history s s4).
  { transitivity s3; [done|]. apply Hval. }
  destruct H4 as [Hh4 Hmax4].
  assert (Htext : exists text, generated_sql = PyStr text).
  { destruct generated_sql; eauto;
      unfold SQLValidator.validate_sql, SQLValidator.validate_sql_body in Hv4;
      discriminate Hv4. }
  rewrite ?mbind_run.
  change (VannaAgent._add_to_conversation_history E _ s4) with
    (VannaAgent._add_to_conversation_history E
       (question_turn (PyStr q) processed generated_sql ctx) s4).
  rewrite Hrun.
  assert (Hresult : forall (result : gmap string pyval),
            (result = {[ "question" := PyStr q; "sql" := generated_sql ]} \/
             result = <["context_used" := PyBool true]>
                        (<["processed_question" := PyStr processed]>
                           {[ "question" := PyStr q; "sql" := generated_sql ]})) ->
            VannaAgent.is_error result = false /\
            result !! "question" = Some (PyStr q) /\
            result !! "sql" = Some generated_sql).
  { intros result [-> | ->]; (split; [apply bool_decide_eq_false; intros [x Hx]|]);
      simplify_map_eq; done. }
  case_decide as Hdiff.
  - do 2 eexists. split; [reflexivity|]. right.
    destruct (Hresult _ (or_intror eq_refl)) as (He & Hq & Hs).
    split; [exact He|]. exists processed, generated_sql, s4.
    repeat split; try done; try congruence.
  - do 2 eexists. split; [reflexivity|]. right.
    destruct (Hresult _ (or_introl eq_refl)) as (He & Hq & Hs).
    split; [exact He|]. exists processed, generated_sql, s4.
    repeat split; try done; try congruence.
Qed.

(** C3: [ask] always returns a result dict. When the result carries an
    error the conversation history is the one before the call; when it does
    not, the history is the old one to which exactly the turn of this
    question was appended.  A question that fails [_validate_question] (the
    empty string, blanks, a value that is not a string) yields an error and no
    call of the generate operation. *)
Theorem ask_history (E : Env) (question : pyval) (ctx : bool) (s : State) :
  exists result s',
    VannaAgent.ask E question ctx s = (Ok result, s') /\
    (if VannaAgent.is_error result
     then conversation_history s' = conversation_history s
     else exists processed sql s0,
            conversation_history s' =
              VannaAgent.appended (max_history_length s) (conversation_history s)
                (stamped E s0 (question_turn question processed sql ctx)) /\
            result !! "question" = Some question /\
            result !! "sql" = Some sql) /\
    (VannaAgent._validate_question question = false ->
     VannaAgent.is_error result = true /\
     conversation_history s' = conversation_history s /\
     generate_calls s' = generate_calls s).
Proof.
  rewrite ask_unfold.
  assert (Hanswer : forall s1, quiet s s1 ->
    exists result s',
      answer E question ctx s1 = (Ok result, s') /\
      (if VannaAgent.is_error result
       then conversation_history s' = conversation_history s
       else exists processed sql s0,
              conversation_history s' =
                VannaAgent.appended (max_history_length s) (conversation_history s)
                  (stamped E s0 (question_turn question processed sql ctx)) /\
              result !! "question" = Some question /\
              result !! "sql" = Some sql) /\
      (VannaAgent._validate_question question = false ->
       VannaAgent.is_error result = true /\
       conversation_history s' = conversation_history s /\
       generate_calls s' = generate_calls s)).
  { intros s1 ((Hh1 & Hmax1) & Hg1 & _).
    destruct (answer_cases E question ctx s1) as (result & s' & Hrun & Hcases).
    exists result, s'. split; [exact Hrun|].
    destruct Hcases as [(Herr & (Hh & Hmax) & Hinvalid)
                       |(Herr & processed & sql & s0 & Hvalid & _ & _ & Hq & Hsql & _ & _ & Hh)].
    - rewrite Herr. split; [congruence|].
      intros Hv. destruct (Hinvalid Hv) as [-> _]. auto.
    - rewrite Herr. split.
      + exists processed, sql, s0. rewrite Hh, Hmax1, Hh1. auto.
      + intros Hv. congruence. }
  destruct (initialized s).
  - apply Hanswer. reflexivity.
  - pose proof (Hq := initialize_quiet E s).
    destruct (initialize_total E s) as [ready Hready].
    destruct (VannaAgent.initialize E s) as [r s1]. simpl in Hq, Hready. subst r.
    destruct ready.
    + apply Hanswer. exact Hq.
    + exists (VannaAgent.not_initialized_error question), s1.
      split; [reflexivity|].
      unfold VannaAgent.not_initialized_error. rewrite is_error_error.
      destruct Hq as ((Hh & _) & Hg & _). auto.
Qed.

(** ** The initialization sequence *)

Lemma try_except_bind_ok {A B : Type} (m : M A) (k : A -> M B) (h : exn -> M B)
    (s s1 : State) (a : A) :
  m s = (Ok a, s1) ->
  try_except (bind m k) h s = try_except (k a) h s1.
Proof. intros Hm. rewrite !try_except_run, bind_run, Hm. reflexivity. Qed.

Lemma try_except_prefix {A B : Type} (m : M A) (k : A -> M B) (h : exn -> M B)
    (s : State) (l : list call) :
  (forall a, preserves quiet (k a)) ->
  (forall e, preserves quiet (h e)) ->
  l `prefix_of` calls (m s).2 ->
  l `prefix_of` calls (try_except (bind m k) h s).2.
Proof.
  intros Hk Hh Hl. rewrite try_except_run, bind_run.
  destruct (m s) as [[a|e] s1]; simpl in Hl.
  - pose proof (Hka := Hk a s1).
    destruct (k a s1) as [[b|e] s2]; simpl in *.
    + etrans; [exact Hl|apply Hka].
    + etrans; [exact Hl|]. etrans; [apply Hka|apply Hh].
  - etrans; [exact Hl|apply Hh].
Qed.

Lemma validate_config_run (E : Env) (s : State) :
  VannaAgent._validate_config E s =
  (Ok (truthy (config_api_key E)),
   if truthy (config_api_key E) then s
   else add_log ERROR "OpenAI API key not provided in configuration" s).
Proof. unfold VannaAgent._validate_config. by destruct (truthy _). Qed.

Lemma create_vanna_instance_run (E : Env) (s : State) :
  exists s1,
    VannaAgent._create_vanna_instance E s =
      (Ok (match oracle_create E (calls s) with Ok _ => true | Raise _ => false end), s1) /\
    calls s1 = calls s ++ [CallCreateOracle] /\
    (vanna_instance s = true \/
     (exists u, oracle_create E (calls s) = Ok u) -> vanna_instance s1 = true).
Proof.
  unfold VannaAgent._create_vanna_instance. rewrite try_except_run, mbind_run.
  unfold invoke at 1.
  destruct (oracle_create E (calls s)) as [u|e]; simpl.
  - eexists. split; [reflexivity|]. simpl. auto.
  - eexists. split; [reflexivity|]. simpl. split; [done|].
    intros [Hv|[u Hu]]; [done|discriminate].
Qed.

Lemma connect_database_run (E : Env) (s : State) :
  vanna_instance s = true ->
  exists s1,
    VannaAgent._connect_database E s =
      (Ok (match psycopg_connect E (calls s) with
           | Ok _ =>
               match oracle_connect_to_postgres E (calls s ++ [CallPsycopgConnect]) with
               | Ok _ => true
               | Raise _ => false
               end
           | Raise _ => false
           end), s1) /\
    calls s1 =
      calls s ++ CallPsycopgConnect ::
      match psycopg_connect E (calls s) with
      | Ok _ => [CallConnectToPostgres]
      | Raise _ => []
      end /\
    vanna_instance s1 = true.
Proof.
  intros Hv.
  unfold VannaAgent._connect_database, Connector.connect, VannaAgent.oracle_invoke.
  rewrite try_except_run, bind_run, try_except_run, mbind_run. simpl.
  rewrite mbind_run. unfold invoke at 1. simpl.
  destruct (psycopg_connect E (calls s)) as [u|e]; simpl.
  - run. rewrite Hv. unfold invoke. simpl.
    destruct (oracle_connect_to_postgres E (calls s ++ [CallPsycopgConnect])); simpl;
      (eexists; split; [reflexivity|]; simpl; rewrite <- ?List.app_assoc; done).
  - destruct e; simpl; (eexists; split; [reflexivity|]; done).
Qed.

Lemma train_system_total (E : Env) : total (VannaAgent._train_system E).
Proof.
  unfold VannaAgent._train_system. apply total_try_except.
  intros e s. by exists tt.
Qed.

Lemma train_system_first_call (E : Env) (s : State) :
  vanna_instance s = true ->
  (calls s ++ [first_training_call E]) `prefix_of` calls (VannaAgent._train_system E s).2.
Proof.
  intros Hv. unfold VannaAgent._train_system, first_training_call.
  destruct (config_force_retrain E) eqn:Hforce.
  - erewrite try_except_bind_ok; cycle 1.
    { unfold VannaAgent._should_retrain. rewrite Hforce. reflexivity. }
    simpl negb. cbv iota.
    apply (try_except_prefix (VannaAgent._train_with_essential_prompts E)
             (fun _ => _)).
    + intros _.
      unfold VannaAgent._train_with_expanded_schema, VannaAgent.train_table,
        VannaAgent._load_critical_training_data.
      quiet_auto.
    + intros e. quiet_auto.
    + unfold VannaAgent._train_with_essential_prompts, VannaAgent.oracle_invoke.
      run. rewrite Hv. unfold invoke.
      destruct (oracle_train E _ _); simpl; reflexivity.
  - apply (try_except_prefix (VannaAgent._should_retrain E)).
    + intros retrain.
      unfold VannaAgent._train_with_essential_prompts,
        VannaAgent._train_with_expanded_schema, VannaAgent.train_table,
        VannaAgent._load_critical_training_data.
      quiet_auto.
    + intros e. quiet_auto.
    + unfold VannaAgent._should_retrain. rewrite Hforce. run. unfold invoke.
      destruct (embeddings_exist E (calls s)) as [[]|]; simpl; reflexivity.
Qed.

Lemma answer_invalid_question (E : Env) (question : pyval) (ctx : bool) (s : State) :
  VannaAgent._validate_question question = false ->
  answer E question ctx s =
  (Ok {[ "error" := PyStr "Invalid question";
         "question" := PyStr (VannaAgent.py_str (repr_compound E) question) ]}, s).
Proof.
  intros Hv. unfold answer, VannaAgent.ask_body.
  rewrite try_except_run, Hv. reflexivity.
Qed.

Lemma initialize_run (E : Env) (s : State) :
  exists ready s1,
    VannaAgent.initialize E s = (Ok ready, s1) /\
    (calls s ++ init_prefix E s) `prefix_of` calls s1 /\
    (ready = true <-> length (init_prefix E s) = 4%nat) /\
    (ready = true -> initialized s1 = true).
Proof.
  unfold VannaAgent.initialize, init_prefix.
  erewrite try_except_bind_ok by apply validate_config_run.
  destruct (truthy (config_api_key E)); simpl.
  2:{ do 2 eexists. split; [reflexivity|]. simpl. rewrite app_nil_r.
      repeat split; try done; intros; simplify_eq. }
  destruct (create_vanna_instance_run E s) as (s1 & Hrun1 & Hcalls1 & Hv1).
  erewrite try_except_bind_ok by exact Hrun1.
  destruct (oracle_create E (calls s)) as [u|e]; simpl.
  2:{ do 2 eexists. split; [reflexivity|]. rewrite Hcalls1.
      repeat split; try done; intros; simplify_eq. }
  assert (Hvanna : vanna_instance s1 = true) by eauto.
  destruct (connect_database_run E s1 Hvanna) as (s2 & Hrun2 & Hcalls2 & Hv2).
  rewrite Hcalls1, <- !List.app_assoc in Hrun2, Hcalls2. simpl in Hrun2, Hcalls2.
  destruct (psycopg_connect E (calls s ++ [CallCreateOracle])) as [u'|e].
  2:{ erewrite try_except_bind_ok by exact Hrun2. simpl.
      do 2 eexists. split; [reflexivity|]. rewrite Hcalls2.
      repeat split; try done; intros; simplify_eq. }
  destruct (oracle_connect_to_postgres E _) as [u''|e].
  2:{ erewrite try_except_bind_ok by exact Hrun2. simpl.
      do 2 eexists. split; [reflexivity|]. rewrite Hcalls2.
      repeat split; try done; intros; simplify_eq. }
  erewrite try_except_bind_ok by exact Hrun2. simpl.
  rewrite try_except_run, mbind_run.
  pose proof (Hfirst := train_system_first_call E s2 Hv2).
  destruct (train_system_total E s2) as [[] Htotal].
  destruct (VannaAgent._train_system E s2) as [r s3]. simpl in Hfirst, Htotal.
  subst r. simpl.
  do 2 eexists. split; [reflexivity|]. simpl.
  rewrite Hcalls2, <- !List.app_assoc in Hfirst.
  repeat split; done.
Qed.

(** C10: on an agent that is not initialized, [ask] runs [initialize]
    first, whatever the question: the calls of the initialization sequence
    (creation of the engine, database connection, connection of the engine,
    first call of the training, each made only when the step before
    succeeded) are made before anything else, and no step touches the
    history or calls the generate operation.  Only when initialization
    fails (the configuration has no API key or one of the three connection
    steps failed) is the result the "not initialized" error, in the state
    that [initialize] left; otherwise the agent is initialized and the
    question is then answered, an invalid one by the "Invalid question"
    error.  [execute] starts with [ask] and returns its error result as it
    is. *)
Theorem ask_initializes_first (E : Env) (question : pyval) (ctx : bool) (s : State) :
  initialized s = false ->
  exists ready s1,
    VannaAgent.initialize E s = (Ok ready, s1) /\
    (calls s ++ init_prefix E s) `prefix_of` calls s1 /\
    (ready = true <-> length (init_prefix E s) = 4%nat) /\
    conversation_history s1 = conversation_history s /\
    generate_calls s1 = generate_calls s /\
    (if ready
     then initialized s1 = true /\
          VannaAgent.ask E question ctx s = answer E question ctx s1 /\
          (VannaAgent._validate_question question = false ->
           VannaAgent.ask E question ctx s =
           (Ok {[ "error" := PyStr "Invalid question";
                  "question" := PyStr (VannaAgent.py_str (repr_compound E) question) ]},
            s1))
     else VannaAgent.ask E question ctx s =
            (Ok (VannaAgent.not_initialized_error question), s1) /\
          VannaAgent.execute E question ctx s =
            (Ok (VannaAgent.not_initialized_error question), s1)).
Proof.
  intros Hinit.
  destruct (initialize_run E s) as (ready & s1 & Hrun & Hprefix & Hready & Hdone).
  exists ready, s1.
  pose proof (Hq := initialize_quiet E s). rewrite Hrun in Hq.
  destruct Hq as ((Hh & _) & Hg & _).
  do 5 (split; [done|]).
  unfold VannaAgent.execute. rewrite bind_run.
  rewrite ask_unfold, Hinit, Hrun.
  destruct ready.
  - split; [auto|]. split; [reflexivity|].
    intros Hv. by apply answer_invalid_question.
  - split; [reflexivity|].
    unfold VannaAgent.not_initialized_error. by rewrite is_error_error.
Qed.

(** ** Correctness of the regular-expression matcher *)

Lemma and_then_true (a b : bool) :
  (a and_then b) = true <-> a = true /\ b = true.
Proof. destruct a, b; intuition congruence. Qed.

Lemma or_else_true (a b : bool) :
  (a or_else b) = true <-> a = true \/ b = true.
Proof. destruct a, b; intuition congruence. Qed.

Lemma starts_with_spec (p s : list ascii) :
  starts_with p s = true <-> exists rest, s = p ++ rest.
Proof.
  revert s. induction p as [|a p IH]; intros s; simpl.
  - split; [eauto|done].
  - destruct s as [|b s].
    + split; [done|]. intros [rest Hrest]. discriminate Hrest.
    + rewrite and_then_true, bool_decide_eq_true, IH. split.
      * intros [-> [rest ->]]. eauto.
      * intros [rest Hrest]. simplify_eq. eauto.
Qed.

Lemma last_char_nil (prev : option ascii) : Re.last_char prev [] = prev.
Proof. reflexivity. Qed.

Lemma last_char_cons (prev : option ascii) (c : ascii) (w : list ascii) :
  Re.last_char prev (c :: w) = Re.last_char (Some c) w.
Proof.
  unfold Re.last_char. destruct w as [|d w]; [reflexivity|].
  rewrite !last_cons. destruct (last w); reflexivity.
Qed.

Lemma last_char_app (prev : option ascii) (w1 w2 : list ascii) :
  Re.last_char prev (w1 ++ w2) = Re.last_char (Re.last_char prev w1) w2.
Proof.
  revert prev. induction w1 as [|c w1 IH]; intros prev; simpl.
  - reflexivity.
  - rewrite !last_char_cons. apply IH.
Qed.

Lemma star_k_spec (f : ascii -> bool) (prev : option ascii) (s : list ascii)
    (k : option ascii -> list ascii -> bool) :
  Re.star_k f prev s k = true <->
  exists w post, s = w ++ post /\ Forall (fun c => f c = true) w /\
                 k (Re.last_char prev w) post = true.
Proof.
  revert prev. induction s as [|c s IH]; intros prev; simpl.
  - rewrite or_else_true. split.
    + intros [Hk|Hk]; [|discriminate Hk]. exists [], []. auto.
    + intros (w & post & Hs & _ & Hk).
      symmetry in Hs. apply app_eq_nil in Hs as [-> ->]. by left.
  - rewrite or_else_true, and_then_true, IH. split.
    + intros [Hk|[Hc (w & post & -> & Hw & Hk)]].
      * exists [], (c :: s). auto.
      * exists (c :: w), post. rewrite last_char_cons. auto.
    + intros (w & post & Hs & Hw & Hk). destruct w as [|d w].
      * left. simpl in Hs. subst post. exact Hk.
      * right. simpl in Hs. simplify_eq. apply Forall_cons in Hw as [Hd Hw].
        split; [exact Hd|]. exists w, post. rewrite last_char_cons in Hk. auto.
Qed.

Lemma match_k_spec (r : Re.regex) (prev : option ascii) (s : list ascii)
    (k : option ascii -> list ascii -> bool) :
  Re.match_k r prev s k = true <->
  exists w post, s = w ++ post /\ Re.den r prev w post /\
                 k (Re.last_char prev w) post = true.
Proof.
  revert prev s k. induction r as [l|f|f|f| |r1 IH1 r2 IH2]; intros prev s k; simpl.
  - rewrite and_then_true, starts_with_spec. split.
    + intros [[rest ->] Hk]. rewrite drop_app_length in Hk. eauto.
    + intros (w & post & -> & -> & Hk). rewrite drop_app_length. eauto.
  - destruct s as [|c s].
    + split; [done|]. intros (w & post & Hs & (c & -> & _) & _). discriminate Hs.
    + rewrite and_then_true. split.
      * intros [Hc Hk]. exists [c], s. eauto.
      * intros (w & post & Hs & (d & -> & Hd) & Hk). simpl in Hs. simplify_eq. auto.
  - apply star_k_spec.
  - destruct s as [|c s].
    + split; [done|]. intros (w & post & Hs & (Hne & _) & _).
      symmetry in Hs. apply app_eq_nil in Hs as [-> _]. done.
    + rewrite and_then_true, star_k_spec. split.
      * intros [Hc (w & post & -> & Hw & Hk)].
        exists (c :: w), post. rewrite last_char_cons. repeat split; auto.
      * intros (w & post & Hs & (Hne & Hw) & Hk).
        destruct w as [|d w]; [done|]. simpl in Hs. simplify_eq.
        apply Forall_cons in Hw as [Hd Hw]. split; [exact Hd|].
        exists w, post. rewrite last_char_cons in Hk. auto.
  - rewrite and_then_true. split.
    + intros [Hb Hk]. exists [], s. auto.
    + intros (w & post & -> & (-> & Hb) & Hk). auto.
  - rewrite IH1. split.
    + intros (w1 & post1 & -> & H1 & Hk). apply IH2 in Hk as (w2 & post & -> & H2 & Hk).
      exists (w1 ++ w2), post. rewrite last_char_app, <- List.app_assoc.
      repeat split; eauto.
    + intros (w & post & -> & (w1 & w2 & -> & H1 & H2) & Hk).
      exists w1, (w2 ++ post). rewrite <- List.app_assoc. repeat split; [done|].
      apply IH2. exists w2, post. rewrite last_char_app in Hk. auto.
Qed.

Lemma search_from_spec (r : Re.regex) (prev : option ascii) (s : list ascii) :
  Re.search_from r prev s = true <->
  exists pre w post, s = pre ++ w ++ post /\ Re.den r (Re.last_char prev pre) w post.
Proof.
  revert prev. induction s as [|c s IH]; intros prev; simpl.
  - rewrite or_else_true, match_k_spec. split.
    + intros [(w & post & Hs & Hden & _)|Hf]; [|discriminate Hf].
      exists [], w, post. auto.
    + intros (pre & w & post & Hs & Hden).
      symmetry in Hs. apply app_eq_nil in Hs as [-> Hs]. left. eauto.
  - rewrite or_else_true, match_k_spec, IH. split.
    + intros [(w & post & Hs & Hden & _)|(pre & w & post & -> & Hden)].
      * exists [], w, post. auto.
      * exists (c :: pre), w, post. rewrite last_char_cons. auto.
    + intros (pre & w & post & Hs & Hden). destruct pre as [|d pre].
      * left. simpl in Hs. eauto.
      * right. simpl in Hs. simplify_eq. rewrite last_char_cons in Hden. eauto.
Qed.

Lemma last_char_singleton (prev : option ascii) (c : ascii) :
  Re.last_char prev [c] = Some c.
Proof. reflexivity. Qed.

Lemma keyword_comparison_spec (keyword pattern sql_lower : string) :
  Re.search (SQLValidator.keyword_comparison keyword pattern) sql_lower = true <->
  compared_after keyword pattern sql_lower.
Proof.
  unfold Re.search, compared_after. rewrite search_from_spec. simpl. split.
  - intros (pre & w & post & Hs &
            w1 & w2 & -> & -> & w3 & w4 & -> & (Hne & Hsp1) &
            w5 & w6 & -> & -> & w7 & w8 & -> & Hsp2 & c & -> & Hc).
    exists pre, w3, w7, c, post. rewrite Hs, <- !List.app_assoc. auto.
  - intros (pre & blanks1 & blanks2 & op & post & Hs & Hne & Hb1 & Hb2 & Hop).
    exists pre, (chars keyword ++ blanks1 ++ chars pattern ++ blanks2 ++ [op]), post.
    split; [rewrite Hs, <- !List.app_assoc; reflexivity|].
    do 2 eexists. split; [reflexivity|]. split; [reflexivity|].
    do 2 eexists. split; [reflexivity|]. split; [done|].
    do 2 eexists. split; [reflexivity|]. split; [reflexivity|].
    do 2 eexists. split; [reflexivity|]. split; [done|]. eauto.
Qed.

Lemma qualified_reference_spec (pattern sql_lower : string) :
  Re.search
    (Re.Cat (Re.Plus is_word)
       (Re.Cat (Re.Lit (chars "."))
          (Re.Cat (Re.Lit (chars pattern)) Re.WordBoundary))) sql_lower = true <->
  qualified_reference pattern sql_lower.
Proof.
  unfold Re.search, qualified_reference. rewrite search_from_spec. simpl. split.
  - intros (pre & w & post & Hs &
            w1 & w2 & -> & (Hne & Hw) & w3 & w4 & -> & -> &
            w5 & w6 & -> & -> & -> & Hb).
    exists pre, w1, post. rewrite Hs, <- !List.app_assoc. simpl.
    rewrite last_char_singleton in Hb. auto.
  - intros (pre & table & post & Hs & Hne & Hw & Hb).
    exists pre, (table ++ chars "." ++ chars pattern), post.
    split; [rewrite Hs, <- !List.app_assoc; reflexivity|].
    do 2 eexists. split; [reflexivity|]. split; [done|].
    do 2 eexists. split; [reflexivity|]. split; [reflexivity|].
    exists (chars pattern), []. split; [by rewrite app_nil_r|].
    split; [reflexivity|]. split; [reflexivity|]. exact Hb.
Qed.

Lemma joined_on_spec (pattern sql_lower : string) :
  Re.search
    (Re.Cat (Re.Lit (chars "on"))
       (Re.Cat (Re.Plus is_space)
          (Re.Cat (Re.Plus is_word)
             (Re.Cat (Re.Lit (chars "."))
                (Re.Cat (Re.Lit (chars pattern))
                   (Re.Cat (Re.Star is_space) (Re.Class SQLValidator.is_equals)))))))
    sql_lower = true <->
  joined_on pattern sql_lower.
Proof.
  unfold Re.search, joined_on. rewrite search_from_spec. simpl. split.
  - intros (pre & w & post & Hs &
            w1 & w2 & -> & -> & w3 & w4 & -> & (Hne1 & Hsp1) &
            w5 & w6 & -> & (Hne2 & Hw) & w7 & w8 & -> & -> &
            w9 & w10 & -> & -> & w11 & w12 & -> & Hsp2 & c & -> & Hc).
    apply bool_decide_eq_true in Hc. subst c.
    exists pre, w3, w5, w11, post. rewrite Hs, <- !List.app_assoc. auto 10.
  - intros (pre & blanks1 & table & blanks2 & post & Hs & Hne1 & Hb1 & Hne2 & Hw & Hb2).
    exists pre,
      (chars "on" ++ blanks1 ++ table ++ chars "." ++ chars pattern ++ blanks2 ++
       ["="%char]), post.
    split; [rewrite Hs, <- !List.app_assoc; reflexivity|].
    do 2 eexists. split; [reflexivity|]. split; [reflexivity|].
    do 2 eexists. split; [reflexivity|]. split; [done|].
    do 2 eexists. split; [reflexivity|]. split; [done|].
    do 2 eexists. split; [reflexivity|]. split; [reflexivity|].
    do 2 eexists. split; [reflexivity|]. split; [reflexivity|].
    do 2 eexists. split; [reflexivity|]. split; [done|]. eauto.
Qed.

Lemma is_likely_column_reference_spec (sql_lower pattern : string) :
  SQLValidator._is_likely_column_reference sql_lower pattern = true <->
  column_reference_context pattern sql_lower.
Proof.
  unfold SQLValidator._is_likely_column_reference, SQLValidator.column_ref_patterns,
    column_reference_context.
  cbn [existsb]. rewrite !orb_true_iff.
  rewrite qualified_reference_spec, !keyword_comparison_spec, joined_on_spec.
  intuition discriminate.
Qed.

(** ** Substrings *)

Lemma find_chars_lower_bound (p s : list ascii) (i : Z) :
  find_chars p s i = -1 \/ i <= find_chars p s i.
Proof.
  revert i. induction s as [|c s IH]; intros i; simpl.
  - destruct (starts_with p []); [right; lia|left; reflexivity].
  - destruct (starts_with p (c :: s)); [right; lia|].
    destruct (IH (i + 1)) as [H|H]; [by left|right; lia].
Qed.

Lemma find_chars_spec (p s : list ascii) (i : Z) :
  0 <= i ->
  (find_chars p s i <> -1 <-> exists pre post, s = pre ++ p ++ post).
Proof.
  revert i. induction s as [|c s IH]; intros i Hi; simpl.
  - destruct (starts_with p []) eqn:Hp.
    + apply starts_with_spec in Hp as [rest Hrest]. split; [|lia].
      intros _. exists [], rest. exact Hrest.
    + split; [done|]. intros (pre & post & Hs).
      symmetry in Hs. apply app_eq_nil in Hs as [-> Hs].
      assert (starts_with p [] = true) by (apply starts_with_spec; eauto).
      congruence.
  - destruct (starts_with p (c :: s)) eqn:Hp.
    + apply starts_with_spec in Hp as [rest Hrest]. split; [|lia].
      intros _. exists [], rest. exact Hrest.
    + rewrite IH by lia. split.
      * intros (pre & post & ->). exists (c :: pre), post. reflexivity.
      * intros (pre & post & Hs). destruct pre as [|d pre].
        -- assert (starts_with p (c :: s) = true) by (apply starts_with_spec; eauto).
           congruence.
        -- simpl in Hs. simplify_eq. eauto.
Qed.

Lemma chars_str (l : list ascii) : chars (str l) = l.
Proof. apply list_ascii_of_string_of_list_ascii. Qed.

Lemma contains_spec (sub s : string) :
  contains sub s = true <-> substring sub s.
Proof.
  unfold contains, find, substring.
  rewrite negb_true_iff, Z.eqb_neq. apply find_chars_spec. lia.
Qed.

(** ** The column-existence check *)

Lemma iter_strs_elem (E : Env) (X : gset string) (p : string) :
  p ∈ iter_strs (set_order E) X <-> p ∈ X.
Proof. rewrite (iter_strs_perm (set_order E) X). apply elem_of_elements. Qed.

Lemma iter_cells_elem (E : Env) (X : gset cell) (c : cell) :
  c ∈ iter_cells (set_order E) X <-> c ∈ X.
Proof. rewrite (iter_cells_perm (set_order E) X). apply elem_of_elements. Qed.

Lemma check_strict_patterns_spec (sql_lower : string) (names : gset string)
    (patterns : list string) :
  match SQLValidator.check_strict_patterns sql_lower names patterns with
  | Some msg =>
      exists pattern, pattern ∈ patterns /\ msg = SQLValidator.column_error pattern /\
                      SQLValidator.lenient_rule_flags sql_lower names pattern = true
  | None => forall pattern, pattern ∈ patterns ->
                            SQLValidator.lenient_rule_flags sql_lower names pattern = false
  end.
Proof.
  induction patterns as [|p patterns IH]; simpl.
  - intros pattern Hin. by apply elem_of_nil in Hin.
  - destruct (SQLValidator.lenient_rule_flags sql_lower names p) eqn:Hp.
    + exists p. split; [left|]. auto.
    + destruct (SQLValidator.check_strict_patterns sql_lower names patterns).
      * destruct IH as (pattern & Hin & Hmsg & Hflag).
        exists pattern. split; [by right|]. auto.
      * intros pattern Hin. apply elem_of_cons in Hin as [->|Hin]; auto.
Qed.

Lemma check_patterns_spec (sql_lower : string) (names aliases : gset string)
    (patterns : list string) :
  match SQLValidator.check_patterns sql_lower names aliases patterns with
  | Some msg =>
      exists pattern, pattern ∈ patterns /\ msg = SQLValidator.column_error pattern /\
                      SQLValidator.strict_rule_flags sql_lower names aliases pattern = true
  | None => forall pattern, pattern ∈ patterns ->
                            SQLValidator.strict_rule_flags sql_lower names aliases pattern = false
  end.
Proof.
  induction patterns as [|p patterns IH]; simpl.
  - intros pattern Hin. by apply elem_of_nil in Hin.
  - destruct (SQLValidator.strict_rule_flags sql_lower names aliases p) eqn:Hp.
    + exists p. split; [left|]. auto.
    + destruct (SQLValidator.check_patterns sql_lower names aliases patterns).
      * destruct IH as (pattern & Hin & Hmsg & Hflag).
        exists pattern. split; [by right|]. auto.
      * intros pattern Hin. apply elem_of_cons in Hin as [->|Hin]; auto.
Qed.

Lemma check_column_validity_run (E : Env) (sql : string) (s : State) :
  SQLValidator._check_column_validity E sql s =
  match lowered_columns E s with
  | (Ok names, s') =>
      (Ok (if SQLValidator.is_cte (lower sql)
           then SQLValidator.check_strict_patterns (lower sql) names
                  (iter_strs (set_order E) SQLValidator.strict_invalid_patterns)
           else SQLValidator.check_patterns (lower sql) names
                  (SQLValidator._extract_select_aliases sql)
                  (iter_strs (set_order E) SQLValidator._invalid_patterns)), s')
  | (Raise e, s') => (Raise e, s')
  end.
Proof.
  unfold SQLValidator._check_column_validity, SQLValidator._validate_cte_query,
    lowered_columns.
  destruct (SQLValidator.is_cte (lower sql)); rewrite !bind_run;
    destruct (SchemaManager.get_all_column_names E s) as [[cols|e] s1]; try reflexivity;
    rewrite ?bind_run;
    destruct (SQLValidator.lower_all _ _ s1) as [[names|e] s2]; reflexivity.
Qed.

Lemma strict_patterns_origin (pattern : string) :
  (pattern ∈ SQLValidator.strict_invalid_patterns) <->
  ((pattern ∈ SQLValidator._invalid_patterns /\
    pattern ∉ ["conversion_rate"; "revenue"; "success_rate"]) \/
   pattern ∈ ["ctr"; "roas"]).
Proof.
  unfold SQLValidator.strict_invalid_patterns, SQLValidator._invalid_patterns.
  rewrite !elem_of_list_to_set, !elem_of_cons, !elem_of_nil.
  split.
  - intros H.
    repeat (destruct H as [->|H];
            [first [right; tauto|left; split; [tauto|intuition discriminate]]|]).
    done.
  - intuition (subst; tauto).
Qed.

(** C6 (as amended): for a common-table-expression query of ASCII
    characters, over a schema whose lookup succeeds and whose column names
    are ASCII, the column-existence check returns a verdict.  A
    reported name belongs to the set of ten that the lenient rule tests,
    which is the denylist without [conversion_rate], [revenue] and
    [success_rate] together with [ctr] and [roas], which the denylist does
    not hold; the name is not a lower-cased schema column, occurs in the
    lower-cased query, and occurs there as a column reference: [table.name]
    before a word boundary, [where], [and] or [or] followed by white space,
    the name, optional white space and one of [=], [<], [>], or
    [on table.name =].  When no tested name that the schema lacks occurs in
    such a context, nothing is reported. *)
Theorem cte_check_flags_column_references (E : Env) (sql : string) (s : State)
    (names : gset string) :
  isascii sql = true ->
  SQLValidator.is_cte (lower sql) = true ->
  (lowered_columns E s).1 = Ok names ->
  ascii_names names ->
  exists verdict,
    (SQLValidator._check_column_validity E sql s).1 = Ok verdict /\
    (forall msg, verdict = Some msg ->
       exists pattern,
         msg = SQLValidator.column_error pattern /\
         pattern ∈ SQLValidator.strict_invalid_patterns /\
         ((pattern ∈ SQLValidator._invalid_patterns /\
           pattern ∉ ["conversion_rate"; "revenue"; "success_rate"]) \/
          pattern ∈ ["ctr"; "roas"]) /\
         (pattern ∉ names) /\
         substring pattern (lower sql) /\
         column_reference_context pattern (lower sql)) /\
    ((forall pattern,
        pattern ∈ SQLValidator.strict_invalid_patterns ->
        pattern ∉ names ->
        ~ column_reference_context pattern (lower sql)) ->
     verdict = None).
Proof.
  intros _ Hcte Hnames _. rewrite check_column_validity_run, Hcte.
  destruct (lowered_columns E s) as [r s']. simpl in Hnames. subst r.
  eexists. split; [reflexivity|].
  pose proof (Hspec := check_strict_patterns_spec (lower sql) names
                (iter_strs (set_order E) SQLValidator.strict_invalid_patterns)).
  destruct (SQLValidator.check_strict_patterns _ _ _) as [msg|].
  - destruct Hspec as (pattern & Hin & Hmsg & Hflag).
    apply iter_strs_elem in Hin.
    unfold SQLValidator.lenient_rule_flags in Hflag.
    apply and_then_true in Hflag as [Hflag Hctx].
    apply and_then_true in Hflag as [Hsub Hnot].
    apply bool_decide_eq_true in Hnot.
    apply contains_spec in Hsub.
    apply is_likely_column_reference_spec in Hctx.
    split.
    + intros msg' [= <-]. exists pattern.
      repeat split; try done. by apply strict_patterns_origin.
    + intros Hnone. exfalso. by apply (Hnone pattern).
  - split; [intros msg [=]|reflexivity].
Qed.

Lemma strict_rule_flags_absent (sql_lower : string) (names aliases : gset string)
    (pattern : string) :
  contains pattern sql_lower = false ->
  SQLValidator.strict_rule_flags sql_lower names aliases pattern = false.
Proof. intros H. unfold SQLValidator.strict_rule_flags. by rewrite H. Qed.

Lemma strict_rule_flags_alias_use (sql_lower : string) (names aliases : gset string)
    (pattern : string) :
  SQLValidator._is_invalid_column_usage sql_lower pattern aliases = false ->
  SQLValidator.strict_rule_flags sql_lower names aliases pattern = false.
Proof.
  intros H. unfold SQLValidator.strict_rule_flags. rewrite H.
  by repeat case_match.
Qed.

Lemma denylist_cases (P : string -> Prop) :
  P "conversion_rate" -> P "revenue" -> P "clicks" -> P "impressions" ->
  P "created_by" -> P "user_id" -> P "tags" -> P "priority" -> P "budget" ->
  P "success_rate" -> P "participant_count" ->
  forall pattern, pattern ∈ SQLValidator._invalid_patterns -> P pattern.
Proof.
  intros ??????????? pattern Hin.
  unfold SQLValidator._invalid_patterns in Hin.
  rewrite elem_of_list_to_set, !elem_of_cons, elem_of_nil in Hin.
  repeat (destruct Hin as [->|Hin]; [assumption|]). done.
Qed.

Lemma validate_sql_run (E : Env) (sql : string) (question : pyval) (s : State) :
  SQLValidator._is_basic_sql_valid (PyStr sql) = true ->
  SQLValidator._contains_error_message sql = false ->
  (SQLValidator.validate_sql E (PyStr sql) question s).1 =
  match (SQLValidator._check_column_validity E sql s).1 with
  | Ok (Some msg) => Ok (false, Some msg)
  | Ok None => Ok (true, None)
  | Raise _ => Ok (true, None)
  end.
Proof.
  intros Hbasic Herr.
  unfold SQLValidator.validate_sql, SQLValidator.validate_sql_body.
  rewrite try_except_run, Hbasic, Herr. simpl. rewrite bind_run.
  destruct (SQLValidator._check_column_validity E sql s) as [[[msg|]|e] s'];
    reflexivity.
Qed.

(** C2 (as amended): "SELECT id, conversion_rate FROM experiments"
    validates as valid, with no reason, on every agent and whatever the
    schema holds, so also for a schema in which [conversion_rate] is not a
    column: its only occurrence of [conversion_rate] lies strictly between
    the first "select" and the first "from", where
    [_is_invalid_column_usage] skips it. *)
Theorem select_clause_name_is_accepted (E : Env) (question : pyval) (s : State) :
  (SQLValidator.validate_sql E
     (PyStr "SELECT id, conversion_rate FROM experiments") question s).1 =
    Ok (true, None).
Proof.
  rewrite validate_sql_run by (vm_compute; reflexivity).
  rewrite check_column_validity_run.
  assert (Hcte : SQLValidator.is_cte
                   (lower "SELECT id, conversion_rate FROM experiments") = false)
    by (vm_compute; reflexivity).
  rewrite Hcte.
  destruct (lowered_columns E s) as [[names|e] s']; [|reflexivity].
  cbn [fst].
  pose proof (Hspec := check_patterns_spec
                (lower "SELECT id, conversion_rate FROM experiments") names
                (SQLValidator._extract_select_aliases
                   "SELECT id, conversion_rate FROM experiments")
                (iter_strs (set_order E) SQLValidator._invalid_patterns)).
  destruct (SQLValidator.check_patterns _ _ _ _) as [msg|]; [|reflexivity].
  destruct Hspec as (pattern & Hin & _ & Hflag). exfalso.
  apply iter_strs_elem in Hin. revert pattern Hin Hflag.
  apply (denylist_cases (fun pattern => _ pattern = true -> False)); intros Hflag;
    first
      [ rewrite strict_rule_flags_absent in Hflag
          by (vm_compute; reflexivity); discriminate
      | rewrite strict_rule_flags_alias_use in Hflag
          by (vm_compute; reflexivity); discriminate ].
Qed.

(** The same name behind the FROM clause is reported: when the schema has
    no column [conversion_rate] (compared in lower case),
    "SELECT id FROM experiments WHERE conversion_rate > 0" is invalid with
    the reason "Column 'conversion_rate' does not exist in schema". *)
Lemma where_clause_name_is_reported (E : Env) (question : pyval) (s : State)
    (names : gset string) :
  (lowered_columns E s).1 = Ok names ->
  "conversion_rate" ∉ names ->
  (SQLValidator.validate_sql E
     (PyStr "SELECT id FROM experiments WHERE conversion_rate > 0") question s).1 =
    Ok (false, Some "Column 'conversion_rate' does not exist in schema").
Proof.
  intros Hnames Hnot.
  rewrite validate_sql_run by (vm_compute; reflexivity).
  rewrite check_column_validity_run.
  assert (Hcte : SQLValidator.is_cte
                   (lower "SELECT id FROM experiments WHERE conversion_rate > 0") = false)
    by (vm_compute; reflexivity).
  rewrite Hcte.
  destruct (lowered_columns E s) as [r s']. cbn [fst] in Hnames. subst r.
  cbn [fst].
  pose proof (Hspec := check_patterns_spec
                (lower "SELECT id FROM experiments WHERE conversion_rate > 0") names
                (SQLValidator._extract_select_aliases
                   "SELECT id FROM experiments WHERE conversion_rate > 0")
                (iter_strs (set_order E) SQLValidator._invalid_patterns)).
  destruct (SQLValidator.check_patterns _ _ _ _) as [msg|].
  - destruct Hspec as (pattern & Hin & -> & Hflag).
    apply iter_strs_elem in Hin. revert pattern Hin Hflag.
    apply (denylist_cases
             (fun pattern => _ pattern = true ->
                Ok (false, Some (SQLValidator.column_error pattern)) = _));
      intros Hflag;
      first
        [ reflexivity
        | rewrite strict_rule_flags_absent in Hflag
            by (vm_compute; reflexivity); discriminate ].
  - exfalso.
    assert (Hin : "conversion_rate" ∈
              iter_strs (set_order E) SQLValidator._invalid_patterns).
    { apply iter_strs_elem. apply (bool_decide_unpack _). vm_compute. exact I. }
    specialize (Hspec _ Hin). unfold SQLValidator.strict_rule_flags in Hspec.
    rewrite (bool_decide_eq_true_2 _ Hnot) in Hspec.
    vm_compute in Hspec. discriminate Hspec.
Qed.

(** ** Column suggestions *)

Lemma collect_suggestions_spec (invalid_lower : string) (cols : list cell)
    (acc : list cell) (s : State) (r : list cell) (s' : State) :
  SQLValidator.collect_suggestions invalid_lower cols acc s = (Ok r, s') ->
  s' = s /\
  exists new, r = acc ++ new /\
    forall c, c ∈ new ->
      c ∈ cols /\
      exists name, c = CStr name /\
        (contains invalid_lower (lower name) = true \/
         contains (lower name) invalid_lower = true).
Proof.
  revert acc. induction cols as [|col cols IH]; intros acc; simpl.
  - intros [= <- <-]. split; [reflexivity|]. exists []. rewrite app_nil_r.
    split; [reflexivity|]. intros c Hc. by apply elem_of_nil in Hc.
  - destruct col as [| | |name|]; try discriminate.
    destruct (contains invalid_lower (lower name) || contains (lower name) invalid_lower)
      eqn:Hmatch.
    + intros Hrun. apply IH in Hrun as (-> & new & -> & Hnew).
      split; [reflexivity|]. exists (CStr name :: new).
      split; [by rewrite <- List.app_assoc|].
      intros c Hc. apply elem_of_cons in Hc as [->|Hc].
      * split; [left|]. exists name. split; [reflexivity|].
        by apply orb_true_iff.
      * destruct (Hnew c Hc) as [Hin Hname]. split; [by right|exact Hname].
    + intros Hrun. apply IH in Hrun as (-> & new & -> & Hnew).
      split; [reflexivity|]. exists new. split; [reflexivity|].
      intros c Hc. destruct (Hnew c Hc) as [Hin Hname]. split; [by right|exact Hname].
Qed.

(** C7 (as amended): for an invalid name of ASCII characters,
    [get_column_suggestions] returns at most three values; each is a column
    name of the schema, and when it is an ASCII text its lower-cased text
    contains the lower-cased invalid name or is contained in it: the
    comparison ignores case. *)
Theorem column_suggestions_spec (E : Env) (invalid_column : string) (s : State)
    (suggestions : list cell) :
  isascii invalid_column = true ->
  (SQLValidator.get_column_suggestions E invalid_column s).1 = Ok suggestions ->
  (length suggestions <= 3)%nat /\
  exists all_columns,
    (SchemaManager.get_all_column_names E s).1 = Ok all_columns /\
    forall c, c ∈ suggestions ->
      c ∈ all_columns /\
      exists name, c = CStr name /\
        (isascii name = true ->
         substring (lower invalid_column) (lower name) \/
         substring (lower name) (lower invalid_column)).
Proof.
  intros _.
  unfold SQLValidator.get_column_suggestions. rewrite bind_run.
  destruct (SchemaManager.get_all_column_names E s) as [[all_columns|e] s1];
    [|discriminate].
  rewrite bind_run.
  destruct (SQLValidator.collect_suggestions _ _ _ s1) as [[found|e] s2] eqn:Hrun;
    [|discriminate].
  intros [= <-].
  apply collect_suggestions_spec in Hrun as (_ & new & -> & Hnew). simpl in *.
  split; [rewrite length_take; lia|].
  exists all_columns. split; [reflexivity|].
  intros c Hc. apply elem_of_take in Hc as (i & Hc & _).
  apply list_elem_of_lookup_2 in Hc.
  destruct (Hnew c Hc) as (Hin & name & -> & Hsub).
  split; [by apply iter_cells_elem in Hin|].
  exists name. split; [reflexivity|]. intros _. by rewrite <- !contains_spec.
Qed.

(** ** The schema cache *)

Lemma connector_get_schema_info_total (E : Env) : total (Connector.get_schema_info E).
Proof.
  unfold Connector.get_schema_info. apply total_try_except.
  intros e s. by exists [].
Qed.


(** ** [execute] *)

Lemma ask_success_sql (E : Env) (question : pyval) (ctx : bool) (s s1 : State)
    (result : gmap string pyval) :
  VannaAgent.ask E question ctx s = (Ok result, s1) ->
  VannaAgent.is_error result = false ->
  exists text, result !! "sql" = Some (PyStr text) /\
               result !! "question" = Some question.
Proof.
  intros Hask Herr. rewrite ask_unfold in Hask.
  assert (Hanswer : forall s0, answer E question ctx s0 = (Ok result, s1) ->
            exists text, result !! "sql" = Some (PyStr text) /\
                         result !! "question" = Some question).
  { intros s0 Hrun.
    destruct (answer_cases E question ctx s0) as (result' & s' & Hrun' & Hcases).
    rewrite Hrun in Hrun'. injection Hrun' as <- <-.
    destruct Hcases as [(Herr' & _)
                       |(_ & processed & sql & s2 & _ & _ & (text & ->) & Hq & Hsql & _)].
    - congruence.
    - eauto. }
  destruct (initialized s); [eauto|].
  destruct (VannaAgent.initialize E s) as [[[]|e] s0]; [eauto| |discriminate].
  injection Hask as <- <-.
  unfold VannaAgent.not_initialized_error in Herr.
  rewrite is_error_error in Herr. discriminate.
Qed.

(** C9 (as amended): after a successful [ask], [execute] returns a dict
    and never raises.  When the stripped SQL is not empty the result is the
    ask result with two more keys: if the connector reports the failure of
    the query by returning no frame, these are [success] = False and
    [results] = the empty list, and no [error] key is set; only if the
    connector itself raises are they [error], the text of the exception, and
    [success] = False; if the query ran they are [success] = True and the
    rows, as the records that [pandas] gives back for the frame (none for
    a frame without rows).  In each case the keys [question] and [sql] are
    those of the ask result. *)
Theorem execute_after_ask (E : Env) (question : pyval) (ctx : bool) (s s1 : State)
    (result : gmap string pyval) :
  VannaAgent.ask E question ctx s = (Ok result, s1) ->
  VannaAgent.is_error result = false ->
  exists sql final s2,
    result !! "sql" = Some (PyStr sql) /\
    VannaAgent.execute E question ctx s = (Ok final, s2) /\
    (strip sql <> "" ->
     final !! "question" = result !! "question" /\
     final !! "sql" = result !! "sql" /\
     match Connector.execute_query E (strip sql) [] (add_log INFO "Executing SQL" s1) with
     | (Ok None, s2') =>
         final = <["success" := PyBool false]> (<["results" := PyRecords []]> result) /\
         final !! "error" = None /\ s2 = s2'
     | (Ok (Some (DataFrame rows)), s2') =>
         final = <["success" := PyBool true]>
                   (<["results" := PyRecords (match rows with
                                              | [] => []
                                              | _ :: _ => frame_records E rows
                                              end)]> result) /\
         s2 = s2'
     | (Raise e, s2') =>
         final = <["success" := PyBool false]>
                   (<["error" := PyStr (exn_msg e)]> result) /\
         s2 = add_log ERROR "Error executing query" s2'
     end).
Proof.
  intros Hask Herr.
  destruct (ask_success_sql E question ctx s s1 result Hask Herr) as (sql & Hsql & Hq).
  assert (Hnoerr : result !! "error" = None).
  { unfold VannaAgent.is_error in Herr. apply bool_decide_eq_false in Herr.
    destruct (result !! "error"); [exfalso; eauto|reflexivity]. }
  exists sql. unfold VannaAgent.execute. rewrite bind_run, Hask, Herr.
  rewrite try_except_run, bind_run. unfold VannaAgent.result_sql. rewrite Hsql.
  simpl. rewrite bind_run. simpl.
  destruct (bool_decide (strip sql = "")) eqn:Hempty.
  { apply bool_decide_eq_true in Hempty. do 2 eexists.
    split; [reflexivity|]. split; [reflexivity|]. done. }
  rewrite mbind_run. simpl. rewrite bind_run.
  destruct (Connector.execute_query E (strip sql) [] (add_log INFO "Executing SQL" s1))
    as [[[[rows]|]|e] s2'].
  - do 2 eexists. split; [reflexivity|]. split; [reflexivity|]. intros _.
    rewrite !lookup_insert_ne by done. by destruct rows.
  - do 2 eexists. split; [reflexivity|]. split; [reflexivity|]. intros _.
    rewrite !lookup_insert_ne by done. auto.
  - do 2 eexists. split; [reflexivity|]. split; [reflexivity|]. intros _.
    rewrite !lookup_insert_ne by done. auto.
Qed.

(** ** Examples: the properties at concrete inputs *)

Lemma ascii_names_id_name : ascii_names (list_to_set ["id"; "name"]).
Proof.
  intros name Hin. apply elem_of_list_to_set in Hin.
  rewrite !elem_of_cons, elem_of_nil in Hin.
  destruct Hin as [->|[->|[]]]; reflexivity.
Qed.

(** The validator fails open: the rows of the column query have no
    [column_name] key, the body of [validate_sql] raises [KeyError], and a
    query that names a column the schema lacks is accepted. *)
Example validate_sql_fail_open_example :
  let s := VannaAgent.new_agent demo_malformed in
  let sql := PyStr "SELECT id FROM experiments WHERE conversion_rate > 0" in
  (SQLValidator.validate_sql_body demo_malformed sql PyNone s).1 =
    Raise (PyError "KeyError" "'column_name'") /\
  (SQLValidator.validate_sql demo_malformed sql PyNone s).1 = Ok (true, None).
Proof. split; vm_compute; reflexivity. Qed.

(** C2, counterexample: the schema has the columns [id] and [name] only,
    and the query is accepted. *)
Lemma select_clause_name_counterexample :
  (lowered_columns demo (VannaAgent.new_agent demo)).1 = Ok (list_to_set ["id"; "name"]) /\
  ("conversion_rate" ∉ (list_to_set ["id"; "name"] : gset string)) /\
  (SQLValidator.validate_sql demo
     (PyStr "SELECT id, conversion_rate FROM experiments")
     (PyStr "list the conversion rates") (VannaAgent.new_agent demo)).1 =
    Ok (true, None).
Proof.
  split; [vm_compute; reflexivity|]. split; [|vm_compute; reflexivity].
  apply (bool_decide_unpack _). vm_compute. exact I.
Qed.

(** C4, witness: twenty turns are appended to a new agent, then one more. *)
Lemma history_bounded_witness :
  let s1 := after_appends demo (replicate 20 demo_turn) (VannaAgent.new_agent demo) in
  let s2 := (VannaAgent._add_to_conversation_history demo demo_turn s1).2 in
  length (conversation_history s1) = 20%nat /\
  (length (conversation_history s2) <= 20)%nat /\
  conversation_history s2 =
    drop 1 (conversation_history s1) ++ [stamped demo s1 demo_turn].
Proof.
  intros s1 s2.
  assert (Hfull : length (conversation_history s1) = 20%nat)
    by (vm_compute; reflexivity).
  destruct (history_bounded demo (VannaAgent.new_agent demo)
              (replicate 20 demo_turn) demo_turn eq_refl) as (Hle & _ & Hdrop).
  split; [exact Hfull|]. split; [exact Hle|]. exact (Hdrop Hfull).
Defined.

(** C6, counterexample: [ctr] is not in the denylist, and the lenient rule
    reports it. *)
Lemma cte_check_counterexample :
  let sql := "WITH c AS (SELECT 1) SELECT m.ctr FROM m" in
  SQLValidator.is_cte (lower sql) = true /\
  ("ctr" ∉ SQLValidator._invalid_patterns) /\
  (SQLValidator._check_column_validity demo sql (VannaAgent.new_agent demo)).1 =
    Ok (Some "Column 'ctr' does not exist in schema").
Proof.
  split; [vm_compute; reflexivity|]. split; [|vm_compute; reflexivity].
  apply (bool_decide_unpack _). vm_compute. exact I.
Qed.

(** C6, witness: the same query. *)
Lemma cte_check_witness :
  exists verdict,
    (SQLValidator._check_column_validity demo
       "WITH c AS (SELECT 1) SELECT m.ctr FROM m" (VannaAgent.new_agent demo)).1 =
      Ok verdict /\
    (forall msg, verdict = Some msg ->
       exists pattern,
         msg = SQLValidator.column_error pattern /\
         pattern ∈ SQLValidator.strict_invalid_patterns /\
         ((pattern ∈ SQLValidator._invalid_patterns /\
           pattern ∉ ["conversion_rate"; "revenue"; "success_rate"]) \/
          pattern ∈ ["ctr"; "roas"]) /\
         (pattern ∉ (list_to_set ["id"; "name"] : gset string)) /\
         substring pattern (lower "WITH c AS (SELECT 1) SELECT m.ctr FROM m") /\
         column_reference_context pattern
           (lower "WITH c AS (SELECT 1) SELECT m.ctr FROM m")) /\
    ((forall pattern,
        pattern ∈ SQLValidator.strict_invalid_patterns ->
        pattern ∉ (list_to_set ["id"; "name"] : gset string) ->
        ~ column_reference_context pattern
            (lower "WITH c AS (SELECT 1) SELECT m.ctr FROM m")) ->
     verdict = None).
Proof.
  apply (cte_check_flags_column_references demo
           "WITH c AS (SELECT 1) SELECT m.ctr FROM m" (VannaAgent.new_agent demo)
           (list_to_set ["id"; "name"])).
  - vm_compute. reflexivity.
  - vm_compute. reflexivity.
  - vm_compute. reflexivity.
  - apply ascii_names_id_name.
Defined.

(** C7, counterexample: [id] is suggested for [ID], though neither text
    contains the other. *)
Lemma column_suggestions_counterexample :
  (SQLValidator.get_column_suggestions demo "ID" (VannaAgent.new_agent demo)).1 =
    Ok [CStr "id"] /\
  contains "ID" "id" = false /\ contains "id" "ID" = false.
Proof. repeat split; vm_compute; reflexivity. Qed.

(** C7, witness: the same call. *)
Lemma column_suggestions_witness :
  (length [CStr "id"] <= 3)%nat /\
  exists all_columns,
    (SchemaManager.get_all_column_names demo (VannaAgent.new_agent demo)).1 =
      Ok all_columns /\
    forall c, c ∈ [CStr "id"] ->
      c ∈ all_columns /\
      exists name, c = CStr name /\
        (isascii name = true ->
         substring (lower "ID") (lower name) \/ substring (lower name) (lower "ID")).
Proof.
  apply (column_suggestions_spec demo "ID" (VannaAgent.new_agent demo)).
  - vm_compute. reflexivity.
  - vm_compute. reflexivity.
Defined.


(** C9, counterexample: the generated query fails in the database; the
    result of [execute] has [success] = False and no [error] key. *)
Lemma execute_counterexample :
  let s := VannaAgent.new_agent demo in
  let final : gmap string pyval :=
    {[ "question" := PyStr "how many experiments?";
       "sql" := PyStr "SELECT id FROM experiments";
       "results" := PyRecords [];
       "success" := PyBool false ]} in
  cursor_execute demo [] "SELECT id FROM experiments" [] =
    Raise (PsycopgError "relation does not exist") /\
  (VannaAgent.execute demo (PyStr "how many experiments?") false s).1 = Ok final /\
  final !! "error" = None.
Proof.
  split; [reflexivity|]. split; [vm_compute; reflexivity|].
  vm_compute. reflexivity.
Qed.

(** C9, witness: the same call. *)
Lemma execute_after_ask_witness :
  let s := VannaAgent.new_agent demo in
  let question := PyStr "how many experiments?" in
  let result : gmap string pyval :=
    {[ "question" := question; "sql" := PyStr "SELECT id FROM experiments" ]} in
  let s1 := (VannaAgent.ask demo question false s).2 in
  exists sql final s2,
    result !! "sql" = Some (PyStr sql) /\
    VannaAgent.execute demo question false s = (Ok final, s2) /\
    (strip sql <> "" ->
     final !! "question" = result !! "question" /\
     final !! "sql" = result !! "sql" /\
     match Connector.execute_query demo (strip sql) [] (add_log INFO "Executing SQL" s1) with
     | (Ok None, s2') =>
         final = <["success" := PyBool false]> (<["results" := PyRecords []]> result) /\
         final !! "error" = None /\ s2 = s2'
     | (Ok (Some (DataFrame rows)), s2') =>
         final = <["success" := PyBool true]>
                   (<["results" := PyRecords (match rows with
                                              | [] => []
                                              | _ :: _ => frame_records demo rows
                                              end)]> result) /\
         s2 = s2'
     | (Raise e, s2') =>
         final = <["success" := PyBool false]>
                   (<["error" := PyStr (exn_msg e)]> result) /\
         s2 = add_log ERROR "Error executing query" s2'
     end).
Proof.
  intros s question result s1.
  apply (execute_after_ask demo question false s s1 result).
  - vm_compute. reflexivity.
  - vm_compute. reflexivity.
Defined.

(** C10, witness: the empty question on a new agent. *)
Lemma ask_initializes_first_witness :
  let s := VannaAgent.new_agent demo in
  exists ready s1,
    VannaAgent.initialize demo s = (Ok ready, s1) /\
    (calls s ++ init_prefix demo s) `prefix_of` calls s1 /\
    (ready = true <-> length (init_prefix demo s) = 4%nat) /\
    conversation_history s1 = conversation_history s /\
    generate_calls s1 = generate_calls s /\
    (if ready
     then initialized s1 = true /\
          VannaAgent.ask demo (PyStr "") false s = answer demo (PyStr "") false s1 /\
          (VannaAgent._validate_question (PyStr "") = false ->
           VannaAgent.ask demo (PyStr "") false s =
           (Ok {[ "error" := PyStr "Invalid question";
                  "question" := PyStr (VannaAgent.py_str (repr_compound demo) (PyStr "")) ]},
            s1))
     else VannaAgent.ask demo (PyStr "") false s =
            (Ok (VannaAgent.not_initialized_error (PyStr "")), s1) /\
          VannaAgent.execute demo (PyStr "") false s =
            (Ok (VannaAgent.not_initialized_error (PyStr "")), s1)).
Proof.
  intros s.
  apply (ask_initializes_first demo (PyStr "") false s).
  reflexivity.
Defined.

(** ** Further runs of the model *)

Example validate_accepts_schema_columns :
  (SQLValidator.validate_sql demo (PyStr "SELECT id, name FROM experiments") PyNone
     (VannaAgent.new_agent demo)).1 = Ok (true, None).
Proof. vm_compute. reflexivity. Qed.

Example validate_rejects_unknown_column :
  (SQLValidator.validate_sql demo
     (PyStr "SELECT id FROM experiments WHERE conversion_rate > 0") PyNone
     (VannaAgent.new_agent demo)).1 =
  Ok (false, Some "Column 'conversion_rate' does not exist in schema").
Proof. vm_compute. reflexivity. Qed.

Example validate_accepts_alias :
  (SQLValidator.validate_sql demo
     (PyStr "SELECT id, (a/b) AS conversion_rate FROM t ORDER BY conversion_rate")
     PyNone (VannaAgent.new_agent demo)).1 = Ok (true, None).
Proof. vm_compute. reflexivity. Qed.

Example validate_rejects_error_echo :
  (SQLValidator.validate_sql demo
     (PyStr "Unable to generate query, please select another table") PyNone
     (VannaAgent.new_agent demo)).1 =
  Ok (false, Some "AI returned error message instead of SQL").
Proof. vm_compute. reflexivity. Qed.

Example validate_rejects_non_sql :
  (SQLValidator.validate_sql demo (PyInt 7) PyNone (VannaAgent.new_agent demo)).1 =
  Ok (false, Some "Invalid SQL structure").
Proof. vm_compute. reflexivity. Qed.

Example cte_alias_is_ignored :
  (SQLValidator.validate_sql demo
     (PyStr "WITH c AS (SELECT 1 AS tags FROM m) SELECT tags FROM c") PyNone
     (VannaAgent.new_agent demo)).1 = Ok (true, None).
Proof. vm_compute. reflexivity. Qed.

Example cte_comparison_is_flagged :
  (SQLValidator.validate_sql demo
     (PyStr "WITH c AS (SELECT 1 FROM m) SELECT 1 FROM c WHERE tags = 'a'") PyNone
     (VannaAgent.new_agent demo)).1 =
  Ok (false, Some "Column 'tags' does not exist in schema").
Proof. vm_compute. reflexivity. Qed.

(** The empty question on a new agent: initialization runs, the question
    is rejected, no turn is recorded and nothing is generated. *)
Example ask_empty_question :
  let outcome := VannaAgent.ask demo (PyStr "") false (VannaAgent.new_agent demo) in
  outcome.1 = Ok {[ "error" := PyStr "Invalid question"; "question" := PyStr "" ]} /\
  initialized outcome.2 = true /\
  conversation_history outcome.2 = [] /\
  generate_calls outcome.2 = [].
Proof. repeat split; vm_compute; reflexivity. Qed.

(** Without a database the agent stays uninitialized. *)
Example ask_without_database :
  let outcome :=
    VannaAgent.ask demo_no_database (PyStr "how many experiments?") false
      (VannaAgent.new_agent demo_no_database) in
  outcome.1 =
    Ok (VannaAgent.not_initialized_error (PyStr "how many experiments?")) /\
  initialized outcome.2 = false /\
  calls outcome.2 = [CallCreateOracle; CallPsycopgConnect].
Proof. repeat split; vm_compute; reflexivity. Qed.

(** A successful question is recorded, and is then the last question. *)
Example ask_records_turn :
  let outcome :=
    VannaAgent.ask demo (PyStr "how many experiments?") false (VannaAgent.new_agent demo) in
  outcome.1 =
    Ok {[ "question" := PyStr "how many experiments?";
          "sql" := PyStr "SELECT id FROM experiments" ]} /\
  length (conversation_history outcome.2) = 1%nat /\
  (VannaAgent._get_last_question outcome.2).1 =
    Ok (Some (PyStr "how many experiments?")).
Proof. repeat split; vm_compute; reflexivity. Qed.

(** When the tables cannot be listed the snapshot is empty and a warning is
    logged. *)
Example schema_fetch_without_database :
  let outcome :=
    SchemaManager.get_schema_info demo_no_database (VannaAgent.new_agent demo_no_database) in
  outcome.1 = Ok [] /\
  _schema_cache outcome.2 = Some [] /\
  last (logs outcome.2) =
    Some (WARNING, "No tables found in 'public' schema or error fetching tables.").
Proof. repeat split; vm_compute; reflexivity. Qed.

(** A query that returns no rows is a success with an empty result. *)
Example execute_empty_result :
  let E := demo_env (Ok tt) id_name_columns (PyStr "SELECT id FROM experiments")
                    (Ok (Fetched [])) in
  (VannaAgent.execute E (PyStr "how many experiments?") false (VannaAgent.new_agent E)).1 =
  Ok {[ "question" := PyStr "how many experiments?";
        "sql" := PyStr "SELECT id FROM experiments";
        "results" := PyRecords [];
        "success" := PyBool true ]}.
Proof. vm_compute. reflexivity. Qed.

(** * Further properties of the code *)

(** ** The strict rule of the column-existence check *)

Lemma occurrences_chars_spec (p s : list ascii) (i pos : Z) :
  pos ∈ occurrences_chars p s i <->
  exists pre post, s = pre ++ p ++ post /\ pos = i + Z.of_nat (length pre).
Proof.
  revert i. induction s as [|c s IH]; intros i; simpl.
  - rewrite app_nil_r. destruct (starts_with p []) eqn:Hp.
    + apply starts_with_spec in Hp as [rest Hrest].
      rewrite list_elem_of_singleton. split.
      * intros ->. exists [], rest. split; [exact Hrest|simpl; lia].
      * intros (pre & post & Hs & ->).
        symmetry in Hs. apply app_eq_nil in Hs as [-> _]. simpl. lia.
    + split; [intros H; by apply elem_of_nil in H|].
      intros (pre & post & Hs & _).
      symmetry in Hs. apply app_eq_nil in Hs as [-> Hs].
      assert (starts_with p [] = true) by (apply starts_with_spec; eauto).
      congruence.
  - rewrite elem_of_app, IH. split.
    + intros [Hhere|(pre & post & -> & ->)].
      * destruct (starts_with p (c :: s)) eqn:Hp; [|by apply elem_of_nil in Hhere].
        apply list_elem_of_singleton in Hhere as ->.
        apply starts_with_spec in Hp as [rest Hrest].
        exists [], rest. split; [exact Hrest|simpl; lia].
      * exists (c :: pre), post. split; [reflexivity|]. simpl length. lia.
    + intros (pre & post & Hs & ->). destruct pre as [|d pre].
      * left. assert (Hp : starts_with p (c :: s) = true)
          by (apply starts_with_spec; eauto).
        rewrite Hp. apply list_elem_of_singleton. simpl. lia.
      * right. simpl in Hs. simplify_eq. exists pre, post.
        split; [reflexivity|]. simpl length. lia.
Qed.

Lemma invalid_occurrence_spec (sql_lower : string) (positions : list Z) :
  SQLValidator.invalid_occurrence sql_lower (find sql_lower "order by") positions = true <->
  exists pos, pos ∈ positions /\
              after_order_by sql_lower pos = false /\
              inside_select_clause sql_lower pos = false.
Proof.
  induction positions as [|pos positions IH]; simpl.
  - split; [done|]. intros (pos & Hin & _). by apply elem_of_nil in Hin.
  - fold (after_order_by sql_lower pos). fold (inside_select_clause sql_lower pos).
    destruct (after_order_by sql_lower pos) eqn:Hob.
    + rewrite IH. split.
      * intros (p & Hin & H). exists p. split; [by right|exact H].
      * intros (p & Hin & Hp1 & Hp2). apply elem_of_cons in Hin as [->|Hin]; [congruence|].
        eauto.
    + destruct (inside_select_clause sql_lower pos) eqn:Hsel.
      * rewrite IH. split.
        -- intros (p & Hin & H). exists p. split; [by right|exact H].
        -- intros (p & Hin & Hp1 & Hp2).
           apply elem_of_cons in Hin as [->|Hin]; [congruence|]. eauto.
      * split; [|done]. intros _. exists pos. split; [left|]. auto.
Qed.

Lemma is_invalid_column_usage_spec (sql_lower pattern : string) (aliases : gset string) :
  SQLValidator._is_invalid_column_usage sql_lower pattern aliases = true <->
  (pattern ∉ aliases) /\
  exists pos, occurs_at pattern sql_lower pos /\
              after_order_by sql_lower pos = false /\
              inside_select_clause sql_lower pos = false.
Proof.
  unfold SQLValidator._is_invalid_column_usage. case_decide as Halias.
  - split; [done|]. intros [Hnot _]. done.
  - rewrite invalid_occurrence_spec. split.
    + intros (pos & Hin & H). split; [done|]. exists pos. split; [|exact H].
      apply occurrences_chars_spec in Hin as (pre & post & Hs & ->).
      exists pre, post. split; [exact Hs|lia].
    + intros (_ & pos & (pre & post & Hs & ->) & H). exists (Z.of_nat (length pre)).
      split; [|exact H]. apply occurrences_chars_spec. exists pre, post.
      split; [exact Hs|lia].
Qed.

(** X1: the strict rule.  For a query of ASCII characters that is not a
    common-table-expression query, over a schema whose lookup succeeds and
    whose column names are ASCII, a reported name is one of the
    denylist that is neither a lower-cased schema column nor an extracted
    alias, and that occurs at some index that lies neither behind the first
    "order by" nor strictly between the first "select" and the first "from";
    when no name of the denylist has such an occurrence, nothing is
    reported. *)
Theorem strict_rule_reports_misplaced_names (E : Env) (sql : string) (s : State)
    (names : gset string) :
  isascii sql = true ->
  SQLValidator.is_cte (lower sql) = false ->
  (lowered_columns E s).1 = Ok names ->
  ascii_names names ->
  exists verdict,
    (SQLValidator._check_column_validity E sql s).1 = Ok verdict /\
    (forall msg, verdict = Some msg ->
       exists pattern pos,
         msg = SQLValidator.column_error pattern /\
         pattern ∈ SQLValidator._invalid_patterns /\
         (pattern ∉ names) /\
         (pattern ∉ SQLValidator._extract_select_aliases sql) /\
         occurs_at pattern (lower sql) pos /\
         after_order_by (lower sql) pos = false /\
         inside_select_clause (lower sql) pos = false) /\
    ((forall pattern pos,
        pattern ∈ SQLValidator._invalid_patterns ->
        pattern ∉ names ->
        pattern ∉ SQLValidator._extract_select_aliases sql ->
        occurs_at pattern (lower sql) pos ->
        after_order_by (lower sql) pos = true \/
        inside_select_clause (lower sql) pos = true) ->
     verdict = None).
Proof.
  intros _ Hcte Hnames _. rewrite check_column_validity_run, Hcte.
  destruct (lowered_columns E s) as [r s']. simpl in Hnames. subst r.
  eexists. split; [reflexivity|].
  pose proof (Hspec := check_patterns_spec (lower sql) names
                (SQLValidator._extract_select_aliases sql)
                (iter_strs (set_order E) SQLValidator._invalid_patterns)).
  destruct (SQLValidator.check_patterns _ _ _ _) as [msg|].
  - destruct Hspec as (pattern & Hin & Hmsg & Hflag).
    apply iter_strs_elem in Hin.
    unfold SQLValidator.strict_rule_flags in Hflag.
    apply and_then_true in Hflag as [Hflag Hrest].
    apply and_then_true in Hflag as [_ Hnot].
    apply and_then_true in Hrest as [Halias Huse].
    apply bool_decide_eq_true in Hnot. apply bool_decide_eq_true in Halias.
    apply is_invalid_column_usage_spec in Huse as (_ & pos & Hocc & Hob & Hsel).
    split.
    + intros msg' [= <-]. exists pattern, pos. repeat split; done.
    + intros Hnone. exfalso.
      destruct (Hnone pattern pos Hin Hnot Halias Hocc); congruence.
  - split; [intros msg [=]|reflexivity].
Qed.

(** X1, witness: a query that compares a name the schema lacks. *)
Lemma strict_rule_witness :
  let sql := "SELECT id FROM experiments WHERE conversion_rate > 0" in
  let names : gset string := list_to_set ["id"; "name"] in
  exists verdict,
    (SQLValidator._check_column_validity demo sql (VannaAgent.new_agent demo)).1 =
      Ok verdict /\
    (forall msg, verdict = Some msg ->
       exists pattern pos,
         msg = SQLValidator.column_error pattern /\
         pattern ∈ SQLValidator._invalid_patterns /\
         (pattern ∉ names) /\
         (pattern ∉ SQLValidator._extract_select_aliases sql) /\
         occurs_at pattern (lower sql) pos /\
         after_order_by (lower sql) pos = false /\
         inside_select_clause (lower sql) pos = false) /\
    ((forall pattern pos,
        pattern ∈ SQLValidator._invalid_patterns ->
        pattern ∉ names ->
        pattern ∉ SQLValidator._extract_select_aliases sql ->
        occurs_at pattern (lower sql) pos ->
        after_order_by (lower sql) pos = true \/
        inside_select_clause (lower sql) pos = true) ->
     verdict = None).
Proof.
  intros sql names.
  apply (strict_rule_reports_misplaced_names demo sql (VannaAgent.new_agent demo) names).
  - vm_compute. reflexivity.
  - vm_compute. reflexivity.
  - vm_compute. reflexivity.
  - apply ascii_names_id_name.
Defined.

(** ** White space at the ends of a text *)

Lemma lstrip_chars_keeps (pre : list ascii) (c : ascii) (rest : list ascii) :
  is_space c = false ->
  exists pre', lstrip_chars (pre ++ c :: rest) = pre' ++ c :: rest.
Proof.
  intros Hc. induction pre as [|a pre IH]; simpl.
  - exists []. by rewrite Hc.
  - destruct (is_space a); [exact IH|]. by exists (a :: pre).
Qed.

Lemma lstrip_chars_suffix (l : list ascii) :
  exists blanks, l = blanks ++ lstrip_chars l.
Proof.
  induction l as [|a l [blanks IH]]; simpl.
  - by exists [].
  - destruct (is_space a); [|by exists []].
    exists (a :: blanks). simpl. by rewrite <- IH.
Qed.

Lemma strip_chars_infix (l : list ascii) :
  exists before after, l = before ++ strip_chars l ++ after.
Proof.
  unfold strip_chars.
  destruct (lstrip_chars_suffix l) as [before Hl].
  destruct (lstrip_chars_suffix (rev (lstrip_chars l))) as [blanks Hr].
  exists before, (rev blanks).
  rewrite <- rev_app_distr, <- Hr, rev_involutive. exact Hl.
Qed.

Lemma strip_chars_keeps (pre needle post : list ascii) (a z : ascii) :
  head needle = Some a -> last needle = Some z ->
  is_space a = false -> is_space z = false ->
  exists pre' post', strip_chars (pre ++ needle ++ post) = pre' ++ needle ++ post'.
Proof.
  intros Ha Hz Hsa Hsz. unfold strip_chars.
  destruct needle as [|a' mid]; [discriminate|]. simpl in Ha. simplify_eq.
  destruct (lstrip_chars_keeps pre a (mid ++ post) Hsa) as [pre' Hl].
  simpl. rewrite Hl.
  apply last_Some in Hz as [front Hfront].
  change (a :: mid ++ post) with ((a :: mid) ++ post). rewrite Hfront.
  rewrite !rev_app_distr. simpl. rewrite <- !List.app_assoc. simpl.
  destruct (lstrip_chars_keeps (rev post) z (rev front ++ rev pre') Hsz) as [post' Hr].
  rewrite Hr. exists pre', (rev post').
  rewrite !rev_app_distr. simpl. rewrite !rev_app_distr, !rev_involutive.
  rewrite <- !List.app_assoc. simpl.
  change (a :: mid ++ rev post') with ((a :: mid) ++ rev post').
  rewrite Hfront, <- List.app_assoc. reflexivity.
Qed.

Lemma contains_strip (p s : string) :
  trimmed p = true ->
  contains p (strip s) = true <-> substring p s.
Proof.
  intros Hp. rewrite contains_spec. unfold substring, strip. rewrite chars_str.
  split.
  - intros (pre & post & Hs).
    destruct (strip_chars_infix (chars s)) as (before & after & Hl).
    exists (before ++ pre), (post ++ after).
    rewrite Hl, Hs, <- !List.app_assoc. reflexivity.
  - intros (pre & post & Hs). rewrite Hs.
    unfold trimmed in Hp. apply andb_true_iff in Hp as [Ha Hz].
    destruct (chars p) as [|a mid] eqn:Hchars; [discriminate|].
    destruct (last (a :: mid)) as [z|] eqn:Hlast; [|discriminate].
    apply negb_true_iff in Ha, Hz.
    apply (strip_chars_keeps pre (a :: mid) post a z); done.
Qed.

Lemma existsb_elem_of {A : Type} (f : A -> bool) (l : list A) :
  existsb f l = true <-> exists x, x ∈ l /\ f x = true.
Proof.
  rewrite existsb_exists. split; intros (x & Hin & Hx); exists x;
    (split; [by apply list_elem_of_In|exact Hx]).
Qed.

(** ** The first two checks of the validator *)

Lemma statement_keywords_trimmed (kw : string) :
  kw ∈ statement_keywords -> trimmed kw = true.
Proof.
  unfold statement_keywords. rewrite !elem_of_cons, elem_of_nil.
  intros H. repeat (destruct H as [->|H]; [reflexivity|]). done.
Qed.

Lemma error_indicators_trimmed (indicator : string) :
  indicator ∈ SQLValidator.error_indicators -> trimmed indicator = true.
Proof.
  unfold SQLValidator.error_indicators. rewrite !elem_of_cons, elem_of_nil.
  intros H. repeat (destruct H as [->|H]; [reflexivity|]). done.
Qed.

Lemma is_basic_sql_valid_spec (sql : pyval) :
  SQLValidator._is_basic_sql_valid sql = true <->
  exists text kw, sql = PyStr text /\ kw ∈ statement_keywords /\
                  substring kw (lower text).
Proof.
  unfold SQLValidator._is_basic_sql_valid.
  destruct sql as [| | |text| |];
    try (split; [discriminate|intros (? & ? & [=] & _)]).
  fold statement_keywords. case_bool_decide as Hempty.
  - subst text. split; [discriminate|].
    intros (text & kw & [= <-] & Hkw & pre & post & Hs).
    apply statement_keywords_trimmed in Hkw. unfold trimmed in Hkw.
    destruct (chars kw); [discriminate|]. by destruct pre.
  - rewrite existsb_elem_of. split.
    + intros (kw & Hkw & Hc). exists text, kw.
      apply contains_strip in Hc; [done|by apply statement_keywords_trimmed].
    + intros (text' & kw & [= <-] & Hkw & Hsub). exists kw.
      split; [done|]. apply contains_strip; [by apply statement_keywords_trimmed|done].
Qed.

Lemma contains_error_message_spec (text : string) :
  SQLValidator._contains_error_message text = true <->
  exists indicator, indicator ∈ SQLValidator.error_indicators /\
                    substring indicator (lower text).
Proof.
  unfold SQLValidator._contains_error_message. rewrite existsb_elem_of.
  split; intros (indicator & Hin & H); exists indicator; (split; [done|]);
    apply (contains_strip _ _ (error_indicators_trimmed _ Hin)); done.
Qed.

Lemma validate_sql_cases (E : Env) (sql question : pyval) (s : State) :
  SQLValidator.validate_sql E sql question s =
  if SQLValidator._is_basic_sql_valid sql
  then
    match sql with
    | PyStr text =>
        if SQLValidator._contains_error_message text
        then (Ok (false, Some "AI returned error message instead of SQL"), s)
        else
          match SQLValidator._check_column_validity E text s with
          | (Ok (Some msg), s') => (Ok (false, Some msg), s')
          | (Ok None, s') => (Ok (true, None), s')
          | (Raise e, s') => (Ok (true, None), add_log ERROR "Error validating SQL" s')
          end
    | _ => (Ok (false, Some "Invalid SQL structure"), s)
    end
  else (Ok (false, Some "Invalid SQL structure"), s).
Proof.
  unfold SQLValidator.validate_sql, SQLValidator.validate_sql_body.
  rewrite try_except_run.
  destruct (SQLValidator._is_basic_sql_valid sql) eqn:Hbasic; [|reflexivity].
  destruct sql as [| | |text| |]; try discriminate Hbasic. simpl.
  destruct (SQLValidator._contains_error_message text); [reflexivity|].
  rewrite bind_run.
  destruct (SQLValidator._check_column_validity E text s) as [[[msg|]|e] s'];
    reflexivity.
Qed.

(** X2: a generated text in which one of the error indicators ("sorry",
    "error", "unable", "cannot" and the three Chinese phrases) occurs, in
    any letter case and anywhere, is never accepted, whatever the schema:
    [validate_sql] returns invalid without consulting the schema and leaves
    the state as it is.  The reason is "AI returned error message instead of
    SQL" when a statement keyword occurs in the text too, and "Invalid SQL
    structure" when none does. *)
Theorem error_echo_is_rejected (E : Env) (text indicator : string) (question : pyval)
    (s : State) :
  indicator ∈ SQLValidator.error_indicators ->
  substring indicator (lower text) ->
  exists reason,
    SQLValidator.validate_sql E (PyStr text) question s = (Ok (false, Some reason), s) /\
    ((exists kw, kw ∈ statement_keywords /\ substring kw (lower text)) ->
     reason = "AI returned error message instead of SQL") /\
    ((forall kw, kw ∈ statement_keywords -> ~ substring kw (lower text)) ->
     reason = "Invalid SQL structure").
Proof.
  intros Hin Hsub. rewrite validate_sql_cases.
  assert (Herr : SQLValidator._contains_error_message text = true).
  { apply contains_error_message_spec. eauto. }
  rewrite Herr.
  destruct (SQLValidator._is_basic_sql_valid (PyStr text)) eqn:Hbasic.
  - eexists. split; [reflexivity|]. split; [done|].
    intros Hnone. apply is_basic_sql_valid_spec in Hbasic as (t & kw & [= <-] & Hkw & Hk).
    by destruct (Hnone kw Hkw).
  - eexists. split; [reflexivity|]. split; [|done].
    intros (kw & Hkw & Hk).
    assert (SQLValidator._is_basic_sql_valid (PyStr text) = true)
      by (apply is_basic_sql_valid_spec; eauto).
    congruence.
Qed.

(** X2, witness: a query over a column named [error_code]. *)
Lemma error_echo_witness :
  SQLValidator.validate_sql demo (PyStr "SELECT error_code FROM logs") PyNone
    (VannaAgent.new_agent demo) =
  (Ok (false, Some "AI returned error message instead of SQL"), VannaAgent.new_agent demo).
Proof.
  destruct (error_echo_is_rejected demo "SELECT error_code FROM logs" "error" PyNone
              (VannaAgent.new_agent demo)) as (reason & Hrun & Hkw & _).
  - apply (bool_decide_unpack _). vm_compute. exact I.
  - exists (chars "select "), (chars "_code from logs"). reflexivity.
  - rewrite Hrun, Hkw; [reflexivity|].
    exists "select". split.
    + apply (bool_decide_unpack _). vm_compute. exact I.
    + exists [], (chars " error_code from logs"). reflexivity.
Defined.

Lemma column_error_not_structure (pattern : string) :
  SQLValidator.column_error pattern <> "Invalid SQL structure".
Proof. discriminate. Qed.

(** X3: the structural check.  [validate_sql] answers "Invalid SQL
    structure" exactly for a value that is not a text in which "select",
    "insert", "update" or "delete" occurs, the letter case being ignored:
    for a value that is not a string, for the empty string, and for a text
    without any of the four keywords. *)
Theorem invalid_structure_iff (E : Env) (sql question : pyval) (s : State) :
  (SQLValidator.validate_sql E sql question s).1 =
    Ok (false, Some "Invalid SQL structure") <->
  ~ (exists text kw, sql = PyStr text /\ kw ∈ statement_keywords /\
                     substring kw (lower text)).
Proof.
  rewrite <- is_basic_sql_valid_spec, validate_sql_cases.
  destruct (SQLValidator._is_basic_sql_valid sql) eqn:Hbasic.
  - split; [|done]. intros Hrun. exfalso.
    destruct sql as [| | |text| |]; try discriminate Hbasic.
    destruct (SQLValidator._contains_error_message text); [discriminate Hrun|].
    destruct (SQLValidator._check_column_validity E text s) as [[[msg|]|e] s'] eqn:Hcheck;
      try discriminate Hrun.
    simpl in Hrun. injection Hrun as ->.
    rewrite check_column_validity_run in Hcheck.
    destruct (lowered_columns E s) as [[names|e] s1]; [|discriminate Hcheck].
    injection Hcheck as Hcheck _.
    destruct (SQLValidator.is_cte (lower text)).
    + pose proof (Hspec := check_strict_patterns_spec (lower text) names
                    (iter_strs (set_order E) SQLValidator.strict_invalid_patterns)).
      rewrite Hcheck in Hspec. destruct Hspec as (pattern & _ & Hmsg & _).
      symmetry in Hmsg. by apply column_error_not_structure in Hmsg.
    + pose proof (Hspec := check_patterns_spec (lower text) names
                    (SQLValidator._extract_select_aliases text)
                    (iter_strs (set_order E) SQLValidator._invalid_patterns)).
      rewrite Hcheck in Hspec. destruct Hspec as (pattern & _ & Hmsg & _).
      symmetry in Hmsg. by apply column_error_not_structure in Hmsg.
  - split; [done|]. intros _. by destruct sql.
Qed.

Lemma check_column_validity_origin (E : Env) (text : string) (s : State)
    (msg : string) :
  (SQLValidator._check_column_validity E text s).1 = Ok (Some msg) ->
  exists pattern names,
    msg = SQLValidator.column_error pattern /\
    (pattern ∈ SQLValidator._invalid_patterns \/
     pattern ∈ SQLValidator.strict_invalid_patterns) /\
    (lowered_columns E s).1 = Ok names /\
    (pattern ∉ names) /\
    substring pattern (lower text).
Proof.
  rewrite check_column_validity_run.
  destruct (lowered_columns E s) as [[names|e] s1]; [|discriminate].
  simpl. intros [= Hcheck].
  destruct (SQLValidator.is_cte (lower text)).
  - pose proof (Hspec := check_strict_patterns_spec (lower text) names
                  (iter_strs (set_order E) SQLValidator.strict_invalid_patterns)).
    rewrite Hcheck in Hspec. destruct Hspec as (pattern & Hin & Hmsg & Hflag).
    apply iter_strs_elem in Hin.
    unfold SQLValidator.lenient_rule_flags in Hflag.
    apply and_then_true in Hflag as [Hflag _].
    apply and_then_true in Hflag as [Hsub Hnot].
    apply bool_decide_eq_true in Hnot. apply contains_spec in Hsub.
    exists pattern, names. auto 10.
  - pose proof (Hspec := check_patterns_spec (lower text) names
                  (SQLValidator._extract_select_aliases text)
                  (iter_strs (set_order E) SQLValidator._invalid_patterns)).
    rewrite Hcheck in Hspec. destruct Hspec as (pattern & Hin & Hmsg & Hflag).
    apply iter_strs_elem in Hin.
    unfold SQLValidator.strict_rule_flags in Hflag.
    apply and_then_true in Hflag as [Hflag _].
    apply and_then_true in Hflag as [Hsub Hnot].
    apply bool_decide_eq_true in Hnot. apply contains_spec in Hsub.
    exists pattern, names. auto 10.
Qed.

(** X4: the verdicts of the validator.  [validate_sql] always returns, and
    what it returns is one of: valid; invalid for its structure; invalid as
    an echoed error message; invalid for a column, and then the name
    reported is one of the two fixed lists of the validator, is not a
    lower-cased column name of the schema and, when the text is ASCII,
    occurs in the lower-cased text.  So no name outside the two lists is
    ever reported, whatever the schema holds. *)
Theorem validate_sql_verdicts (E : Env) (sql question : pyval) (s : State) :
  exists outcome,
    (SQLValidator.validate_sql E sql question s).1 = Ok outcome /\
    (outcome = (true, None) \/
     outcome = (false, Some "Invalid SQL structure") \/
     outcome = (false, Some "AI returned error message instead of SQL") \/
     exists text pattern names,
       sql = PyStr text /\
       outcome = (false, Some (SQLValidator.column_error pattern)) /\
       (pattern ∈ SQLValidator._invalid_patterns \/
        pattern ∈ SQLValidator.strict_invalid_patterns) /\
       (lowered_columns E s).1 = Ok names /\
       (pattern ∉ names) /\
       (isascii text = true -> substring pattern (lower text))).
Proof.
  rewrite validate_sql_cases.
  destruct (SQLValidator._is_basic_sql_valid sql); [|eauto].
  destruct sql as [| | |text| |]; eauto.
  destruct (SQLValidator._contains_error_message text); [eauto 6|].
  pose proof (Horigin := check_column_validity_origin E text s).
  destruct (SQLValidator._check_column_validity E text s) as [[[msg|]|e] s']; eauto.
  destruct (Horigin msg eq_refl) as (pattern & names & -> & H).
  eexists. split; [reflexivity|]. do 3 right. exists text, pattern, names. tauto.
Qed.

(** ** The column names of the schema *)

Lemma row_get_run (r : row) (key : string) (s : State) :
  row_get r key s =
  (match row_lookup r key with
   | Some c => Ok c
   | None => Raise (PyError "KeyError" ("'" +:+ key +:+ "'"))
   end, s).
Proof.
  unfold row_get, row_lookup.
  destruct (list_find _ r) as [[i kv]|]; reflexivity.
Qed.

Lemma add_column_names_run (columns : list row) (acc : gset cell) (s : State) :
  (SchemaManager.add_column_names columns acc s).2 = s /\
  match (SchemaManager.add_column_names columns acc s).1 with
  | Ok names =>
      forall c, c ∈ names <->
                c ∈ acc \/ exists col, col ∈ columns /\ row_lookup col "column_name" = Some c
  | Raise e =>
      e = PyError "KeyError" "'column_name'" /\
      exists col, col ∈ columns /\ row_lookup col "column_name" = None
  end.
Proof.
  revert acc. induction columns as [|col columns IH]; intros acc; simpl.
  - split; [reflexivity|]. intros c. split; [auto|].
    intros [H|(col & Hin & _)]; [exact H|by apply elem_of_nil in Hin].
  - rewrite bind_run, row_get_run.
    destruct (row_lookup col "column_name") as [name|] eqn:Hname.
    + destruct (IH (acc ∪ {[ name ]})) as [Hstate Hres]. split; [exact Hstate|].
      destruct (SchemaManager.add_column_names columns (acc ∪ {[ name ]}) s).1
        as [names|e].
      * intros c. rewrite Hres, elem_of_union, elem_of_singleton. split.
        -- intros [[Hacc| ->]|(col' & Hin & Hc)]; [by left| |].
           ++ right. exists col. split; [left|exact Hname].
           ++ right. exists col'. split; [by right|exact Hc].
        -- intros [Hacc|(col' & Hin & Hc)]; [by left; left|].
           apply elem_of_cons in Hin as [->|Hin].
           ++ left. right. congruence.
           ++ right. eauto.
      * destruct Hres as (-> & col' & Hin & Hc). split; [reflexivity|].
        exists col'. split; [by right|exact Hc].
    + simpl. split; [reflexivity|]. split; [reflexivity|].
      exists col. split; [left|exact Hname].
Qed.

Lemma add_table_columns_run (schema : snapshot) (acc : gset cell) (s : State) :
  (SchemaManager.add_table_columns schema acc s).2 = s /\
  match (SchemaManager.add_table_columns schema acc s).1 with
  | Ok names =>
      forall c, c ∈ names <->
                c ∈ acc \/
                exists table column,
                  column_of schema table column /\ row_lookup column "column_name" = Some c
  | Raise e =>
      e = PyError "KeyError" "'column_name'" /\
      exists table column,
        column_of schema table column /\ row_lookup column "column_name" = None
  end.
Proof.
  revert acc. induction schema as [|[table columns] schema IH]; intros acc; simpl.
  - split; [reflexivity|]. intros c. split; [auto|].
    intros [H|(t & col & (cols & Hin & _) & _)]; [exact H|by apply elem_of_nil in Hin].
  - rewrite mbind_run.
    destruct (add_column_names_run columns acc s) as [Hstate Hres].
    destruct (SchemaManager.add_column_names columns acc s) as [[acc'|e] s1];
      simpl in Hstate, Hres; subst s1.
    + destruct (IH acc') as [Hstate' Hres']. split; [exact Hstate'|].
      destruct (SchemaManager.add_table_columns schema acc' s).1 as [names|e].
      * intros c. rewrite Hres', Hres. split.
        -- intros [[Hacc|(col & Hin & Hc)]|(t & col & (cols & Hin & Hcol) & Hc)].
           ++ by left.
           ++ right. exists table, col. split; [|exact Hc].
              exists columns. split; [left|exact Hin].
           ++ right. exists t, col. split; [|exact Hc].
              exists cols. split; [by right|exact Hcol].
        -- intros [Hacc|(t & col & (cols & Hin & Hcol) & Hc)]; [by left; left|].
           apply elem_of_cons in Hin as [[= -> ->]|Hin].
           ++ left. right. eauto.
           ++ right. exists t, col. split; [|exact Hc]. exists cols. auto.
      * destruct Hres' as (-> & t & col & (cols & Hin & Hcol) & Hc).
        split; [reflexivity|]. exists t, col. split; [|exact Hc].
        exists cols. split; [by right|exact Hcol].
    + simpl. split; [reflexivity|]. destruct Hres as (-> & col & Hin & Hc).
      split; [reflexivity|]. exists table, col. split; [|exact Hc].
      exists columns. split; [left|exact Hin].
Qed.

Lemma schema_get_schema_info_total (E : Env) : total (SchemaManager.get_schema_info E).
Proof.
  intros s. unfold SchemaManager.get_schema_info. rewrite bind_run. simpl.
  destruct (_schema_cache s) as [schema|]; [by exists schema|].
  rewrite bind_run.
  destruct (connector_get_schema_info_total E s) as [schema Hschema].
  destruct (Connector.get_schema_info E s) as [r s1]. simpl in Hschema. subst r.
  by exists schema.
Qed.

Lemma get_all_column_names_run (E : Env) (s : State) :
  exists schema s1,
    SchemaManager.get_schema_info E s = (Ok schema, s1) /\
    SchemaManager.get_all_column_names E s =
      ((SchemaManager.add_table_columns schema ∅ s1).1, s1).
Proof.
  destruct (schema_get_schema_info_total E s) as [schema Hschema].
  unfold SchemaManager.get_all_column_names. rewrite bind_run.
  destruct (SchemaManager.get_schema_info E s) as [r s1]. simpl in Hschema. subst r.
  exists schema, s1. split; [reflexivity|].
  destruct (add_table_columns_run schema ∅ s1) as [Hstate _].
  destruct (SchemaManager.add_table_columns schema ∅ s1) as [r s2].
  simpl in *. by subst s2.
Qed.

Lemma add_column_names_ok (columns : list row) (acc names : gset cell) (s : State) :
  (SchemaManager.add_column_names columns acc s).1 = Ok names ->
  forall col, col ∈ columns -> is_Some (row_lookup col "column_name").
Proof.
  revert acc. induction columns as [|col columns IH]; intros acc; simpl.
  - intros _ c Hc. by apply elem_of_nil in Hc.
  - rewrite bind_run, row_get_run.
    destruct (row_lookup col "column_name") as [name|] eqn:Hname; [|discriminate].
    intros Hrun c Hc. apply elem_of_cons in Hc as [->|Hc].
    + rewrite Hname. eauto.
    + by apply (IH _ Hrun).
Qed.

Lemma add_table_columns_ok (schema : snapshot) (acc names : gset cell) (s : State) :
  (SchemaManager.add_table_columns schema acc s).1 = Ok names ->
  forall table column,
    column_of schema table column -> is_Some (row_lookup column "column_name").
Proof.
  revert acc s. induction schema as [|[table columns] schema IH]; intros acc s; simpl.
  - intros _ t col (cols & Hin & _). by apply elem_of_nil in Hin.
  - rewrite mbind_run.
    destruct (add_column_names_run columns acc s) as [Hstate _].
    destruct (SchemaManager.add_column_names columns acc s) as [[acc'|e] s1] eqn:Hcols;
      [|discriminate].
    intros Hrun t col (cols & Hin & Hcol).
    apply elem_of_cons in Hin as [[= -> ->]|Hin].
    + apply (add_column_names_ok columns acc acc' s); [by rewrite Hcols|exact Hcol].
    + apply (IH _ _ Hrun t col). by exists cols.
Qed.

(** X5: the column names of the schema.  [get_all_column_names] works on
    the snapshot that [get_schema_info] returns (which always returns).
    When it returns, every column of every table of the snapshot has a
    [column_name], and the result is the set of these values; it raises,
    and then a [KeyError], exactly when some column of the snapshot has no
    [column_name]. *)
Theorem all_column_names_spec (E : Env) (s : State) :
  exists schema,
    (SchemaManager.get_schema_info E s).1 = Ok schema /\
    match (SchemaManager.get_all_column_names E s).1 with
    | Ok names =>
        (forall table column,
           column_of schema table column ->
           is_Some (row_lookup column "column_name")) /\
        forall c, c ∈ names <->
                  exists table column,
                    column_of schema table column /\
                    row_lookup column "column_name" = Some c
    | Raise e =>
        e = PyError "KeyError" "'column_name'" /\
        exists table column,
          column_of schema table column /\ row_lookup column "column_name" = None
    end.
Proof.
  destruct (get_all_column_names_run E s) as (schema & s1 & Hschema & Hrun).
  exists schema. rewrite Hschema, Hrun. split; [reflexivity|]. simpl.
  destruct (add_table_columns_run schema ∅ s1) as [_ Hres].
  pose proof (Hok := add_table_columns_ok schema ∅).
  destruct (SchemaManager.add_table_columns schema ∅ s1).1 as [names|e] eqn:Hadd;
    [|exact Hres].
  split; [exact (Hok names s1 Hadd)|].
  intros c. rewrite Hres. split; [|auto].
  intros [Hempty|H]; [|exact H]. by apply elem_of_empty in Hempty.
Qed.

(** ** Validation with a cached schema *)

Lemma lower_all_state (cols : list cell) (names : gset string) (s : State) :
  (SQLValidator.lower_all cols names s).2 = s.
Proof.
  revert names. induction cols as [|c cols IH]; intros names; simpl.
  - reflexivity.
  - destruct c; try reflexivity. apply IH.
Qed.

Lemma cached_schema_run (E : Env) (s : State) (schema : snapshot) :
  _schema_cache s = Some schema ->
  SchemaManager.get_schema_info E s = (Ok schema, s).
Proof.
  intros Hcache. unfold SchemaManager.get_schema_info. rewrite bind_run. simpl.
  by rewrite Hcache.
Qed.

Lemma check_column_validity_cached (E : Env) (text : string) (s : State)
    (schema : snapshot) :
  _schema_cache s = Some schema ->
  (SQLValidator._check_column_validity E text s).2 = s.
Proof.
  intros Hcache. rewrite check_column_validity_run. unfold lowered_columns.
  rewrite bind_run.
  destruct (get_all_column_names_run E s) as (schema' & s1 & Hschema & Hrun).
  rewrite (cached_schema_run E s schema Hcache) in Hschema.
  injection Hschema as <- <-. rewrite Hrun.
  destruct (SchemaManager.add_table_columns schema ∅ s).1 as [cols|e]; [|reflexivity].
  pose proof (Hstate := lower_all_state (iter_cells (set_order E) cols) ∅ s).
  destruct (SQLValidator.lower_all _ _ s) as [[names|e] s2]; simpl in *; by subst s2.
Qed.

(** X6: once the schema is cached, validation does not go to the database:
    [validate_sql] makes no call to any collaborator and leaves the cache as
    it is; the only trace it can leave is the log record of an error that it
    swallowed. *)
Theorem validation_is_offline_once_cached (E : Env) (sql question : pyval) (s : State)
    (schema : snapshot) :
  _schema_cache s = Some schema ->
  let s' := (SQLValidator.validate_sql E sql question s).2 in
  (s' = s \/ s' = add_log ERROR "Error validating SQL" s) /\
  calls s' = calls s /\
  _schema_cache s' = Some schema.
Proof.
  intros Hcache s'.
  assert (Hs' : s' = s \/ s' = add_log ERROR "Error validating SQL" s).
  { unfold s'. rewrite validate_sql_cases.
    destruct (SQLValidator._is_basic_sql_valid sql); [|by left].
    destruct sql as [| | |text| |]; try by left.
    destruct (SQLValidator._contains_error_message text); [by left|].
    pose proof (Hstate := check_column_validity_cached E text s schema Hcache).
    destruct (SQLValidator._check_column_validity E text s) as [[[msg|]|e] s1];
      simpl in *; subst s1; auto. }
  split; [exact Hs'|]. destruct Hs' as [-> | ->]; auto.
Qed.

(** X6, witness: the state that a first validation leaves. *)
Lemma validation_is_offline_witness :
  let sql := PyStr "SELECT id FROM experiments WHERE conversion_rate > 0" in
  let s := (SQLValidator.validate_sql demo sql PyNone (VannaAgent.new_agent demo)).2 in
  let s' := (SQLValidator.validate_sql demo sql PyNone s).2 in
  calls s <> [] /\ calls s' = calls s.
Proof.
  intros sql s s'. split; [vm_compute; discriminate|].
  apply (validation_is_offline_once_cached demo sql PyNone s
           [(CStr "experiments", [[("column_name", CStr "id")]; [("column_name", CStr "name")]])]).
  vm_compute. reflexivity.
Defined.

(** ** The connector *)

Lemma connect_run (E : Env) (s : State) :
  exists s',
    Connector.connect E s =
      (Ok (match psycopg_connect E (calls s) with Ok _ => true | Raise _ => false end), s') /\
    calls s' = calls s ++ [CallPsycopgConnect] /\
    connection s' =
      match psycopg_connect E (calls s) with Ok _ => true | Raise _ => false end.
Proof.
  unfold Connector.connect. rewrite try_except_run, mbind_run. simpl.
  rewrite mbind_run. unfold invoke at 1. simpl.
  destruct (psycopg_connect E (calls s)) as [u|[msg|cls msg]]; simpl;
    (eexists; split; [reflexivity|]; simpl; done).
Qed.

Lemma connection_open_run (E : Env) (s : State) :
  exists open s',
    Connector.connection_open E s = (Ok open, s') /\
    connection s' = connection s /\
    (open = true -> connection s = true) /\
    (calls s' = calls s \/ calls s' = calls s ++ [CallConnectionClosed]).
Proof.
  unfold Connector.connection_open. rewrite bind_run. simpl.
  destruct (connection s) eqn:Hc.
  - rewrite bind_run. unfold invoke. simpl.
    do 2 eexists. split; [reflexivity|]. simpl. auto.
  - do 2 eexists. split; [reflexivity|]. auto.
Qed.

(** What the handler of [execute_query] for the driver's errors does. *)
Lemma rollback_handler_run (E : Env) (s : State) (r : result (option dataframe))
    (s' : State) :
  on_database_error E s = (r, s') ->
  connection s' = connection s /\
  (r = Ok None \/
   exists tr cls msg,
     r = Raise (PyError cls msg) /\
     connection_rollback E tr = Raise (PyError cls msg) /\
     calls s' = tr ++ [CallRollback]).
Proof.
  unfold on_database_error. rewrite mbind_run. simpl. rewrite bind_run.
  destruct (connection_open_run E (add_log ERROR "Database error executing query" s))
    as (open & s1 & Hopen & Hconn & _ & _).
  rewrite Hopen. destruct open.
  - rewrite mbind_run, try_except_run, mbind_run. unfold invoke at 1.
    destruct (connection_rollback E (calls s1)) as [u|[msg|cls msg]] eqn:Hrb; simpl;
      intros [= <- <-]; simpl; (split; [exact Hconn|]); auto.
    right. exists (calls s1), cls, msg. auto.
  - simpl. intros [= <- <-]. auto.
Qed.

Lemma execute_query_handler (E : Env) (m : M (option dataframe)) (s : State) :
  try_except m
    (fun e =>
       match e with
       | PsycopgError _ => on_database_error E
       | PyError _ _ =>
           log ERROR "Unexpected error executing query" ;;
           mret None
       end) s =
  match m s with
  | (Ok df, s1) => (Ok df, s1)
  | (Raise (PsycopgError _), s1) => on_database_error E s1
  | (Raise (PyError _ _), s1) =>
      (Ok None, add_log ERROR "Unexpected error executing query" s1)
  end.
Proof.
  rewrite try_except_run. destruct (m s) as [[df|[msg|cls msg]] s1]; reflexivity.
Qed.

(** X7: the only exception that escapes [execute_query] is one that the
    rollback raised and that is not an error of the driver: every failure of
    the connection, of the statement and of the commit is answered by None,
    and so is a rollback that fails with an error of the driver. *)
Theorem execute_query_escape (E : Env) (query : string) (params : list cell)
    (s : State) (e : exn) :
  (Connector.execute_query E query params s).1 = Raise e ->
  exists tr cls msg,
    e = PyError cls msg /\
    connection_rollback E tr = Raise e /\
    calls (Connector.execute_query E query params s).2 = tr ++ [CallRollback].
Proof.
  unfold Connector.execute_query. fold (on_database_error E).
  rewrite execute_query_handler.
  match goal with |- context [match ?m s with _ => _ end] => destruct (m s) as [[df|[msg|cls msg]] s1] end;
    try discriminate.
  match goal with
  | |- (?h s1).1 = _ -> _ =>
      pose proof (Hh := rollback_handler_run E s1 (h s1).1 (h s1).2);
      destruct (h s1) as [r s2]
  end.
  destruct (Hh eq_refl) as [_ [-> |(tr & cls & msg' & -> & Hrb & Hcalls)]];
    simpl; [discriminate|].
  intros [= <-]. exists tr, cls, msg'. auto.
Qed.

(** X7, witness: the generated query fails, and so does the rollback. *)
Lemma execute_query_escape_witness :
  let s := VannaAgent.new_agent demo_rollback_fails in
  let outcome :=
    Connector.execute_query demo_rollback_fails "SELECT id FROM experiments" [] s in
  outcome.1 = Raise (PyError "OSError" "broken pipe") /\
  exists tr cls msg,
    PyError "OSError" "broken pipe" = PyError cls msg /\
    connection_rollback demo_rollback_fails tr = Raise (PyError "OSError" "broken pipe") /\
    calls outcome.2 = tr ++ [CallRollback].
Proof.
  intros s outcome.
  assert (H : outcome.1 = Raise (PyError "OSError" "broken pipe"))
    by (vm_compute; reflexivity).
  split; [exact H|].
  exact (execute_query_escape demo_rollback_fails "SELECT id FROM experiments" [] s _ H).
Defined.

(** X8: a frame is the trace of a statement that ran.  When [execute_query]
    returns a frame the connector holds a connection, the last thing sent to
    the database was this statement with these parameters, and the cursor
    accepted it: the frame holds the rows fetched, or, for a statement
    without rows, it is the status frame with the row count and the commit
    that followed succeeded. *)
Theorem execute_query_frame_origin (E : Env) (query : string) (params : list cell)
    (s s' : State) (df : dataframe) :
  Connector.execute_query E query params s = (Ok (Some df), s') ->
  connection s' = true /\
  exists tr,
    (exists rows,
       cursor_execute E tr query params = Ok (Fetched rows) /\
       df = DataFrame rows /\
       calls s' = tr ++ [CallCursorExecute query params]) \/
    (exists rowcount,
       cursor_execute E tr query params = Ok (Affected rowcount) /\
       connection_commit E (tr ++ [CallCursorExecute query params]) = Ok tt /\
       df = status_frame rowcount /\
       calls s' = tr ++ [CallCursorExecute query params; CallCommit]).
Proof.
  unfold Connector.execute_query. fold (on_database_error E).
  rewrite execute_query_handler.
  match goal with |- context [match ?m s with _ => _ end] => set (body := m) end.
  destruct (body s) as [[df'|[msg|cls msg]] s1] eqn:Hbody.
  2:{ intros Hh.
      apply rollback_handler_run in Hh as [_ [Hr|(tr & cls & msg' & Hr & _)]];
        discriminate Hr. }
  2:{ discriminate. }
  intros [= -> ->]. unfold body in Hbody. clear body.
  rewrite bind_run in Hbody.
  destruct (Connector.connection_inactive E s) as [[inactive|e] s1]; [|discriminate].
  rewrite mbind_run in Hbody.
  match type of Hbody with
  | context [match ?m s1 with _ => _ end] => destruct (m s1) as [[reconnected|e] s2]
  end; [|discriminate].
  destruct reconnected; simpl in Hbody; [|rewrite mbind_run in Hbody; discriminate].
  rewrite bind_run in Hbody. simpl in Hbody.
  destruct (connection s2) eqn:Hconn; simpl in Hbody;
    [|rewrite mbind_run in Hbody; discriminate].
  rewrite mbind_run in Hbody. simpl in Hbody. rewrite bind_run in Hbody.
  unfold invoke at 1 in Hbody. simpl in Hbody.
  destruct (cursor_execute E (calls s2) query params) as [[rows|rowcount]|e] eqn:Hexec;
    [| |discriminate].
  - rewrite mbind_run in Hbody. simpl in Hbody. injection Hbody as <- <-.
    split; [exact Hconn|]. exists (calls s2). left. exists rows. auto.
  - rewrite mbind_run in Hbody. unfold invoke at 1 in Hbody. simpl in Hbody.
    destruct (connection_commit E (calls s2 ++ [CallCursorExecute query params]))
      as [[]|e] eqn:Hcommit; [|discriminate].
    rewrite mbind_run in Hbody. simpl in Hbody. injection Hbody as <- <-.
    split; [exact Hconn|]. exists (calls s2). right. exists rowcount.
    simpl. rewrite <- List.app_assoc. auto.
Qed.

(** X8, witness: the query that lists the tables. *)
Lemma execute_query_frame_witness :
  let s := VannaAgent.new_agent demo in
  let outcome := Connector.execute_query demo Connector.tables_query [] s in
  outcome.1 = Ok (Some (DataFrame [[("table_name", CStr "experiments")]])) /\
  connection outcome.2 = true /\
  calls outcome.2 = [CallPsycopgConnect; CallCursorExecute Connector.tables_query []].
Proof.
  intros s outcome.
  assert (H : outcome =
              (Ok (Some (DataFrame [[("table_name", CStr "experiments")]])), outcome.2))
    by (vm_compute; reflexivity).
  destruct (execute_query_frame_origin demo Connector.tables_query [] s outcome.2 _ H)
    as [Hconn _].
  split; [by rewrite H|]. split; [exact Hconn|]. vm_compute. reflexivity.
Defined.

(** ** What the operations leave alone, for any relation

    A pre-order on states that admits log records, changes of the
    connection field and the calls that [permits] lets through is preserved
    by the operations of the connector; when it also admits a new history
    and the cached fetch of the schema, it is preserved by [ask] and
    [execute]. *)

Create HintDb frames.

#[global] Hint Extern 1 (permits _ _ _ = true) =>
  first [reflexivity | simpl; assumption] : frames.

Ltac frame_step :=
  lazymatch goal with
  | |- preserves _ (log _ _) => apply preserves_modify; intros; solve [auto with frames]
  | |- preserves _ (mret _) => apply preserves_ret; apply _
  | |- preserves _ (raise _) => apply preserves_raise; apply _
  | |- preserves _ (lift _) => apply preserves_lift; apply _
  | |- preserves _ get_state => apply preserves_get; apply _
  | |- preserves _ (modify _) => apply preserves_modify; intros; solve [auto with frames]
  | |- preserves _ (invoke _ _) => apply preserves_invoke; intros; solve [auto with frames]
  | |- preserves _ (bind _ _) => apply preserves_bind; [apply _| |intros]
  | |- preserves _ (mbind _ _) => apply preserves_mbind; [apply _| |intros]
  | |- preserves _ (try_except _ _) => apply preserves_try; [apply _| |intros]
  | |- preserves _ (for_each _ _) => apply preserves_for_each; [apply _|intros]
  | |- preserves _ (if ?b then _ else _) => destruct b
  | |- preserves _ (match ?x with _ => _ end) => destruct x
  | |- preserves _ _ => solve [auto with frames]
  end.

Ltac frame_auto := repeat frame_step.

Section DatabaseFrames.
Context (P : State -> State -> Prop) `{!PreOrder P}.
Context (setup_ok : bool) (statement_ok : string -> bool).
Hypothesis Hlog : forall l msg s, P s (add_log l msg s).
Hypothesis Hconn : forall b s, P s (set_connection b s).
Hypothesis Hcall :
  forall c s, permits setup_ok statement_ok c = true -> P s (add_call c s).
Variable E : Env.

Lemma connect_frame : preserves P (Connector.connect E).
Proof. unfold Connector.connect. frame_auto. Qed.
#[local] Hint Resolve connect_frame : frames.

Lemma connection_inactive_frame : preserves P (Connector.connection_inactive E).
Proof. unfold Connector.connection_inactive. frame_auto. Qed.
#[local] Hint Resolve connection_inactive_frame : frames.

Lemma connection_open_frame : preserves P (Connector.connection_open E).
Proof. unfold Connector.connection_open. frame_auto. Qed.
#[local] Hint Resolve connection_open_frame : frames.

Lemma execute_query_frame query params :
  statement_ok query = true ->
  preserves P (Connector.execute_query E query params).
Proof. intros Hquery. unfold Connector.execute_query. frame_auto. Qed.

Hypothesis Htables : statement_ok Connector.tables_query = true.
Hypothesis Hcolumns : statement_ok Connector.columns_query = true.

Lemma row_get_frame r key : preserves P (row_get r key).
Proof. unfold row_get. frame_auto. Qed.
#[local] Hint Resolve row_get_frame : frames.

Lemma describe_table_frame schema_info r :
  preserves P (Connector.describe_table E schema_info r).
Proof.
  pose proof (Hq := fun params => execute_query_frame Connector.columns_query params Hcolumns).
  unfold Connector.describe_table. frame_auto.
Qed.
#[local] Hint Resolve describe_table_frame : frames.

Lemma describe_tables_frame rows schema_info :
  preserves P (Connector.describe_tables E schema_info rows).
Proof.
  revert schema_info. induction rows as [|r rows IH]; intros schema_info; simpl.
  - frame_auto.
  - frame_auto.
Qed.
#[local] Hint Resolve describe_tables_frame : frames.

Lemma connector_get_schema_info_frame : preserves P (Connector.get_schema_info E).
Proof.
  pose proof (Hq := execute_query_frame Connector.tables_query [] Htables).
  unfold Connector.get_schema_info. frame_auto.
Qed.

End DatabaseFrames.

Section AnswerFrames.
Context (P : State -> State -> Prop) `{!PreOrder P}.
Context (setup_ok : bool) (statement_ok : string -> bool).
Hypothesis Hlog : forall l msg s, P s (add_log l msg s).
Hypothesis Hhist : forall h s, P s (set_conversation_history h s).
Hypothesis Hcall :
  forall c s, permits setup_ok statement_ok c = true -> P s (add_call c s).
Hypothesis Hschema : forall E, preserves P (SchemaManager.get_schema_info E).
Variable E : Env.

Lemma add_column_names_frame columns all_columns :
  preserves P (SchemaManager.add_column_names columns all_columns).
Proof.
  intros s. destruct (add_column_names_run columns all_columns s) as [-> _].
  reflexivity.
Qed.

Lemma add_table_columns_frame schema_info all_columns :
  preserves P (SchemaManager.add_table_columns schema_info all_columns).
Proof.
  intros s. destruct (add_table_columns_run schema_info all_columns s) as [-> _].
  reflexivity.
Qed.
#[local] Hint Resolve add_table_columns_frame : frames.

Lemma get_all_column_names_frame : preserves P (SchemaManager.get_all_column_names E).
Proof. unfold SchemaManager.get_all_column_names. frame_auto. Qed.
#[local] Hint Resolve get_all_column_names_frame : frames.

Lemma lower_all_frame cols names : preserves P (SQLValidator.lower_all cols names).
Proof. intros s. rewrite lower_all_state. reflexivity. Qed.
#[local] Hint Resolve lower_all_frame : frames.

Lemma validate_sql_frame sql question :
  preserves P (SQLValidator.validate_sql E sql question).
Proof.
  unfold SQLValidator.validate_sql, SQLValidator.validate_sql_body,
    SQLValidator._check_column_validity, SQLValidator._validate_cte_query.
  frame_auto.
Qed.
#[local] Hint Resolve validate_sql_frame : frames.

Lemma rewrite_question_frame question :
  preserves P (VannaAgent._rewrite_question_with_context E question).
Proof.
  unfold VannaAgent._rewrite_question_with_context, VannaAgent._get_last_question,
    VannaAgent.oracle_invoke, py_strip.
  frame_auto.
Qed.
#[local] Hint Resolve rewrite_question_frame : frames.

Lemma add_to_conversation_history_frame entry :
  preserves P (VannaAgent._add_to_conversation_history E entry).
Proof. unfold VannaAgent._add_to_conversation_history. frame_auto. Qed.
#[local] Hint Resolve add_to_conversation_history_frame : frames.

Lemma answer_frame question ctx : preserves P (answer E question ctx).
Proof.
  unfold answer, VannaAgent.ask_body, VannaAgent.oracle_invoke. frame_auto.
Qed.

End AnswerFrames.

Lemma column_definitions_state (columns : list row) (s : State) :
  (SchemaManager.column_definitions columns s).2 = s.
Proof.
  induction columns as [|column columns IH]; simpl; [reflexivity|].
  rewrite bind_run.
  assert (Hcol : (SchemaManager.column_definition column s).2 = s).
  { unfold SchemaManager.column_definition, SchemaManager._get_column_comment.
    repeat case_match; reflexivity. }
  destruct (SchemaManager.column_definition column s) as [[def|e] s1];
    simpl in Hcol; subst s1; [|reflexivity].
  rewrite bind_run.
  destruct (SchemaManager.column_definitions columns s) as [[defs|e] s1];
    simpl in IH; subst s1; reflexivity.
Qed.

Lemma generate_enhanced_ddl_state (table_name : cell) (columns : list row) (s : State) :
  (SchemaManager.generate_enhanced_ddl table_name columns s).2 = s.
Proof.
  unfold SchemaManager.generate_enhanced_ddl. rewrite bind_run.
  pose proof (Hstate := column_definitions_state columns s).
  destruct (SchemaManager.column_definitions columns s) as [[defs|e] s1];
    simpl in Hstate; subst s1; reflexivity.
Qed.

Section InitializeFrames.
Context (P : State -> State -> Prop) `{!PreOrder P}.
Context (statement_ok : string -> bool).
Hypothesis Hlog : forall l msg s, P s (add_log l msg s).
Hypothesis Hconn : forall b s, P s (set_connection b s).
Hypothesis Hvanna : forall b s, P s (set_vanna_instance b s).
Hypothesis Hinit : forall b s, P s (set_initialized b s).
Hypothesis Hhist : forall h s, P s (set_conversation_history h s).
Hypothesis Hcall :
  forall c s, permits true statement_ok c = true -> P s (add_call c s).
Hypothesis Hschema : forall E, preserves P (SchemaManager.get_schema_info E).
Variable E : Env.

Lemma initialize_connect_frame : preserves P (Connector.connect E).
Proof. by apply (connect_frame P true statement_ok). Qed.
#[local] Hint Resolve initialize_connect_frame : frames.

Lemma generate_enhanced_ddl_frame table_name columns :
  preserves P (SchemaManager.generate_enhanced_ddl table_name columns).
Proof. intros s. rewrite generate_enhanced_ddl_state. reflexivity. Qed.
#[local] Hint Resolve generate_enhanced_ddl_frame : frames.

Lemma train_system_frame : preserves P (VannaAgent._train_system E).
Proof.
  unfold VannaAgent._train_system, VannaAgent._should_retrain,
    VannaAgent._train_with_essential_prompts,
    VannaAgent._train_with_expanded_schema, VannaAgent.train_table,
    VannaAgent._load_critical_training_data, VannaAgent.oracle_invoke.
  frame_auto.
Qed.
#[local] Hint Resolve train_system_frame : frames.

Lemma initialize_frame : preserves P (VannaAgent.initialize E).
Proof.
  unfold VannaAgent.initialize, VannaAgent._validate_config,
    VannaAgent._create_vanna_instance, VannaAgent._connect_database,
    VannaAgent.oracle_invoke.
  frame_auto.
Qed.

Lemma ask_frame question ctx : preserves P (VannaAgent.ask E question ctx).
Proof.
  intros s.
  assert (Hanswer : preserves P (answer E question ctx))
    by (by apply (answer_frame P true statement_ok)).
  rewrite ask_unfold. destruct (initialized s); [apply Hanswer|].
  pose proof (Hi := initialize_frame s).
  destruct (VannaAgent.initialize E s) as [[[]|e] s1]; simpl in *; try exact Hi.
  etrans; [exact Hi|apply Hanswer].
Qed.

End InitializeFrames.

Lemma ask_total (E : Env) (question : pyval) (ctx : bool) :
  total (VannaAgent.ask E question ctx).
Proof.
  intros s. rewrite ask_unfold.
  assert (Hanswer : total (answer E question ctx)).
  { unfold answer. apply total_try_except. intros e. apply total_log_then. }
  destruct (initialized s); [apply Hanswer|].
  destruct (initialize_total E s) as [ready Hready].
  destruct (VannaAgent.initialize E s) as [r s1]. simpl in Hready. subst r.
  destruct ready; [apply Hanswer|by eexists].
Qed.

(** The part of [execute] that follows [ask]. *)
Lemma execute_run (E : Env) (question : pyval) (ctx : bool) (s : State) :
  exists result s1 tail,
    VannaAgent.ask E question ctx s = (Ok result, s1) /\
    VannaAgent.execute E question ctx s = tail s1 /\
    forall P : State -> State -> Prop,
      PreOrder P ->
      (forall l msg s, P s (add_log l msg s)) ->
      (forall sql, result !! "sql" = Some (PyStr sql) -> VannaAgent.is_error result = false ->
                   preserves P (Connector.execute_query E (strip sql) [])) ->
      P s1 (tail s1).2.
Proof.
  destruct (ask_total E question ctx s) as [result Hresult].
  unfold VannaAgent.execute. rewrite bind_run.
  destruct (VannaAgent.ask E question ctx s) as [r s1]. simpl in Hresult. subst r.
  eexists result, s1, _. split; [reflexivity|]. split; [reflexivity|].
  intros P HP Hlog Hquery.
  destruct (VannaAgent.is_error result) eqn:Herr; [reflexivity|].
  rewrite try_except_run, bind_run. unfold VannaAgent.result_sql.
  destruct (result !! "sql") as [sql_value|]; simpl; [|apply Hlog].
  rewrite bind_run.
  destruct sql_value as [| | |sql| |]; simpl; try apply Hlog.
  case_bool_decide; [reflexivity|].
  rewrite mbind_run. simpl. rewrite bind_run.
  pose proof (Hq := Hquery sql eq_refl eq_refl (add_log INFO "Executing SQL" s1)).
  destruct (Connector.execute_query E (strip sql) [] _) as [[df|e] s2]; simpl in *.
  - etrans; [apply Hlog|exact Hq].
  - etrans; [apply Hlog|]. etrans; [exact Hq|apply Hlog].
Qed.

(** ** An initialized agent is not set up again *)

Global Instance settled_preorder : PreOrder settled.
Proof.
  split.
  - intros s. repeat split.
  - intros s1 s2 s3 (H1 & H2 & H3) (H4 & H5 & H6). repeat split; congruence.
Qed.

Lemma settled_log l msg s : settled s (add_log l msg s).
Proof. repeat split. Qed.

Lemma settled_set_connection b s : settled s (set_connection b s).
Proof. repeat split. Qed.

Lemma settled_set_history h s : settled s (set_conversation_history h s).
Proof. repeat split. Qed.

Lemma settled_set_schema_cache c s : settled s (set_schema_cache c s).
Proof. repeat split. Qed.

Lemma settled_add_call c s :
  permits false (fun _ => true) c = true -> settled s (add_call c s).
Proof.
  intros Hc. repeat split. unfold setup_calls. simpl.
  rewrite List.filter_app. simpl.
  assert (Hsetup : is_setup c = false) by (by destruct c).
  rewrite Hsetup. apply app_nil_r.
Qed.

#[global] Hint Resolve settled_log settled_set_connection settled_set_history
  settled_set_schema_cache settled_add_call : frames.

Lemma settled_get_schema_info (E : Env) :
  preserves settled (SchemaManager.get_schema_info E).
Proof.
  unfold SchemaManager.get_schema_info.
  assert (Hfetch : preserves settled (Connector.get_schema_info E))
    by (apply (connector_get_schema_info_frame settled false (fun _ => true));
        auto with frames).
  frame_auto.
Qed.

Lemma settled_validate_sql (E : Env) (sql question : pyval) :
  preserves settled (SQLValidator.validate_sql E sql question).
Proof.
  apply (validate_sql_frame settled); first [apply _|apply settled_get_schema_info|auto with frames].
Qed.

Lemma settled_add_to_history (E : Env) (entry : gmap string pyval) :
  preserves settled (VannaAgent._add_to_conversation_history E entry).
Proof.
  apply (add_to_conversation_history_frame settled false (fun _ => true));
    auto with frames.
Qed.

(** X9: an initialized agent is not set up again.  On an agent that is
    initialized, [ask] and [execute] make no call of the set-up (no engine
    is created or connected, nothing is trained, no training data is read),
    whatever the question and however the collaborators answer, and the
    agent stays initialized with the engine it has.  The connector may still
    reconnect to the database. *)
Theorem initialized_agent_is_not_set_up_again (E : Env) (question : pyval) (ctx : bool)
    (s : State) :
  initialized s = true ->
  settled s (VannaAgent.ask E question ctx s).2 /\
  settled s (VannaAgent.execute E question ctx s).2.
Proof.
  intros Hinit.
  assert (Hask : settled s (VannaAgent.ask E question ctx s).2).
  { rewrite ask_unfold, Hinit.
    apply (answer_frame settled false (fun _ => true)); auto with frames.
    apply settled_get_schema_info. }
  split; [exact Hask|].
  destruct (execute_run E question ctx s) as (result & s1 & tail & Hrun & -> & Htail).
  rewrite Hrun in Hask. etrans; [exact Hask|].
  apply Htail; [apply _|apply settled_log|].
  intros sql _ _.
  apply (execute_query_frame settled false (fun _ => true)); auto with frames.
Qed.

(** X9, witness: a second question to the example agent. *)
Lemma initialized_agent_witness :
  let question := PyStr "how many experiments?" in
  let s := (VannaAgent.ask demo question false (VannaAgent.new_agent demo)).2 in
  setup_calls s = [CallCreateOracle; CallConnectToPostgres; CallListEmbeddings] /\
  settled s (VannaAgent.ask demo question true s).2 /\
  settled s (VannaAgent.execute demo question true s).2.
Proof.
  intros question s. split; [vm_compute; reflexivity|].
  apply (initialized_agent_is_not_set_up_again demo question true s).
  vm_compute. reflexivity.
Defined.

(** ** The schema snapshot is never refreshed *)

Global Instance cache_kept_preorder : PreOrder cache_kept.
Proof.
  split.
  - intros s schema H. exact H.
  - intros s1 s2 s3 H1 H2 schema H. apply H2, H1, H.
Qed.

Lemma cache_kept_same (s s' : State) :
  _schema_cache s' = _schema_cache s -> cache_kept s s'.
Proof. intros Heq schema H. congruence. Qed.

Lemma cache_kept_get_schema_info (E : Env) :
  preserves cache_kept (SchemaManager.get_schema_info E).
Proof.
  intros s schema Hcache. by rewrite (cached_schema_run E s schema Hcache).
Qed.

Lemma cache_kept_ask (E : Env) (question : pyval) (ctx : bool) :
  preserves cache_kept (VannaAgent.ask E question ctx).
Proof.
  apply (ask_frame cache_kept (fun _ => true));
    first [apply cache_kept_get_schema_info|intros; by apply cache_kept_same].
Qed.

(** X10: the schema snapshot is never refreshed.  Once a snapshot is
    cached, no operation of the agent replaces or drops it: after
    [initialize], [ask] or [execute], whatever the collaborators answer, the
    cache still holds the same snapshot, so a change of the database schema
    is not seen by the validator of this agent. *)
Theorem schema_cache_is_never_refreshed (E : Env) (question : pyval) (ctx : bool)
    (s : State) (schema : snapshot) :
  _schema_cache s = Some schema ->
  _schema_cache (VannaAgent.initialize E s).2 = Some schema /\
  _schema_cache (VannaAgent.ask E question ctx s).2 = Some schema /\
  _schema_cache (VannaAgent.execute E question ctx s).2 = Some schema.
Proof.
  intros Hcache. split; [|split].
  - revert schema Hcache. apply (initialize_frame cache_kept (fun _ => true));
      first [apply cache_kept_get_schema_info|intros; by apply cache_kept_same].
  - by apply cache_kept_ask.
  - pose proof (Hask := cache_kept_ask E question ctx s schema Hcache).
    destruct (execute_run E question ctx s) as (result & s1 & tail & Hrun & -> & Htail).
    rewrite Hrun in Hask. simpl in Hask.
    apply (Htail cache_kept _); [intros; by apply cache_kept_same| |exact Hask].
    intros sql _ _.
    apply (execute_query_frame cache_kept true (fun _ => true));
      first [reflexivity|intros; by apply cache_kept_same].
Qed.

(** X10, witness: the example agent after its first question. *)
Lemma schema_cache_witness :
  let question := PyStr "how many experiments?" in
  let schema : snapshot :=
    [(CStr "experiments", [[("column_name", CStr "id")]; [("column_name", CStr "name")]])] in
  let s := (VannaAgent.ask demo question false (VannaAgent.new_agent demo)).2 in
  _schema_cache (VannaAgent.initialize demo s).2 = Some schema /\
  _schema_cache (VannaAgent.ask demo question true s).2 = Some schema /\
  _schema_cache (VannaAgent.execute demo question true s).2 = Some schema.
Proof.
  intros question schema s.
  apply (schema_cache_is_never_refreshed demo question true s schema).
  vm_compute. reflexivity.
Defined.

(** ** The steps of [ask] *)

Lemma oracle_invoke_run {A : Type} (c : call) (answer : list call -> result A)
    (s : State) :
  VannaAgent.oracle_invoke c answer s =
  if vanna_instance s then (answer (calls s), add_call c s)
  else (Raise (PyError "AttributeError" "'NoneType' object has no attribute"), s).
Proof.
  unfold VannaAgent.oracle_invoke. rewrite bind_run. simpl.
  by destruct (vanna_instance s).
Qed.

Lemma rewrite_question_total (E : Env) (question : string) :
  total (VannaAgent._rewrite_question_with_context E question).
Proof.
  intros s. unfold VannaAgent._rewrite_question_with_context.
  rewrite bind_run, get_last_question_run.
  destruct (VannaAgent.last_question_of (conversation_history s)); [|by eexists].
  apply total_try_except. intros e. apply total_log_then.
Qed.

Lemma answer_run (E : Env) (text : string) (ctx : bool) (s : State) :
  VannaAgent._validate_question (PyStr text) = true ->
  answer E (PyStr text) ctx s =
  match (if ctx then VannaAgent._rewrite_question_with_context E text else mret text)
          (add_log INFO "Processing question" s) with
  | (Raise e, s2) =>
      (Ok (exception_result (PyStr text) e), add_log ERROR "Error processing question" s2)
  | (Ok processed, s2) =>
      if vanna_instance s2
      then
        let s3 := add_call (CallGenerateSql processed) s2 in
        match oracle_generate_sql E (calls s2) processed with
        | Raise e =>
            (Ok (exception_result (PyStr text) e),
             add_log ERROR "Error processing question" s3)
        | Ok sql =>
            if truthy sql
            then
              match SQLValidator.validate_sql E sql (PyStr processed) s3 with
              | (Raise e, s4) =>
                  (Ok (exception_result (PyStr text) e),
                   add_log ERROR "Error processing question" s4)
              | (Ok (true, _), s4) =>
                  (Ok (success_result (PyStr text) text processed sql),
                   (VannaAgent._add_to_conversation_history E
                      (question_turn (PyStr text) processed sql ctx) s4).2)
              | (Ok (false, validation_error), s4) =>
                  (Ok {[ "error" := PyStr (VannaAgent.invalid_sql_message validation_error);
                         "question" := PyStr text;
                         "processed_question" := PyStr processed;
                         "sql" := sql ]},
                   add_log WARNING "Generated invalid SQL" s4)
              end
            else
              (Ok {[ "error" := PyStr "Failed to generate SQL"; "question" := PyStr text ]},
               s3)
        end
      else
        (Ok (exception_result (PyStr text)
               (PyError "AttributeError" "'NoneType' object has no attribute")),
         add_log ERROR "Error processing question" s2)
  end.
Proof.
  intros Hvalid. unfold answer, VannaAgent.ask_body.
  rewrite try_except_run, Hvalid. simpl. rewrite mbind_run. simpl. rewrite bind_run.
  destruct ((if ctx then VannaAgent._rewrite_question_with_context E text else mret text)
              (add_log INFO "Processing question" s)) as [[processed|e] s2];
    [|reflexivity].
  rewrite bind_run, oracle_invoke_run.
  destruct (vanna_instance s2); [|reflexivity].
  destruct (oracle_generate_sql E (calls s2) processed) as [sql|e]; [|reflexivity].
  destruct (truthy sql); simpl; [|reflexivity].
  rewrite bind_run.
  destruct (SQLValidator.validate_sql E sql (PyStr processed) _)
    as [[[[] validation_error]|e] s4]; simpl; try reflexivity.
  rewrite mbind_run.
  destruct (add_to_history_run E (question_turn (PyStr text) processed sql ctx) s4)
    as (s5 & Hrun & _).
  change (VannaAgent._add_to_conversation_history E _ s4) with
    (VannaAgent._add_to_conversation_history E
       (question_turn (PyStr text) processed sql ctx) s4).
  rewrite Hrun. unfold success_result. simpl.
  case_decide; reflexivity.
Qed.

Lemma appended_last (n : nat) (h : list (gmap string pyval)) (e : gmap string pyval) :
  last (VannaAgent.appended n h e) = Some e.
Proof.
  unfold VannaAgent.appended, VannaAgent.py_last.
  case_decide; [|apply last_snoc]. destruct n; [apply last_snoc|].
  rewrite length_app. simpl.
  rewrite drop_app_le by lia. apply last_snoc.
Qed.

Lemma add_to_history_calls (E : Env) (entry : gmap string pyval) (s : State) :
  calls (VannaAgent._add_to_conversation_history E entry s).2 = calls s ++ [CallNow].
Proof.
  unfold VannaAgent._add_to_conversation_history.
  rewrite bind_run. simpl. rewrite bind_run. simpl.
  case_decide; reflexivity.
Qed.

Lemma generate_calls_log (l : level) (msg : string) (s : State) :
  generate_calls (add_log l msg s) = generate_calls s.
Proof. reflexivity. Qed.

Lemma generate_calls_generate (question : string) (s : State) :
  generate_calls (add_call (CallGenerateSql question) s) =
  generate_calls s ++ [CallGenerateSql question].
Proof. unfold generate_calls. simpl. by rewrite List.filter_app. Qed.

Lemma is_error_exception_result (question : pyval) (e : exn) :
  VannaAgent.is_error (exception_result question e) = true.
Proof. apply is_error_error. Qed.

Lemma success_result_lookup (question : pyval) (q processed : string) (sql : pyval) :
  VannaAgent.is_error (success_result question q processed sql) = false /\
  success_result question q processed sql !! "question" = Some question /\
  success_result question q processed sql !! "sql" = Some sql /\
  success_result question q processed sql !! "success" = None /\
  success_result question q processed sql !! "results" = None.
Proof.
  unfold success_result, VannaAgent.is_error.
  case_decide; (split; [apply bool_decide_eq_false; intros [x Hx]|]);
    simplify_map_eq; done.
Qed.

Lemma answer_generates (E : Env) (question : pyval) (ctx : bool) (s : State) :
  exists result s',
    answer E question ctx s = (Ok result, s') /\
    ((VannaAgent.is_error result = true /\ generate_calls s' = generate_calls s) \/
     exists processed tr,
       generate_calls s' = generate_calls s ++ [CallGenerateSql processed] /\
       calls s `prefix_of` tr /\
       (tr ++ [CallGenerateSql processed]) `prefix_of` calls s' /\
       (ctx = false \/ VannaAgent.last_question_of (conversation_history s) = None ->
        question = PyStr processed) /\
       (VannaAgent.is_error result = true \/
        exists sql t,
          oracle_generate_sql E tr processed = Ok sql /\
          truthy sql = true /\
          VannaAgent.is_error result = false /\
          result !! "sql" = Some sql /\
          last (conversation_history s') =
            Some (<["timestamp" := PyTime t]> (question_turn question processed sql ctx)))).
Proof.
  destruct (VannaAgent._validate_question question) eqn:Hvalid.
  2:{ rewrite (answer_invalid_question E question ctx s Hvalid).
      do 2 eexists. split; [reflexivity|]. left. split; [apply is_error_error|done]. }
  destruct question as [| | |text| |]; try discriminate Hvalid.
  rewrite (answer_run E text ctx s Hvalid).
  set (s1 := add_log INFO "Processing question" s).
  assert (Hrw : preserves quiet
            (if ctx then VannaAgent._rewrite_question_with_context E text else mret text)).
  { destruct ctx; [apply rewrite_question_quiet|apply preserves_ret; apply _]. }
  specialize (Hrw s1).
  assert (Hctx : ctx = false \/
                 VannaAgent.last_question_of (conversation_history s) = None ->
            (if ctx then VannaAgent._rewrite_question_with_context E text else mret text) s1 =
            (Ok text, s1)).
  { intros [-> |Hnone]; [reflexivity|]. destruct ctx; [|reflexivity].
    unfold VannaAgent._rewrite_question_with_context.
    rewrite bind_run, get_last_question_run. simpl. by rewrite Hnone. }
  destruct ((if ctx then VannaAgent._rewrite_question_with_context E text else mret text) s1)
    as [[processed|e] s2]; simpl in Hrw; destruct Hrw as (_ & Hg2 & Hp2).
  2:{ do 2 eexists. split; [reflexivity|]. left.
      split; [apply is_error_exception_result|exact Hg2]. }
  destruct (vanna_instance s2).
  2:{ do 2 eexists. split; [reflexivity|]. left.
      split; [apply is_error_exception_result|exact Hg2]. }
  cbv zeta.
  assert (Hg3 : generate_calls (add_call (CallGenerateSql processed) s2) =
                generate_calls s ++ [CallGenerateSql processed]).
  { rewrite generate_calls_generate. f_equal. exact Hg2. }
  assert (Hprocessed : ctx = false \/
                       VannaAgent.last_question_of (conversation_history s) = None ->
                       PyStr text = PyStr processed).
  { intros Hc. specialize (Hctx Hc). congruence. }
  destruct (oracle_generate_sql E (calls s2) processed) as [sql|e] eqn:Hsql.
  2:{ do 2 eexists. split; [reflexivity|]. right. exists processed, (calls s2).
      split; [exact Hg3|]. split; [exact Hp2|]. split; [reflexivity|].
      split; [exact Hprocessed|]. left. apply is_error_exception_result. }
  destruct (truthy sql) eqn:Htruthy.
  2:{ do 2 eexists. split; [reflexivity|]. right. exists processed, (calls s2).
      split; [exact Hg3|]. split; [exact Hp2|]. split; [reflexivity|].
      split; [exact Hprocessed|]. left. apply is_error_error. }
  pose proof (Hval := validate_sql_quiet E sql (PyStr processed)
                        (add_call (CallGenerateSql processed) s2)).
  destruct (SQLValidator.validate_sql E sql (PyStr processed) _)
    as [[[[] validation_error]|e] s4]; simpl in Hval; destruct Hval as (_ & Hg4 & Hp4).
  - destruct (add_to_history_run E (question_turn (PyStr text) processed sql ctx) s4)
      as (s5 & Hrun & Hh5 & _ & Hg5).
    pose proof (Hc5 := add_to_history_calls E
                         (question_turn (PyStr text) processed sql ctx) s4).
    rewrite Hrun in *. simpl in Hc5.
    do 2 eexists. split; [reflexivity|]. right. exists processed, (calls s2).
    cbn [snd].
    split; [congruence|]. split; [exact Hp2|].
    split; [rewrite Hc5; etrans; [exact Hp4|by apply prefix_app_r]|].
    split; [exact Hprocessed|]. right.
    destruct (success_result_lookup (PyStr text) text processed sql)
      as (Herr & _ & Hlookup & _).
    exists sql, (now E (calls s4)). repeat split; try done.
    simpl. rewrite Hh5. apply appended_last.
  - do 2 eexists. split; [reflexivity|]. right. exists processed, (calls s2).
    cbn [snd]. rewrite generate_calls_log.
    split; [congruence|]. split; [exact Hp2|]. split; [exact Hp4|].
    split; [exact Hprocessed|]. left. apply is_error_error.
  - do 2 eexists. split; [reflexivity|]. right. exists processed, (calls s2).
    cbn [snd]. rewrite generate_calls_log.
    split; [congruence|]. split; [exact Hp2|]. split; [exact Hp4|].
    split; [exact Hprocessed|]. left. apply is_error_exception_result.
Qed.

(** X11: one question, at most one generation.  [ask] calls the generate
    operation of the engine at most once, with the question itself when the
    conversation context is not used or the history has no last question.  When [ask] succeeds it made exactly
    one such call, with the processed question; the SQL of the result is
    what the engine answered to that call, and the last entry of the
    history is the turn of this question with the same processed question
    and the same SQL. *)
Theorem ask_generates_once (E : Env) (question : pyval) (ctx : bool) (s : State) :
  exists result s',
    VannaAgent.ask E question ctx s = (Ok result, s') /\
    (generate_calls s' = generate_calls s \/
     exists processed,
       generate_calls s' = generate_calls s ++ [CallGenerateSql processed] /\
       (ctx = false \/ VannaAgent.last_question_of (conversation_history s) = None ->
        question = PyStr processed)) /\
    (VannaAgent.is_error result = false ->
     exists processed tr sql t,
       generate_calls s' = generate_calls s ++ [CallGenerateSql processed] /\
       calls s `prefix_of` tr /\
       (tr ++ [CallGenerateSql processed]) `prefix_of` calls s' /\
       oracle_generate_sql E tr processed = Ok sql /\
       result !! "sql" = Some sql /\
       last (conversation_history s') =
         Some (<["timestamp" := PyTime t]> (question_turn question processed sql ctx))).
Proof.
  rewrite ask_unfold.
  assert (Hanswer : forall s1, quiet s s1 ->
    exists result s',
      answer E question ctx s1 = (Ok result, s') /\
      (generate_calls s' = generate_calls s \/
       exists processed,
         generate_calls s' = generate_calls s ++ [CallGenerateSql processed] /\
         (ctx = false \/ VannaAgent.last_question_of (conversation_history s) = None ->
        question = PyStr processed)) /\
      (VannaAgent.is_error result = false ->
       exists processed tr sql t,
         generate_calls s' = generate_calls s ++ [CallGenerateSql processed] /\
         calls s `prefix_of` tr /\
         (tr ++ [CallGenerateSql processed]) `prefix_of` calls s' /\
         oracle_generate_sql E tr processed = Ok sql /\
         result !! "sql" = Some sql /\
         last (conversation_history s') =
           Some (<["timestamp" := PyTime t]> (question_turn question processed sql ctx)))).
  { intros s1 ((Hh1 & _) & Hg1 & Hp1).
    destruct (answer_generates E question ctx s1) as (result & s' & Hrun & Hcases).
    exists result, s'. split; [exact Hrun|].
    destruct Hcases as [[Herr Hg]|(processed & tr & Hg & Hp & Hp' & Hctx & Hres)].
    - split; [left; congruence|]. intros Hok. congruence.
    - rewrite Hg1 in Hg. rewrite Hh1 in Hctx.
      split; [right; eauto|]. intros Hok.
      destruct Hres as [Herr|(sql & t & Hsql & _ & _ & Hlookup & Hlast)]; [congruence|].
      exists processed, tr, sql, t. repeat split; try done. by etrans. }
  destruct (initialized s).
  - apply Hanswer. reflexivity.
  - pose proof (Hq := initialize_quiet E s).
    destruct (initialize_total E s) as [ready Hready].
    destruct (VannaAgent.initialize E s) as [r s1]. simpl in Hq, Hready. subst r.
    destruct ready.
    + apply Hanswer. exact Hq.
    + exists (VannaAgent.not_initialized_error question), s1.
      split; [reflexivity|]. destruct Hq as (_ & Hg & _).
      split; [by left|].
      unfold VannaAgent.not_initialized_error. rewrite is_error_error. discriminate.
Qed.

(** ** What the operations return *)

Lemma returns_ret {A : Type} (Q : A -> Prop) (a : A) : Q a -> returns Q (mret a).
Proof. intros Ha s a' [= <-]. exact Ha. Qed.

Lemma returns_raise {A : Type} (Q : A -> Prop) (e : exn) : returns Q (raise e).
Proof. intros s a. discriminate. Qed.

Lemma returns_bind {A B : Type} (Q : B -> Prop) (m : M A) (f : A -> M B) :
  (forall a, returns Q (f a)) -> returns Q (bind m f).
Proof.
  intros Hf s b. rewrite bind_run.
  destruct (m s) as [[a|e] s1]; [apply Hf|discriminate].
Qed.

Lemma returns_mbind {A B : Type} (Q : B -> Prop) (m : M A) (f : A -> M B) :
  (forall a, returns Q (f a)) -> returns Q (mbind f m).
Proof. apply returns_bind. Qed.

Lemma returns_try {A : Type} (Q : A -> Prop) (m : M A) (h : exn -> M A) :
  returns Q m -> (forall e, returns Q (h e)) -> returns Q (try_except m h).
Proof.
  intros Hm Hh s a. rewrite try_except_run. specialize (Hm s).
  destruct (m s) as [[a'|e] s1]; [exact (Hm a)|apply Hh].
Qed.

Ltac returns_step :=
  lazymatch goal with
  | |- returns _ (mret _) => apply returns_ret
  | |- returns _ (raise _) => apply returns_raise
  | |- returns _ (bind _ _) => apply returns_bind; intros
  | |- returns _ (mbind _ _) => apply returns_mbind; intros
  | |- returns _ (try_except _ _) => apply returns_try; [|intros]
  | |- returns _ (if ?b then _ else _) => destruct b
  | |- returns _ (match ?x with _ => _ end) => destruct x
  end.

Lemma ask_result_keys (E : Env) (question : pyval) (ctx : bool) :
  returns (fun result : gmap string pyval =>
             result !! "success" = None /\ result !! "results" = None)
          (VannaAgent.ask E question ctx).
Proof.
  unfold VannaAgent.ask, VannaAgent.ask_body, VannaAgent.not_initialized_error.
  repeat returns_step; by simplify_map_eq.
Qed.

(** X12: [execute] always returns, and its result tells whether a query
    ran.  When [ask] reports an error, [execute] returns that result as it
    is, in the state that [ask] left, and the result has no [success] key.
    Otherwise the result has the key [success] with a Boolean value, and
    when the value is True the result holds the rows under [results] and has
    no [error]. *)
Theorem execute_reports_success (E : Env) (question : pyval) (ctx : bool) (s : State) :
  exists result s1 final s2,
    VannaAgent.ask E question ctx s = (Ok result, s1) /\
    VannaAgent.execute E question ctx s = (Ok final, s2) /\
    (if VannaAgent.is_error result
     then final = result /\ s2 = s1 /\ final !! "success" = None
     else exists b,
            final !! "success" = Some (PyBool b) /\
            (b = true ->
             final !! "error" = None /\
             exists rows, final !! "results" = Some (PyRecords rows))).
Proof.
  destruct (ask_total E question ctx s) as [result Hresult].
  pose proof (Hkeys := ask_result_keys E question ctx s result Hresult).
  unfold VannaAgent.execute. rewrite bind_run.
  destruct (VannaAgent.ask E question ctx s) as [r s1]. simpl in Hresult. subst r.
  exists result, s1.
  destruct (VannaAgent.is_error result) eqn:Herr.
  { do 2 eexists. split; [reflexivity|]. split; [reflexivity|].
    destruct Hkeys as [Hsuccess _]. done. }
  assert (Hnoerr : result !! "error" = None).
  { unfold VannaAgent.is_error in Herr. apply bool_decide_eq_false in Herr.
    destruct (result !! "error"); [exfalso; eauto|reflexivity]. }
  rewrite try_except_run, bind_run. unfold VannaAgent.result_sql.
  destruct (result !! "sql") as [sql_value|]; simpl.
  2:{ do 2 eexists. split; [reflexivity|]. split; [reflexivity|].
      exists false. by simplify_map_eq. }
  rewrite bind_run.
  destruct sql_value as [| | |sql| |]; simpl;
    try (do 2 eexists; split; [reflexivity|]; split; [reflexivity|];
         exists false; by simplify_map_eq).
  case_bool_decide as Hempty.
  { do 2 eexists. split; [reflexivity|]. split; [reflexivity|].
    exists false. by simplify_map_eq. }
  rewrite mbind_run. simpl. rewrite bind_run.
  destruct (Connector.execute_query E (strip sql) [] _) as [[df|e] s2]; simpl.
  - do 2 eexists. split; [reflexivity|]. split; [reflexivity|].
    eexists. split; [by simplify_map_eq|]. intros _.
    split; [by simplify_map_eq|].
    destruct df as [[[|r rows]]|]; eexists; by simplify_map_eq.
  - do 2 eexists. split; [reflexivity|]. split; [reflexivity|].
    exists false. by simplify_map_eq.
Qed.

(** ** Rewriting a question with the context *)

(** X13: rewriting never fails.  [_rewrite_question_with_context] always
    returns a text.  Without a last question it returns the question as it
    is and does nothing else.  Otherwise it asks the engine once, and it
    returns something other than the question only if the engine answered
    with a text that is not empty; when this text and the question are
    ASCII, the stripped form of the text differs from the stripped question
    and is what is returned.  Every failure (no engine, an exception of the
    engine, an answer that is not a text) gives the question back. *)
Theorem rewrite_question_spec (E : Env) (question : string) (s : State) :
  exists r s',
    VannaAgent._rewrite_question_with_context E question s = (Ok r, s') /\
    (VannaAgent.last_question_of (conversation_history s) = None ->
     r = question /\ s' = s) /\
    (forall last,
       VannaAgent.last_question_of (conversation_history s) = Some last ->
       calls s' = calls s ++ (if vanna_instance s then [CallRewrite last question] else [])) /\
    (r <> question ->
     exists last text,
       VannaAgent.last_question_of (conversation_history s) = Some last /\
       vanna_instance s = true /\
       oracle_generate_rewritten_question E (calls s) last question = Ok (PyStr text) /\
       text <> "" /\
       (isascii text = true -> isascii question = true ->
        r = strip text /\ strip text <> strip question)).
Proof.
  unfold VannaAgent._rewrite_question_with_context.
  rewrite bind_run, get_last_question_run.
  destruct (VannaAgent.last_question_of (conversation_history s)) as [last|].
  2:{ do 2 eexists. split; [reflexivity|]. split; [done|]. split; [done|]. done. }
  rewrite try_except_run, mbind_run. simpl. rewrite bind_run, oracle_invoke_run. simpl.
  destruct (vanna_instance s).
  2:{ do 2 eexists. split; [reflexivity|]. split; [done|].
      split; [intros ? [= <-]; simpl; by rewrite app_nil_r|]. done. }
  destruct (oracle_generate_rewritten_question E (calls s) last question)
    as [rewritten|e] eqn:Hanswer.
  2:{ do 2 eexists. split; [reflexivity|]. split; [done|].
      split; [by intros ? [= <-]|]. done. }
  destruct (truthy rewritten) eqn:Htruthy.
  2:{ do 2 eexists. split; [reflexivity|]. split; [done|].
      split; [by intros ? [= <-]|]. done. }
  rewrite bind_run.
  destruct rewritten as [| | |text| |]; simpl;
    try (do 2 eexists; split; [reflexivity|]; split; [done|];
         split; [by intros ? [= <-]|]; done).
  case_decide as Hdiff.
  - do 2 eexists. split; [reflexivity|]. split; [done|].
    split; [by intros ? [= <-]|]. intros _. exists last, text.
    repeat split; try done.
    simpl in Htruthy. apply negb_true_iff, bool_decide_eq_false in Htruthy. done.
  - do 2 eexists. split; [reflexivity|]. split; [done|].
    split; [by intros ? [= <-]|]. done.
Qed.

(** ** Training *)

Lemma should_retrain_run (E : Env) (s : State) :
  config_force_retrain E = false ->
  exists s',
    VannaAgent._should_retrain E s =
      (match embeddings_exist E (calls s) with
       | Ok found => Ok (negb found)
       | Raise e => Raise e
       end, s') /\
    calls s' = calls s ++ [CallListEmbeddings].
Proof.
  intros Hforce. unfold VannaAgent._should_retrain. rewrite Hforce, bind_run.
  unfold invoke at 1.
  destruct (embeddings_exist E (calls s)) as [[]|e]; simpl;
    (eexists; split; [reflexivity|]; reflexivity).
Qed.

(** X14: when training is skipped.  With [force_retrain] off, the training
    of the engine is skipped when the embeddings directory has entries, and
    also when looking at the directory fails: [_train_system] returns
    without an exception and the look at the directory is the only call it
    made, so no prompt, no DDL and no example reaches the engine. *)
Theorem training_is_skipped (E : Env) (s : State) :
  config_force_retrain E = false ->
  embeddings_exist E (calls s) <> Ok false ->
  exists s',
    VannaAgent._train_system E s = (Ok tt, s') /\
    calls s' = calls s ++ [CallListEmbeddings].
Proof.
  intros Hforce Hfound. unfold VannaAgent._train_system.
  rewrite try_except_run, bind_run.
  destruct (should_retrain_run E s Hforce) as (s1 & Hrun & Hcalls).
  rewrite Hrun.
  destruct (embeddings_exist E (calls s)) as [[]|e]; simpl;
    try (eexists; split; [reflexivity|]; exact Hcalls).
  done.
Qed.

(** X14, witness: the example agent, whose embeddings exist. *)
Lemma training_is_skipped_witness :
  exists s',
    VannaAgent._train_system demo (VannaAgent.new_agent demo) = (Ok tt, s') /\
    calls s' = calls (VannaAgent.new_agent demo) ++ [CallListEmbeddings].
Proof.
  apply (training_is_skipped demo (VannaAgent.new_agent demo)).
  - reflexivity.
  - discriminate.
Defined.

Lemma train_pairs_stop (E : Env) (queries : list (string * string)) (s : State) :
  vanna_instance s = true ->
  exists trained,
    trained `prefix_of` queries /\
    calls (for_each queries
             (fun query =>
                VannaAgent.oracle_invoke (CallTrain (TrainQuestionSql query.1 query.2))
                  (fun tr => oracle_train E tr (TrainQuestionSql query.1 query.2))) s).2 =
      calls s ++ map training_pair_call trained /\
    (forall i query,
       (i + 1 < length trained)%nat -> trained !! i = Some query ->
       pair_answer E (calls s) trained i query = Ok tt) /\
    (trained = queries \/
     exists query e,
       last trained = Some query /\
       pair_answer E (calls s) trained (length trained - 1) query = Raise e).
Proof.
  revert s. induction queries as [|query queries IH]; intros s Hengine; simpl.
  - exists []. split; [done|]. split; [simpl; by rewrite app_nil_r|].
    split; [intros i query Hi; simpl in Hi; lia|by left].
  - rewrite mbind_run, oracle_invoke_run, Hengine.
    destruct (oracle_train E (calls s) (TrainQuestionSql query.1 query.2))
      as [[]|e] eqn:Hanswer.
    + set (s1 := add_call (CallTrain (TrainQuestionSql query.1 query.2)) s).
      destruct (IH s1 Hengine) as (trained & Hprefix & Hcalls & Haccepted & Hstop).
      assert (Hbase : forall rest,
                calls s1 ++ rest = calls s ++ training_pair_call query :: rest).
      { intros rest. unfold s1. simpl. by rewrite <- List.app_assoc. }
      exists (query :: trained). split; [by apply prefix_cons|].
      split; [rewrite Hcalls; apply Hbase|]. split.
      * intros [|i] query' Hi Hlookup; simpl in Hi, Hlookup.
        -- injection Hlookup as <-. unfold pair_answer. simpl.
           by rewrite app_nil_r.
        -- unfold pair_answer. simpl. rewrite <- Hbase.
           apply (Haccepted i query'); [lia|exact Hlookup].
      * destruct Hstop as [->|(query' & e & Hlast & Hrefused)]; [by left|].
        right. exists query', e.
        destruct trained as [|first trained]; [discriminate Hlast|].
        split; [exact Hlast|].
        unfold pair_answer in *. simpl in *.
        rewrite Nat.sub_0_r in *. by rewrite <- Hbase.
    + exists [query]. split; [apply prefix_cons, prefix_nil|].
      split; [reflexivity|].
      split; [intros i query' Hi; simpl in Hi; lia|].
      right. exists query, e. split; [reflexivity|].
      unfold pair_answer. simpl. by rewrite app_nil_r.
Qed.

Lemma train_pairs_without_engine (E : Env) (queries : list (string * string)) (s : State) :
  vanna_instance s = false ->
  calls (for_each queries
           (fun query =>
              VannaAgent.oracle_invoke (CallTrain (TrainQuestionSql query.1 query.2))
                (fun tr => oracle_train E tr (TrainQuestionSql query.1 query.2))) s).2 =
  calls s.
Proof.
  intros Hengine. destruct queries as [|query queries]; simpl; [reflexivity|].
  by rewrite mbind_run, oracle_invoke_run, Hengine.
Qed.

(** X15: the examples that reach the engine at start-up.
    [_load_critical_training_data] never raises.  It reads the sample
    queries once and then trains the engine with pairs of a question and
    its SQL only.  The pairs it trains with are taken, in the order of the
    file, from the start of the first ten critical pairs (a pair is critical
    when its lower-cased question holds one of the four keywords); every
    pair before the last one trained was accepted by the engine, and the
    training stops only after the last of the ten or at the first pair that
    the engine refuses.  When the sample queries cannot be read, or the
    agent has no engine, nothing is trained. *)
Theorem critical_training_is_bounded (E : Env) (s : State) :
  exists s' trained,
    VannaAgent._load_critical_training_data E s = (Ok tt, s') /\
    calls s' = calls s ++ CallLoadSampleQueries :: map training_pair_call trained /\
    (length trained <= 10)%nat /\
    Forall (fun query => VannaAgent.is_critical query = true) trained /\
    match load_sample_queries E (calls s) with
    | Ok queries =>
        let critical := take 10 (List.filter VannaAgent.is_critical queries) in
        let before := calls s ++ [CallLoadSampleQueries] in
        trained `prefix_of` critical /\
        if vanna_instance s
        then
          (forall i query,
             (i + 1 < length trained)%nat -> trained !! i = Some query ->
             pair_answer E before trained i query = Ok tt) /\
          (trained = critical \/
           exists query e,
             last trained = Some query /\
             pair_answer E before trained (length trained - 1) query = Raise e)
        else trained = []
    | Raise _ => trained = []
    end.
Proof.
  unfold VannaAgent._load_critical_training_data.
  rewrite try_except_run, bind_run. unfold invoke at 1.
  destruct (load_sample_queries E (calls s)) as [queries|e].
  2:{ exists (add_log ERROR "Error loading critical training data"
                (add_call CallLoadSampleQueries s)), [].
      split; [reflexivity|]. split; [reflexivity|]. split; [simpl; lia|]. done. }
  rewrite mbind_run. cbv zeta.
  set (critical := take 10 (List.filter VannaAgent.is_critical queries)).
  set (s0 := add_call CallLoadSampleQueries s).
  assert (Hrun : exists trained,
            calls (for_each critical
                     (fun query =>
                        VannaAgent.oracle_invoke
                          (CallTrain (TrainQuestionSql query.1 query.2))
                          (fun tr => oracle_train E tr (TrainQuestionSql query.1 query.2)))
                     s0).2 = calls s0 ++ map training_pair_call trained /\
            trained `prefix_of` critical /\
            if vanna_instance s
            then
              (forall i query,
                 (i + 1 < length trained)%nat -> trained !! i = Some query ->
                 pair_answer E (calls s0) trained i query = Ok tt) /\
              (trained = critical \/
               exists query e,
                 last trained = Some query /\
                 pair_answer E (calls s0) trained (length trained - 1) query = Raise e)
            else trained = []).
  { destruct (vanna_instance s) eqn:Hengine.
    - destruct (train_pairs_stop E critical s0 Hengine)
        as (trained & Hprefix & Hcalls & Hrest).
      exists trained. auto.
    - exists []. rewrite (train_pairs_without_engine E critical s0 Hengine).
      split; [simpl; by rewrite app_nil_r|]. split; [apply prefix_nil|reflexivity]. }
  destruct Hrun as (trained & Hcalls & Hprefix & Hstop).
  assert (Hbound : (length trained <= 10)%nat).
  { apply prefix_length in Hprefix. unfold critical in Hprefix.
    rewrite length_take in Hprefix. lia. }
  assert (Hfilter : trained `prefix_of` List.filter VannaAgent.is_critical queries).
  { etrans; [exact Hprefix|]. apply prefix_take. }
  assert (Hcritical : Forall (fun query => VannaAgent.is_critical query = true) trained).
  { apply Forall_forall. intros query Hin.
    destruct Hfilter as [rest Hrest].
    assert (Hin' : In query (List.filter VannaAgent.is_critical queries)).
    { rewrite Hrest. apply in_or_app. left. by apply list_elem_of_In. }
    by apply filter_In in Hin' as [_ Hc]. }
  simpl in Hcalls. rewrite <- List.app_assoc in Hcalls. simpl in Hcalls.
  match goal with
  | |- context [for_each ?l ?body ?s1] => destruct (for_each l body s1) as [[[]|e] s2]
  end; simpl in Hcalls.
  - do 2 eexists. split; [reflexivity|]. simpl. eauto.
  - do 2 eexists. split; [reflexivity|]. simpl. eauto.
Qed.

Lemma stateless_ret {A : Type} (a : A) : stateless (mret a : M A).
Proof. by exists (Ok a). Qed.

Lemma stateless_raise {A : Type} (e : exn) : stateless (@raise A e).
Proof. by exists (Raise e). Qed.

Lemma stateless_bind {A B : Type} (m : M A) (f : A -> M B) :
  stateless m -> (forall a, stateless (f a)) -> stateless (bind m f).
Proof.
  intros [r Hm] Hf. destruct r as [a|e].
  - destruct (Hf a) as [r Hfa]. exists r. intros s. by rewrite bind_run, Hm, Hfa.
  - exists (Raise e). intros s. by rewrite bind_run, Hm.
Qed.

Lemma column_definitions_stateless (columns : list row) :
  stateless (SchemaManager.column_definitions columns).
Proof.
  induction columns as [|column columns IH]; simpl.
  - apply stateless_ret.
  - apply stateless_bind.
    + unfold SchemaManager.column_definition, SchemaManager._get_column_comment.
      repeat case_match;
        first [apply stateless_raise
              |apply stateless_bind; [|intros; apply stateless_ret];
               first [apply stateless_ret|apply stateless_raise]].
    + intros def. apply stateless_bind; [exact IH|]. intros defs. apply stateless_ret.
Qed.

Lemma generate_enhanced_ddl_stateless (table_name : cell) (columns : list row) :
  stateless (SchemaManager.generate_enhanced_ddl table_name columns).
Proof.
  unfold SchemaManager.generate_enhanced_ddl.
  apply stateless_bind; [apply column_definitions_stateless|].
  intros defs. apply stateless_ret.
Qed.

Lemma train_tables_run (E : Env) (schema : snapshot) (s : State) :
  exists trained,
    calls (for_each schema (VannaAgent.train_table E) s).2 =
      calls s ++ map training_ddl_call trained /\
    Forall (fun ddl =>
              exists name columns,
                (CStr name, columns) ∈ schema /\
                name ∈ VannaAgent.core_tables /\
                forall s0, SchemaManager.generate_enhanced_ddl (CStr name) columns s0 =
                           (Ok ddl, s0)) trained.
Proof.
  revert s. induction schema as [|[table columns] schema IH]; intros s; simpl.
  - exists []. split; [simpl; by rewrite app_nil_r|constructor].
  - rewrite mbind_run.
    assert (Hrest : forall s1,
              exists trained,
                calls (for_each schema (VannaAgent.train_table E) s1).2 =
                  calls s1 ++ map training_ddl_call trained /\
                Forall (fun ddl =>
                          exists name cols,
                            (CStr name, cols) ∈ (table, columns) :: schema /\
                            name ∈ VannaAgent.core_tables /\
                            forall s0,
                              SchemaManager.generate_enhanced_ddl (CStr name) cols s0 =
                              (Ok ddl, s0)) trained).
    { intros s1. destruct (IH s1) as (trained & Hcalls & Hall).
      exists trained. split; [exact Hcalls|].
      eapply Forall_impl; [exact Hall|]. simpl.
      intros ddl (name & cols & Hin & Hcore & Hddl).
      exists name, cols. split; [by right|]. auto. }
    assert (Hstop : exists trained : list string,
              calls s = calls s ++ map training_ddl_call trained /\
              Forall (fun ddl =>
                        exists name cols,
                          (CStr name, cols) ∈ (table, columns) :: schema /\
                          name ∈ VannaAgent.core_tables /\
                          forall s0,
                            SchemaManager.generate_enhanced_ddl (CStr name) cols s0 =
                            (Ok ddl, s0)) trained).
    { exists []. split; [simpl; by rewrite app_nil_r|constructor]. }
    unfold VannaAgent.train_table at 1. simpl.
    destruct table as [| | |name|]; try apply Hrest.
    case_decide as Hcore; [|apply Hrest].
    rewrite bind_run.
    destruct (generate_enhanced_ddl_stateless (CStr name) columns) as [r Hddl].
    rewrite Hddl. destruct r as [ddl|e]; [|exact Hstop].
    rewrite oracle_invoke_run.
    destruct (vanna_instance s); [|exact Hstop].
    assert (Hthis : exists name0 cols,
              (CStr name0, cols) ∈ (CStr name, columns) :: schema /\
              name0 ∈ VannaAgent.core_tables /\
              forall s0, SchemaManager.generate_enhanced_ddl (CStr name0) cols s0 =
                         (Ok ddl, s0)).
    { exists name, columns. split; [left|]. auto. }
    destruct (oracle_train E (calls s) (TrainDdl ddl)) as [[]|e].
    + destruct (Hrest (add_call (CallTrain (TrainDdl ddl)) s))
        as (trained & Hcalls & Hall).
      exists (ddl :: trained). split.
      * rewrite Hcalls. simpl. by rewrite <- List.app_assoc.
      * constructor; [exact Hthis|exact Hall].
    + exists [ddl]. split; [reflexivity|]. constructor; [exact Hthis|constructor].
Qed.

(** X16: the tables that reach the engine at start-up.
    [_train_with_expanded_schema] never raises.  When the texts that the
    snapshot holds for the columns are ASCII, the only calls it makes after
    the schema was obtained train the engine with DDL texts, and each of
    these texts is the enhanced DDL of a table of the snapshot whose name is
    one of the four core tables ([experiments], [experiment_groups],
    [experiment_daily_metrics], [shops]), generated from the columns that
    the snapshot holds for it. *)
Theorem schema_training_covers_core_tables (E : Env) (s s1 : State) (schema : snapshot) :
  SchemaManager.get_schema_info E s = (Ok schema, s1) ->
  ascii_snapshot schema = true ->
  exists s' trained,
    VannaAgent._train_with_expanded_schema E s = (Ok tt, s') /\
    calls s' = calls s1 ++ map training_ddl_call trained /\
    Forall (fun ddl =>
              exists name columns,
                (CStr name, columns) ∈ schema /\
                name ∈ VannaAgent.core_tables /\
                forall s0, SchemaManager.generate_enhanced_ddl (CStr name) columns s0 =
                           (Ok ddl, s0)) trained.
Proof.
  intros Hschema _.
  unfold VannaAgent._train_with_expanded_schema.
  rewrite try_except_run, bind_run, Hschema, mbind_run.
  destruct (train_tables_run E schema s1) as (trained & Hcalls & Hall).
  destruct (for_each schema (VannaAgent.train_table E) s1) as [[[]|e] s2];
    simpl in Hcalls.
  - eexists _, trained. split; [reflexivity|]. split; [exact Hcalls|exact Hall].
  - eexists _, trained. split; [reflexivity|]. split; [exact Hcalls|exact Hall].
Qed.

(** X16, witness: the example agent once it is initialized; its table
    [experiments] is a core table, and its DDL is the one text trained. *)
Lemma schema_training_witness :
  let s := (VannaAgent.initialize demo (VannaAgent.new_agent demo)).2 in
  let schema : snapshot :=
    [(CStr "experiments", [[("column_name", CStr "id")]; [("column_name", CStr "name")]])] in
  let s1 := (SchemaManager.get_schema_info demo s).2 in
  exists s' trained,
    VannaAgent._train_with_expanded_schema demo s = (Ok tt, s') /\
    calls s' = calls s1 ++ map training_ddl_call trained /\
    Forall (fun ddl =>
              exists name columns,
                (CStr name, columns) ∈ schema /\
                name ∈ VannaAgent.core_tables /\
                forall s0, SchemaManager.generate_enhanced_ddl (CStr name) columns s0 =
                           (Ok ddl, s0)) trained.
Proof.
  intros s schema s1.
  apply (schema_training_covers_core_tables demo s s1 schema).
  - vm_compute. reflexivity.
  - vm_compute. reflexivity.
Defined.

(** ** The conversation summary, and a cleared conversation *)

Lemma strip_chars_nil (l : list ascii) :
  strip_chars l = [] <-> Forall (fun c => is_space c = true) l.
Proof.
  assert (Hl : forall l, lstrip_chars l = [] <-> Forall (fun c => is_space c = true) l).
  { clear l. intros l. induction l as [|c l IH]; simpl.
    - split; [constructor|done].
    - destruct (is_space c) eqn:Hc.
      + rewrite IH. split; [by constructor|by intros ?%Forall_inv_tail].
      + split; [done|]. intros ?%Forall_inv. congruence. }
  unfold strip_chars. split.
  - intros H. apply (f_equal (@rev ascii)) in H. rewrite rev_involutive in H.
    simpl in H. apply Hl in H. apply Forall_rev in H. rewrite rev_involutive in H.
    destruct (lstrip_chars_suffix l) as [blanks Hsuffix].
    assert (Hempty : lstrip_chars l = []).
    { destruct (lstrip_chars l) as [|c r] eqn:Hstrip; [reflexivity|]. exfalso.
      clear Hsuffix blanks. revert Hstrip.
      induction l as [|a l IH]; simpl; [discriminate|].
      destruct (is_space a) eqn:Ha; [exact IH|].
      intros [= -> ->]. apply Forall_inv in H. congruence. }
    by apply Hl.
  - intros H. apply Hl in H. by rewrite H.
Qed.

Lemma str_nil (l : list ascii) : str l = "" <-> l = [].
Proof.
  split; [|by intros ->].
  intros H. apply (f_equal chars) in H. by rewrite chars_str in H.
Qed.

(** X17: which questions are accepted.  [_validate_question] accepts only
    a text that has a character which is not white space: it rejects every
    value that is not a string, the empty string, and a text made of blanks,
    tabs and line breaks only.  It accepts every text of ASCII characters
    that has a character which is not white space. *)
Theorem validate_question_iff (question : pyval) :
  (VannaAgent._validate_question question = true ->
   exists text c, question = PyStr text /\ c ∈ chars text /\ is_space c = false) /\
  (forall text c,
     question = PyStr text -> isascii text = true ->
     c ∈ chars text -> is_space c = false ->
     VannaAgent._validate_question question = true).
Proof.
  assert (Hiff : VannaAgent._validate_question question = true <->
                 exists text c, question = PyStr text /\ c ∈ chars text /\
                                is_space c = false).
  { unfold VannaAgent._validate_question.
    destruct question as [| | |text| |];
      try (split; [discriminate|intros (? & ? & [=] & _)]).
    rewrite andb_true_iff, !negb_true_iff, !bool_decide_eq_false.
    unfold strip. rewrite str_nil, strip_chars_nil. split.
    - intros [_ Hnot]. apply not_Forall_Exists in Hnot; [|intros c; apply _].
      apply Exists_exists in Hnot as (c & Hin & Hc).
      exists text, c. split; [reflexivity|]. split; [exact Hin|].
      simpl in Hc. by destruct (is_space c).
    - intros (text' & c & [= <-] & Hin & Hc). split.
      + intros ->. by apply elem_of_nil in Hin.
      + intros Hall. rewrite Forall_forall in Hall. specialize (Hall c Hin).
        congruence. }
  split; [apply Hiff|]. intros text c Hq _ Hin Hc. apply Hiff. eauto.
Qed.

Lemma ask_cases (E : Env) (question : pyval) (ctx : bool) (s : State) :
  exists s1,
    quiet s s1 /\
    (VannaAgent.ask E question ctx s = answer E question ctx s1 \/
     VannaAgent.ask E question ctx s =
       (Ok (VannaAgent.not_initialized_error question), s1)).
Proof.
  rewrite ask_unfold. destruct (initialized s).
  - exists s. split; [reflexivity|by left].
  - pose proof (Hq := initialize_quiet E s).
    destruct (initialize_total E s) as [ready Hready].
    destruct (VannaAgent.initialize E s) as [r s1]. simpl in Hq, Hready. subst r.
    exists s1. split; [exact Hq|]. destruct ready; [by left|by right].
Qed.

Lemma ask_success_last_turn (E : Env) (question : pyval) (ctx : bool) (s s' : State)
    (result : gmap string pyval) :
  VannaAgent.ask E question ctx s = (Ok result, s') ->
  VannaAgent.is_error result = false ->
  exists processed sql t,
    last (conversation_history s') =
      Some (<["timestamp" := PyTime t]> (question_turn question processed sql ctx)).
Proof.
  intros Hask Herr.
  destruct (ask_cases E question ctx s) as (s1 & _ & [Hrun|Hrun]); rewrite Hrun in Hask.
  - destruct (answer_generates E question ctx s1) as (result' & s'' & Hanswer & Hcases).
    rewrite Hanswer in Hask. injection Hask as -> ->.
    destruct Hcases as [[Herr' _]|(processed & tr & _ & _ & _ & _ & Hres)];
      [congruence|].
    destruct Hres as [Herr'|(sql & t & _ & _ & _ & _ & Hlast)]; [congruence|].
    eauto.
  - injection Hask as <- <-. unfold VannaAgent.not_initialized_error in Herr.
    by rewrite is_error_error in Herr.
Qed.

Lemma stamped_turn_is_question (t : Z) (question : pyval) (processed : string)
    (sql : pyval) (ctx : bool) :
  VannaAgent.is_question
    (<["timestamp" := PyTime t]> (question_turn question processed sql ctx)) = true /\
  (<["timestamp" := PyTime t]> (question_turn question processed sql ctx)) !! "timestamp" =
    Some (PyTime t).
Proof.
  unfold VannaAgent.is_question, question_turn. by simplify_map_eq.
Qed.

(** X18: the summary after a question.  After a successful [ask] the
    conversation summary counts at least one question and at most as many
    as the history has entries, and its [last_question_time] is a time
    stamp, the one of the turn just recorded. *)
Theorem summary_after_ask (E : Env) (question : pyval) (ctx : bool) (s s' : State)
    (result : gmap string pyval) :
  VannaAgent.ask E question ctx s = (Ok result, s') ->
  VannaAgent.is_error result = false ->
  exists n t turn,
    VannaAgent.get_conversation_summary s' =
      (Ok {[ "total_questions" := PyInt n; "last_question_time" := PyTime t ]}, s') /\
    1 <= n <= Z.of_nat (length (conversation_history s')) /\
    last (conversation_history s') = Some turn /\
    turn !! "timestamp" = Some (PyTime t).
Proof.
  intros Hask Herr.
  destruct (ask_success_last_turn E question ctx s s' result Hask Herr)
    as (processed & sql & t & Hlast).
  destruct (stamped_turn_is_question t question processed sql ctx) as [Hq Ht].
  set (turn := <["timestamp" := PyTime t]> (question_turn question processed sql ctx)) in *.
  pose proof (Hlast' := Hlast). apply last_Some in Hlast' as [h Hh].
  exists (Z.of_nat (length (List.filter VannaAgent.is_question (conversation_history s')))),
    t, turn.
  assert (Hfilter : List.filter VannaAgent.is_question (conversation_history s') =
                    List.filter VannaAgent.is_question h ++ [turn]).
  { rewrite Hh, List.filter_app. simpl. by rewrite Hq. }
  split.
  - unfold VannaAgent.get_conversation_summary. rewrite bind_run. simpl.
    case_bool_decide as Hempty; [rewrite Hh in Hempty; by destruct h|].
    rewrite Hfilter at 2. rewrite last_snoc, Ht. reflexivity.
  - split; [|split; [exact Hlast|exact Ht]].
    pose proof (Hle := List.filter_length_le VannaAgent.is_question (conversation_history s')).
    rewrite Hfilter, length_app in *. simpl in *. lia.
Qed.

(** X18, witness: the first question to the example agent. *)
Lemma summary_after_ask_witness :
  let question := PyStr "how many experiments?" in
  let s' := (VannaAgent.ask demo question false (VannaAgent.new_agent demo)).2 in
  exists n t turn,
    VannaAgent.get_conversation_summary s' =
      (Ok {[ "total_questions" := PyInt n; "last_question_time" := PyTime t ]}, s') /\
    1 <= n <= Z.of_nat (length (conversation_history s')) /\
    last (conversation_history s') = Some turn /\
    turn !! "timestamp" = Some (PyTime t).
Proof.
  intros question s'.
  apply (summary_after_ask demo question false (VannaAgent.new_agent demo) s'
           {[ "question" := question; "sql" := PyStr "SELECT id FROM experiments" ]}).
  - vm_compute. reflexivity.
  - vm_compute. reflexivity.
Defined.

Lemma ask_without_last_question (E : Env) (question : pyval) (ctx : bool) (s : State) :
  VannaAgent.last_question_of (conversation_history s) = None ->
  generate_calls (VannaAgent.ask E question ctx s).2 = generate_calls s \/
  exists text,
    question = PyStr text /\
    generate_calls (VannaAgent.ask E question ctx s).2 =
      generate_calls s ++ [CallGenerateSql text].
Proof.
  intros Hnone.
  destruct (ask_cases E question ctx s) as (s1 & ((Hh & _) & Hg & _) & [Hrun|Hrun]);
    rewrite Hrun; [|by left].
  destruct (answer_generates E question ctx s1) as (result & s' & Hanswer & Hcases).
  rewrite Hanswer. simpl.
  destruct Hcases as [[_ Hsame]|(processed & tr & Hgen & _ & _ & Hctx & _)].
  - left. congruence.
  - right. exists processed. rewrite Hh in Hctx.
    split; [by apply Hctx; right|congruence].
Qed.

(** X19: a cleared conversation has no context.  [clear_conversation]
    empties the history and makes no call.  Afterwards there is no last
    question, the summary counts no question, rewriting with the context
    gives the question back without asking the engine, and the next [ask],
    even with the context turned on, generates from the question as it was
    put. *)
Theorem cleared_conversation_has_no_context (E : Env) (s : State) :
  let s0 := (VannaAgent.clear_conversation s).2 in
  VannaAgent.clear_conversation s = (Ok tt, s0) /\
  conversation_history s0 = [] /\
  calls s0 = calls s /\
  VannaAgent._get_last_question s0 = (Ok None, s0) /\
  VannaAgent.get_conversation_summary s0 =
    (Ok {[ "total_questions" := PyInt 0; "last_question_time" := PyNone ]}, s0) /\
  (forall text,
     VannaAgent._rewrite_question_with_context E text s0 = (Ok text, s0)) /\
  (forall question,
     generate_calls (VannaAgent.ask E question true s0).2 = generate_calls s \/
     exists text,
       question = PyStr text /\
       generate_calls (VannaAgent.ask E question true s0).2 =
         generate_calls s ++ [CallGenerateSql text]).
Proof.
  intros s0. repeat split.
  intros question. apply (ask_without_last_question E question true s0). reflexivity.
Qed.

(** ** The statements that reach the database *)

Global Instance same_statements_preorder : PreOrder same_statements.
Proof.
  split.
  - intros s. reflexivity.
  - intros s1 s2 s3 H1 H2. unfold same_statements in *. congruence.
Qed.

Global Instance schema_queries_only_preorder : PreOrder schema_queries_only.
Proof.
  split.
  - intros s. exists []. split; [by rewrite app_nil_r|constructor].
  - intros s1 s2 s3 (l1 & H1 & Hl1) (l2 & H2 & Hl2).
    exists (l1 ++ l2). split; [by rewrite H2, H1, List.app_assoc|].
    by apply Forall_app.
Qed.

Lemma statements_add_call (c : call) (s : State) :
  statements (add_call c s) =
  statements s ++ match statement_of c with Some query => [query] | None => [] end.
Proof. unfold statements. simpl. rewrite omap_app. simpl. by destruct (statement_of c). Qed.

Lemma same_statements_add_call c s :
  permits true (fun _ => false) c = true -> same_statements s (add_call c s).
Proof.
  intros Hc. unfold same_statements. rewrite statements_add_call.
  destruct c; try discriminate Hc; apply app_nil_r.
Qed.

Lemma same_statements_same (s s' : State) :
  calls s' = calls s -> same_statements s s'.
Proof. intros H. unfold same_statements, statements. by rewrite H. Qed.

Lemma schema_queries_only_same (s s' : State) :
  calls s' = calls s -> schema_queries_only s s'.
Proof.
  intros H. exists []. unfold statements. rewrite H, app_nil_r. split; [done|constructor].
Qed.

Lemma schema_queries_only_add_call c s :
  permits true is_schema_query c = true -> schema_queries_only s (add_call c s).
Proof.
  intros Hc. eexists. split; [apply statements_add_call|].
  destruct c; simpl in *; repeat constructor. exact Hc.
Qed.

Lemma schema_queries_only_get_schema_info (E : Env) :
  preserves schema_queries_only (SchemaManager.get_schema_info E).
Proof.
  assert (Hfetch : preserves schema_queries_only (Connector.get_schema_info E)).
  { apply (connector_get_schema_info_frame schema_queries_only true is_schema_query);
      first [reflexivity
            |apply schema_queries_only_add_call
            |intros; by apply schema_queries_only_same]. }
  assert (Hcache : forall c s, schema_queries_only s (set_schema_cache c s))
    by (intros; by apply schema_queries_only_same).
  unfold SchemaManager.get_schema_info. frame_auto.
Qed.

Lemma same_statements_on_database_error (E : Env) :
  preserves same_statements (on_database_error E).
Proof.
  assert (Hlog : forall l msg s, same_statements s (add_log l msg s))
    by (intros; by apply same_statements_same).
  assert (Hopen : preserves same_statements (Connector.connection_open E)).
  { apply (connection_open_frame same_statements true (fun _ => false));
      auto using same_statements_add_call. }
  pose proof same_statements_add_call.
  unfold on_database_error. frame_auto.
Qed.

Lemma execute_query_statements (E : Env) (query : string) (params : list cell)
    (s : State) :
  statements (Connector.execute_query E query params s).2 = statements s \/
  statements (Connector.execute_query E query params s).2 = statements s ++ [query].
Proof.
  assert (Hlog : forall l msg s, same_statements s (add_log l msg s))
    by (intros; by apply same_statements_same).
  assert (Hconn : forall b s, same_statements s (set_connection b s))
    by (intros; by apply same_statements_same).
  assert (Hinactive : preserves same_statements (Connector.connection_inactive E)).
  { apply (connection_inactive_frame same_statements true (fun _ => false));
      auto using same_statements_add_call. }
  assert (Hconnect : preserves same_statements (Connector.connect E)).
  { apply (connect_frame same_statements true (fun _ => false));
      auto using same_statements_add_call. }
  unfold Connector.execute_query. fold (on_database_error E).
  rewrite execute_query_handler.
  match goal with |- context [match ?m s with _ => _ end] => set (body := m) end.
  assert (Hbody : statements (body s).2 = statements s \/
                  statements (body s).2 = statements s ++ [query]).
  { unfold body. rewrite bind_run.
    specialize (Hinactive s).
    destruct (Connector.connection_inactive E s) as [[inactive|e] s1];
      simpl in Hinactive; [|by left].
    rewrite mbind_run.
    match goal with
    | |- context [match ?m s1 with _ => _ end] =>
        assert (Hre : preserves same_statements m)
          by (destruct inactive; frame_auto);
        specialize (Hre s1); destruct (m s1) as [[reconnected|e] s2]
    end; simpl in Hre; unfold same_statements in *; [|left; simpl; congruence].
    destruct reconnected; simpl; [|rewrite ?mbind_run; simpl; left; congruence].
    rewrite ?bind_run. simpl.
    destruct (connection s2); simpl; [|rewrite ?mbind_run; simpl; left; congruence].
    rewrite ?mbind_run. simpl. rewrite ?bind_run. unfold invoke at 1. simpl.
    assert (Hsent : statements
                      (add_call (CallCursorExecute query params)
                         (add_log DEBUG "Executing query" s2)) =
                    statements s ++ [query]).
    { rewrite statements_add_call. simpl. f_equal. congruence. }
    destruct (cursor_execute E (calls s2) query params) as [[rows|rowcount]|e];
      [| |by right].
    - rewrite ?mbind_run. simpl. by right.
    - rewrite ?mbind_run. unfold invoke at 1. simpl.
      assert (Hcommit : forall s0, statements (add_call CallCommit s0) = statements s0)
        by (intros; apply same_statements_add_call; reflexivity).
      destruct (connection_commit E _) as [[]|e]; simpl.
      + rewrite ?mbind_run. simpl. right.
        change (statements (add_call CallCommit
                  (add_call (CallCursorExecute query params)
                     (add_log DEBUG "Executing query" s2))) = statements s ++ [query]).
        by rewrite Hcommit.
      + right. by rewrite Hcommit. }
  destruct (body s) as [[df|[msg|cls msg]] s1]; simpl in Hbody |- *.
  - exact Hbody.
  - pose proof (Hh := same_statements_on_database_error E s1).
    unfold same_statements in Hh. by rewrite Hh.
  - exact Hbody.
Qed.

Lemma schema_queries_only_ask (E : Env) (question : pyval) (ctx : bool) :
  preserves schema_queries_only (VannaAgent.ask E question ctx).
Proof.
  apply (ask_frame schema_queries_only is_schema_query);
    first [apply schema_queries_only_get_schema_info
          |apply schema_queries_only_add_call
          |intros; by apply schema_queries_only_same].
Qed.

(** X20: what reaches the database.  While [ask] runs, whether it has to
    initialize the agent or not, the only statements sent to the database
    are the two queries that read the schema, with the texts of
    [get_schema_info].  [execute] sends, after those of its [ask], at most
    one statement more, and this statement is a part of the SQL of the
    result of [ask], which [ask] returned without an error; it is the
    stripped SQL when the SQL is ASCII.  No other text is ever executed. *)
Theorem only_generated_sql_is_executed (E : Env) (question : pyval) (ctx : bool)
    (s : State) :
  exists result s1,
    VannaAgent.ask E question ctx s = (Ok result, s1) /\
    schema_queries_only s s1 /\
    (statements (VannaAgent.execute E question ctx s).2 = statements s1 \/
     exists sql statement,
       VannaAgent.is_error result = false /\
       result !! "sql" = Some (PyStr sql) /\
       statements (VannaAgent.execute E question ctx s).2 =
         statements s1 ++ [statement] /\
       substring statement sql /\
       (isascii sql = true -> statement = strip sql)).
Proof.
  assert (Hpart : forall sql, substring (strip sql) sql).
  { intros sql. unfold substring, strip. rewrite chars_str.
    apply strip_chars_infix. }
  destruct (ask_total E question ctx s) as [result Hresult].
  pose proof (Hask := schema_queries_only_ask E question ctx s).
  unfold VannaAgent.execute. rewrite bind_run.
  destruct (VannaAgent.ask E question ctx s) as [r s1]. simpl in Hresult, Hask. subst r.
  exists result, s1. split; [reflexivity|]. split; [exact Hask|].
  destruct (VannaAgent.is_error result) eqn:Herr; [by left|].
  rewrite try_except_run, bind_run. unfold VannaAgent.result_sql.
  destruct (result !! "sql") as [sql_value|] eqn:Hsql; simpl; [|by left].
  rewrite bind_run.
  destruct sql_value as [| | |sql| |]; simpl; try by left.
  case_bool_decide; [by left|].
  rewrite mbind_run. simpl. rewrite bind_run.
  pose proof (Hq := execute_query_statements E (strip sql) []
                      (add_log INFO "Executing SQL" s1)).
  destruct (Connector.execute_query E (strip sql) [] _) as [[df|e] s2]; simpl in *.
  - destruct Hq as [Hq|Hq]; [by left|]. right. exists sql, (strip sql). auto 6.
  - destruct Hq as [Hq|Hq]; [by left|]. right. exists sql, (strip sql). auto 6.
Qed.

(** ** What a successful [ask] returns *)

Lemma is_space_lower_char (c : ascii) :
  is_space c = true -> lower_char c = c.
Proof.
  destruct c as [[] [] [] [] [] [] [] []]; first [reflexivity|discriminate].
Qed.

Lemma strip_lower_nonempty (text kw : string) :
  trimmed kw = true -> substring kw (lower text) -> strip text <> "".
Proof.
  intros Hkw (pre & post & Hs) Hempty.
  unfold strip in Hempty. apply str_nil, strip_chars_nil in Hempty.
  unfold trimmed in Hkw. apply andb_true_iff in Hkw as [Ha _].
  destruct (chars kw) as [|a mid]; [discriminate|]. apply negb_true_iff in Ha.
  assert (Hin : a ∈ chars (lower text)).
  { rewrite Hs. apply elem_of_app. right. left. }
  unfold lower in Hin. rewrite chars_str in Hin.
  apply list_elem_of_fmap in Hin as (c & -> & Hc).
  rewrite Forall_forall in Hempty. specialize (Hempty c Hc).
  rewrite (is_space_lower_char c Hempty) in Ha. congruence.
Qed.

Lemma validate_sql_accepts (E : Env) (sql question : pyval) (s s' : State)
    (reason : option string) :
  SQLValidator.validate_sql E sql question s = (Ok (true, reason), s') ->
  reason = None /\
  exists text,
    sql = PyStr text /\
    SQLValidator._is_basic_sql_valid (PyStr text) = true /\
    SQLValidator._contains_error_message text = false.
Proof.
  rewrite validate_sql_cases.
  destruct (SQLValidator._is_basic_sql_valid sql) eqn:Hbasic; [|discriminate].
  destruct sql as [| | |text| |]; try discriminate.
  destruct (SQLValidator._contains_error_message text) eqn:Herr; [discriminate|].
  destruct (SQLValidator._check_column_validity E text s) as [[[msg|]|e] s1];
    intros [= <- <-]; eauto.
Qed.

Lemma answer_success_validated (E : Env) (question : pyval) (ctx : bool) (s s' : State)
    (result : gmap string pyval) :
  answer E question ctx s = (Ok result, s') ->
  VannaAgent.is_error result = false ->
  vanna_instance s' = true /\
  exists text processed s3 s4,
    result !! "sql" = Some (PyStr text) /\
    SQLValidator.validate_sql E (PyStr text) (PyStr processed) s3 = (Ok (true, None), s4).
Proof.
  destruct (VannaAgent._validate_question question) eqn:Hvalid.
  2:{ rewrite (answer_invalid_question E question ctx s Hvalid).
      intros [= <- <-] Herr. by rewrite is_error_error in Herr. }
  destruct question as [| | |q| |]; try discriminate Hvalid.
  rewrite (answer_run E q ctx s Hvalid).
  destruct ((if ctx then VannaAgent._rewrite_question_with_context E q else mret q) _)
    as [[processed|e] s2].
  2:{ intros [= <- <-] Herr. by rewrite is_error_exception_result in Herr. }
  destruct (vanna_instance s2) eqn:Hengine.
  2:{ intros [= <- <-] Herr. by rewrite is_error_exception_result in Herr. }
  cbv zeta.
  destruct (oracle_generate_sql E (calls s2) processed) as [sql|e].
  2:{ intros [= <- <-] Herr. by rewrite is_error_exception_result in Herr. }
  destruct (truthy sql).
  2:{ intros [= <- <-] Herr. by rewrite is_error_error in Herr. }
  pose proof (Hs4 := settled_validate_sql E sql (PyStr processed)
                       (add_call (CallGenerateSql processed) s2)).
  destruct (SQLValidator.validate_sql E sql (PyStr processed) _)
    as [[[[] reason]|e] s4] eqn:Hval.
  - intros [= <- <-] _.
    destruct (validate_sql_accepts _ _ _ _ _ _ Hval) as (-> & text & -> & _).
    destruct (success_result_lookup (PyStr q) q processed (PyStr text))
      as (_ & _ & Hsql & _).
    split.
    + destruct (settled_add_to_history E
                  (question_turn (PyStr q) processed (PyStr text) ctx) s4) as (_ & _ & ->).
      destruct Hs4 as (_ & _ & Hs4). simpl in Hs4. congruence.
    + exists text, processed. eauto.
  - intros [= <- <-] Herr. by rewrite is_error_error in Herr.
  - intros [= <- <-] Herr. by rewrite is_error_exception_result in Herr.
Qed.


(** X22: the shape of a result of [ask].  Every result of [ask] carries
    the key [question], and an [error], when the result has one, is a text;
    so a caller may search the error text without a check of its type. *)
Theorem ask_result_shape (E : Env) (question : pyval) (ctx : bool) (s : State) :
  exists result s',
    VannaAgent.ask E question ctx s = (Ok result, s') /\
    is_Some (result !! "question") /\
    (forall v, result !! "error" = Some v -> exists msg, v = PyStr msg).
Proof.
  destruct (ask_total E question ctx s) as [result Hresult].
  assert (Hshape : returns (fun result : gmap string pyval =>
                      is_Some (result !! "question") /\
                      forall v, result !! "error" = Some v -> exists msg, v = PyStr msg)
                    (VannaAgent.ask E question ctx)).
  { unfold VannaAgent.ask, VannaAgent.ask_body, VannaAgent.not_initialized_error.
    repeat returns_step;
      (split; [by simplify_map_eq|intros v Hv; simplify_map_eq; eauto]). }
  specialize (Hshape s result Hresult).
  destruct (VannaAgent.ask E question ctx s) as [r s']. simpl in Hresult. subst r.
  exists result, s'. split; [reflexivity|exact Hshape].
Qed.

(** ** From one question to the next *)

Lemma rewrite_question_calls (E : Env) (text : string) (last : pyval) (s : State) :
  VannaAgent.last_question_of (conversation_history s) = Some last ->
  vanna_instance s = true ->
  calls (VannaAgent._rewrite_question_with_context E text s).2 =
  calls s ++ [CallRewrite last text].
Proof.
  intros Hlast Hengine. unfold VannaAgent._rewrite_question_with_context.
  rewrite bind_run, get_last_question_run, Hlast.
  rewrite try_except_run, mbind_run. simpl. rewrite bind_run, oracle_invoke_run. simpl.
  rewrite Hengine.
  destruct (oracle_generate_rewritten_question E (calls s) last text)
    as [rewritten|e]; [|reflexivity].
  destruct (truthy rewritten); [|reflexivity].
  rewrite bind_run.
  destruct rewritten as [| | |answer| |]; simpl; try reflexivity.
  case_decide; reflexivity.
Qed.

(** X23: the context flows from one question to the next.  A successful
    [ask] made exactly one generate call, with the processed question (the
    question itself, which is not empty, when the context is not used).
    When the processed question is not empty it is the last question
    afterwards, and the next rewriting with the context, of any text,
    consults the engine once with this last question and that text. *)
Theorem context_flows_to_next_question (E : Env) (question : pyval) (ctx : bool)
    (s s' : State) (result : gmap string pyval) :
  VannaAgent.ask E question ctx s = (Ok result, s') ->
  VannaAgent.is_error result = false ->
  exists processed,
    generate_calls s' = generate_calls s ++ [CallGenerateSql processed] /\
    (ctx = false -> question = PyStr processed /\ processed <> "") /\
    (processed <> "" ->
     VannaAgent._get_last_question s' = (Ok (Some (PyStr processed)), s') /\
     forall text,
       calls (VannaAgent._rewrite_question_with_context E text s').2 =
       calls s' ++ [CallRewrite (PyStr processed) text]).
Proof.
  intros Hask Herr.
  destruct (ask_cases E question ctx s) as (s1 & (_ & Hg1 & _) & [Hrun|Hrun]);
    rewrite Hrun in Hask.
  2:{ injection Hask as <- <-. unfold VannaAgent.not_initialized_error in Herr.
      by rewrite is_error_error in Herr. }
  assert (Hvalid : VannaAgent._validate_question question = true).
  { destruct (VannaAgent._validate_question question) eqn:Hv; [reflexivity|].
    rewrite (answer_invalid_question E question ctx s1 Hv) in Hask.
    injection Hask as <- <-. by rewrite is_error_error in Herr. }
  destruct (answer_success_validated E question ctx s1 s' result Hask Herr)
    as (Hengine & _).
  destruct (answer_generates E question ctx s1) as (result' & s'' & Hanswer & Hcases).
  rewrite Hanswer in Hask. injection Hask as -> ->.
  destruct Hcases as [[Herr' _]|(processed & tr & Hg & _ & _ & Hctx & Hres)];
    [congruence|].
  destruct Hres as [Herr'|(sql & t & _ & _ & _ & _ & Hlast)]; [congruence|].
  exists processed. split; [congruence|]. split.
  - intros ->. assert (Hq : question = PyStr processed) by (apply Hctx; by left).
    split; [exact Hq|]. subst question. simpl in Hvalid.
    apply andb_true_iff in Hvalid as [Hne _].
    by apply negb_true_iff, bool_decide_eq_false in Hne.
  - intros Hne.
    assert (Hlq : VannaAgent.last_question_of (conversation_history s') =
                  Some (PyStr processed)).
    { apply last_Some in Hlast as [h ->]. rewrite last_question_snoc.
      assert (Hq : qualifies (<["timestamp" := PyTime t]>
                                (question_turn question processed sql ctx)) = true).
      { unfold qualifies, VannaAgent.is_question, VannaAgent.has_processed_question,
          question_turn.
        simplify_map_eq. simpl.
        rewrite ?andb_true_l. by apply negb_true_iff, bool_decide_eq_false. }
      rewrite Hq. unfold question_turn. by simplify_map_eq. }
    split; [by rewrite get_last_question_run, Hlq|].
    intros text. by apply rewrite_question_calls.
Qed.

(** X23, witness: the first question to the example agent. *)
Lemma context_flows_witness :
  let question := PyStr "how many experiments?" in
  let s' := (VannaAgent.ask demo question false (VannaAgent.new_agent demo)).2 in
  VannaAgent._get_last_question s' = (Ok (Some question), s') /\
  calls (VannaAgent._rewrite_question_with_context demo "and last week?" s').2 =
    calls s' ++ [CallRewrite question "and last week?"].
Proof.
  intros question s'.
  destruct (context_flows_to_next_question demo question false (VannaAgent.new_agent demo) s'
              {[ "question" := question; "sql" := PyStr "SELECT id FROM experiments" ]})
    as (processed & _ & Hctx & Hnext).
  - vm_compute. reflexivity.
  - vm_compute. reflexivity.
  - destruct (Hctx eq_refl) as [Hq Hne]. injection Hq as <-.
    destruct (Hnext Hne) as [Hlast Hcalls]. split; [exact Hlast|apply Hcalls].
Defined.

(** ** The verdict depends on the snapshot only *)

Lemma row_get_stateless (r : row) (key : string) : stateless (row_get r key).
Proof. eexists. intros s. apply row_get_run. Qed.

Lemma add_column_names_stateless (columns : list row) (acc : gset cell) :
  stateless (SchemaManager.add_column_names columns acc).
Proof.
  revert acc. induction columns as [|col columns IH]; intros acc; simpl.
  - apply stateless_ret.
  - apply stateless_bind; [apply row_get_stateless|]. intros name. apply IH.
Qed.

Lemma add_table_columns_stateless (schema : snapshot) (acc : gset cell) :
  stateless (SchemaManager.add_table_columns schema acc).
Proof.
  revert acc. induction schema as [|[table columns] schema IH]; intros acc; simpl.
  - apply stateless_ret.
  - apply (stateless_bind (SchemaManager.add_column_names columns acc));
      [apply add_column_names_stateless|]. intros acc'. apply IH.
Qed.

Lemma lower_all_stateless (cols : list cell) (names : gset string) :
  stateless (SQLValidator.lower_all cols names).
Proof.
  revert names. induction cols as [|c cols IH]; intros names; simpl.
  - apply stateless_ret.
  - destruct c; first [apply stateless_raise|apply IH].
Qed.

Lemma lowered_columns_cached (E : Env) (s : State) (schema : snapshot) :
  _schema_cache s = Some schema ->
  lowered_columns E s =
  (match (SchemaManager.add_table_columns schema ∅ s).1 with
   | Ok cols => (SQLValidator.lower_all (iter_cells (set_order E) cols) ∅ s).1
   | Raise e => Raise e
   end, s).
Proof.
  intros Hcache. unfold lowered_columns. rewrite bind_run.
  destruct (get_all_column_names_run E s) as (schema' & s1 & Hschema & Hrun).
  rewrite (cached_schema_run E s schema Hcache) in Hschema.
  injection Hschema as <- <-. rewrite Hrun.
  destruct (SchemaManager.add_table_columns schema ∅ s).1 as [cols|e]; [|reflexivity].
  pose proof (Hstate := lower_all_state (iter_cells (set_order E) cols) ∅ s).
  destruct (SQLValidator.lower_all _ _ s) as [r s2]. simpl in *. by subst s2.
Qed.

(** X24: the verdict depends on the cached snapshot only.  Two
    validations of the same text on agents that hold the same cached
    snapshot (and iterate over sets in the same order) give the same
    verdict, whatever else their states and their collaborators are, and
    whatever the [question] arguments are: the question plays no role in
    the validation, and no state of the database does. *)
Theorem verdict_depends_on_snapshot_only (E E' : Env) (sql question question' : pyval)
    (s s' : State) (schema : snapshot) :
  _schema_cache s = Some schema ->
  _schema_cache s' = Some schema ->
  set_order E = set_order E' ->
  (SQLValidator.validate_sql E sql question s).1 =
  (SQLValidator.validate_sql E' sql question' s').1.
Proof.
  intros Hcache Hcache' Horder. rewrite !validate_sql_cases.
  destruct (SQLValidator._is_basic_sql_valid sql); [|reflexivity].
  destruct sql as [| | |text| |]; try reflexivity.
  destruct (SQLValidator._contains_error_message text); [reflexivity|].
  rewrite !check_column_validity_run.
  rewrite (lowered_columns_cached E s schema Hcache),
    (lowered_columns_cached E' s' schema Hcache'), <- Horder.
  destruct (add_table_columns_stateless schema ∅) as [r Hr]. rewrite !Hr. simpl.
  destruct r as [cols|e]; [|reflexivity].
  destruct (lower_all_stateless (iter_cells (set_order E) cols) ∅) as [r' Hr'].
  rewrite !Hr'. simpl. destruct r' as [names|e]; [|reflexivity].
  by repeat case_match.
Qed.

(** X24, witness: the example agent after its first question, and the same
    state without its history and its connection. *)
Lemma verdict_witness :
  let sql := PyStr "SELECT id FROM experiments WHERE budget > 0" in
  let s := (VannaAgent.ask demo (PyStr "how many experiments?") false
              (VannaAgent.new_agent demo)).2 in
  let s' := set_connection false (set_conversation_history [] s) in
  (SQLValidator.validate_sql demo sql PyNone s).1 =
  (SQLValidator.validate_sql demo_no_database sql (PyStr "budgets") s').1.
Proof.
  intros sql s s'.
  apply (verdict_depends_on_snapshot_only demo demo_no_database sql PyNone (PyStr "budgets")
           s s'
           [(CStr "experiments", [[("column_name", CStr "id")]; [("column_name", CStr "name")]])]).
  - vm_compute. reflexivity.
  - vm_compute. reflexivity.
  - reflexivity.
Defined.

(** ** Texts that are always accepted *)

(** X25: a text without listed names is accepted.  A text of ASCII
    characters in which a statement keyword occurs, no error indicator
    occurs, and none of the names of the two fixed lists of the validator
    occurs (letter case ignored) is judged valid by [validate_sql] on every
    agent, whatever the schema holds and even when the schema cannot be
    read. *)
Theorem unlisted_names_are_accepted (E : Env) (text : string) (question : pyval)
    (s : State) :
  isascii text = true ->
  (exists kw, kw ∈ statement_keywords /\ substring kw (lower text)) ->
  (forall indicator,
     indicator ∈ SQLValidator.error_indicators -> ~ substring indicator (lower text)) ->
  (forall pattern,
     pattern ∈ SQLValidator._invalid_patterns \/
     pattern ∈ SQLValidator.strict_invalid_patterns ->
     ~ substring pattern (lower text)) ->
  (SQLValidator.validate_sql E (PyStr text) question s).1 = Ok (true, None).
Proof.
  intros _ (kw & Hkw & Hsub) Hindicators Hpatterns. rewrite validate_sql_cases.
  assert (Hbasic : SQLValidator._is_basic_sql_valid (PyStr text) = true)
    by (apply is_basic_sql_valid_spec; eauto).
  assert (Herr : SQLValidator._contains_error_message text = false).
  { destruct (SQLValidator._contains_error_message text) eqn:Herr; [|reflexivity].
    apply contains_error_message_spec in Herr as (indicator & Hin & Hocc).
    by destruct (Hindicators indicator Hin). }
  rewrite Hbasic, Herr.
  pose proof (Horigin := check_column_validity_origin E text s).
  destruct (SQLValidator._check_column_validity E text s) as [[[msg|]|e] s1];
    try reflexivity.
  destruct (Horigin msg eq_refl) as (pattern & names & _ & Hin & _ & _ & Hocc).
  by destruct (Hpatterns pattern Hin).
Qed.

(** X25, witness: a query over the columns [id] and [name], on the agent
    whose schema cannot be read. *)
Lemma unlisted_names_witness :
  (SQLValidator.validate_sql demo_malformed (PyStr "SELECT id, name FROM experiments")
     PyNone (VannaAgent.new_agent demo_malformed)).1 = Ok (true, None).
Proof.
  apply (unlisted_names_are_accepted demo_malformed "SELECT id, name FROM experiments").
  - vm_compute. reflexivity.
  - exists "select". split; [left|].
    exists [], (chars " id, name from experiments"). reflexivity.
  - intros indicator Hin Hsub. apply contains_spec in Hsub.
    unfold SQLValidator.error_indicators in Hin.
    rewrite !elem_of_cons, elem_of_nil in Hin.
    repeat (destruct Hin as [->|Hin]; [vm_compute in Hsub; discriminate Hsub|]).
    exact Hin.
  - intros pattern Hin Hsub. apply contains_spec in Hsub.
    unfold SQLValidator._invalid_patterns, SQLValidator.strict_invalid_patterns in Hin.
    rewrite !elem_of_list_to_set, !elem_of_cons, !elem_of_nil in Hin.
    destruct Hin as [Hin|Hin];
      repeat (destruct Hin as [->|Hin]; [vm_compute in Hsub; discriminate Hsub|]);
      exact Hin.
Defined.

(** ** The states that an agent can reach *)

Global Instance engine_kept_preorder : PreOrder engine_kept.
Proof.
  split.
  - intros s. repeat split; auto.
  - intros s1 s2 s3 (H1 & H2 & H3 & H4) (H5 & H6 & H7 & H8).
    repeat split; try congruence. auto.
Qed.

Lemma engine_kept_log l msg s : engine_kept s (add_log l msg s).
Proof. repeat split; auto. Qed.

Lemma engine_kept_set_connection b s : engine_kept s (set_connection b s).
Proof. repeat split; auto. Qed.

Lemma engine_kept_set_schema_cache c s : engine_kept s (set_schema_cache c s).
Proof. repeat split; auto. Qed.

Lemma engine_kept_set_vanna_instance s : engine_kept s (set_vanna_instance true s).
Proof. repeat split; auto. Qed.

Lemma engine_kept_add_call c s : engine_kept s (add_call c s).
Proof. repeat split; auto. Qed.

#[global] Hint Resolve engine_kept_log engine_kept_set_connection
  engine_kept_set_schema_cache engine_kept_set_vanna_instance engine_kept_add_call
  : frames.

Lemma engine_kept_connect (E : Env) : preserves engine_kept (Connector.connect E).
Proof.
  apply (connect_frame engine_kept true (fun _ => true)); auto with frames.
Qed.

Lemma engine_kept_execute_query (E : Env) query params :
  preserves engine_kept (Connector.execute_query E query params).
Proof.
  apply (execute_query_frame engine_kept true (fun _ => true)); auto with frames.
Qed.

Lemma engine_kept_get_schema_info (E : Env) :
  preserves engine_kept (SchemaManager.get_schema_info E).
Proof.
  assert (Hfetch : preserves engine_kept (Connector.get_schema_info E))
    by (apply (connector_get_schema_info_frame engine_kept true (fun _ => true));
        auto with frames).
  unfold SchemaManager.get_schema_info. frame_auto.
Qed.

Lemma engine_kept_validate_sql (E : Env) sql question :
  preserves engine_kept (SQLValidator.validate_sql E sql question).
Proof.
  apply (validate_sql_frame engine_kept);
    first [apply _|apply engine_kept_get_schema_info|auto with frames].
Qed.

Lemma collect_suggestions_state (invalid_lower : string) (cols suggestions : list cell)
    (s : State) :
  (SQLValidator.collect_suggestions invalid_lower cols suggestions s).2 = s.
Proof.
  revert suggestions. induction cols as [|c cols IH]; intros suggestions; simpl.
  - reflexivity.
  - destruct c; try reflexivity. case_match; apply IH.
Qed.

Lemma engine_kept_get_column_suggestions (E : Env) invalid_column :
  preserves engine_kept (SQLValidator.get_column_suggestions E invalid_column).
Proof.
  assert (Hnames : preserves engine_kept (SchemaManager.get_all_column_names E)).
  { apply (get_all_column_names_frame engine_kept);
      first [apply _|apply engine_kept_get_schema_info]. }
  assert (Hcollect : forall invalid_lower cols suggestions,
            preserves engine_kept
              (SQLValidator.collect_suggestions invalid_lower cols suggestions)).
  { intros invalid_lower cols suggestions s. rewrite collect_suggestions_state.
    reflexivity. }
  unfold SQLValidator.get_column_suggestions. frame_auto.
Qed.

Lemma well_formed_engine_kept (s s' : State) :
  engine_kept s s' -> well_formed s -> well_formed s'.
Proof.
  intros (Hh & Hmax & Hinit & Hengine) (H1 & H2 & H3 & H4).
  repeat split; try congruence. rewrite Hinit. auto.
Qed.

Lemma appended_well_formed (E : Env) (s0 : State) (h : list (gmap string pyval))
    (question : pyval) (processed : string) (sql : pyval) (ctx : bool) :
  (length h <= 20)%nat -> Forall is_turn h ->
  let h' := VannaAgent.appended 20 h (stamped E s0 (question_turn question processed sql ctx)) in
  (length h' <= 20)%nat /\ Forall is_turn h'.
Proof.
  intros Hlen Hall h'. unfold h'. rewrite appended_drop by lia. split.
  - rewrite length_drop, length_app. simpl. lia.
  - apply Forall_drop, Forall_app. split; [exact Hall|].
    constructor; [|constructor]. unfold is_turn, stamped. eauto 10.
Qed.

Lemma record_well_formed (E : Env) (s : State) (question : pyval) (processed : string)
    (sql : pyval) (ctx : bool) :
  well_formed s ->
  well_formed (VannaAgent._add_to_conversation_history E
                 (question_turn question processed sql ctx) s).2.
Proof.
  intros (Hmax & Hlen & Hall & Hengine).
  destruct (add_to_history_run E (question_turn question processed sql ctx) s)
    as (s1 & Hrun & Hh & Hmax1 & _).
  destruct (settled_add_to_history E (question_turn question processed sql ctx) s)
    as (_ & Hinit & Hvanna).
  rewrite Hrun in *. simpl in *. rewrite Hmax in Hh.
  destruct (appended_well_formed E s (conversation_history s) question processed sql ctx
              Hlen Hall) as [Hlen' Hall'].
  repeat split; try congruence. by rewrite Hinit, Hvanna.
Qed.

Lemma answer_well_formed (E : Env) (question : pyval) (ctx : bool) (s : State) :
  well_formed s -> well_formed (answer E question ctx s).2.
Proof.
  intros (Hmax & Hlen & Hall & Hengine).
  assert (Hflags : settled s (answer E question ctx s).2).
  { apply (answer_frame settled false (fun _ => true));
      first [apply _|apply settled_get_schema_info|auto with frames]. }
  destruct Hflags as (_ & Hinit & Hvanna).
  destruct (answer_cases E question ctx s) as (result & s' & Hrun & Hcases).
  rewrite Hrun in *. simpl in *.
  destruct Hcases as [(_ & (Hh & Hmax') & _)
                     |(_ & processed & sql & s0 & _ & _ & _ & _ & _ & _ & Hmax' & Hh)].
  - repeat split; try congruence. by rewrite Hinit, Hvanna.
  - rewrite Hmax in Hh.
    destruct (appended_well_formed E s0 (conversation_history s) question processed sql ctx
                Hlen Hall) as [Hlen' Hall'].
    repeat split; try congruence. by rewrite Hinit, Hvanna.
Qed.

Lemma engine_kept_train_system (E : Env) : preserves engine_kept (VannaAgent._train_system E).
Proof.
  pose proof (Hschema := engine_kept_get_schema_info E).
  assert (Hddl : forall table_name columns,
            preserves engine_kept (SchemaManager.generate_enhanced_ddl table_name columns)).
  { intros table_name columns s. rewrite generate_enhanced_ddl_state. reflexivity. }
  unfold VannaAgent._train_system, VannaAgent._should_retrain,
    VannaAgent._train_with_essential_prompts,
    VannaAgent._train_with_expanded_schema, VannaAgent.train_table,
    VannaAgent._load_critical_training_data, VannaAgent.oracle_invoke.
  frame_auto.
Qed.

Lemma initialize_steps_keep_engine (E : Env) :
  preserves engine_kept (VannaAgent._validate_config E) /\
  preserves engine_kept (VannaAgent._create_vanna_instance E) /\
  preserves engine_kept (VannaAgent._connect_database E).
Proof.
  pose proof (Hconnect := engine_kept_connect E).
  unfold VannaAgent._validate_config, VannaAgent._create_vanna_instance,
    VannaAgent._connect_database, VannaAgent.oracle_invoke.
  split; [|split]; frame_auto.
Qed.

Lemma initialize_well_formed (E : Env) (s : State) :
  well_formed s -> well_formed (VannaAgent.initialize E s).2.
Proof.
  intros Hwf.
  destruct (initialize_steps_keep_engine E) as (Hconfig & Hcreate & Hconnect).
  assert (Hkept : forall s1, engine_kept s s1 -> well_formed s1)
    by (intros s1 Hs1; by apply (well_formed_engine_kept s)).
  assert (Hlogged : forall s1 l msg, engine_kept s s1 -> well_formed (add_log l msg s1)).
  { intros s1 l msg Hs1. apply Hkept. etrans; [exact Hs1|apply engine_kept_log]. }
  unfold VannaAgent.initialize. rewrite try_except_run, bind_run.
  specialize (Hconfig s).
  destruct (VannaAgent._validate_config E s) as [[[]|e] s1]; simpl in Hconfig |- *;
    [|by apply Hkept|by apply Hlogged].
  rewrite bind_run.
  destruct (create_vanna_instance_run E s1) as (s2 & Hrun2 & _ & Hengine2).
  pose proof (Hs2 := Hcreate s1). rewrite Hrun2 in Hs2 |- *. simpl in Hs2.
  assert (H12 : engine_kept s s2) by (by etrans).
  destruct (oracle_create E (calls s1)) as [u|e]; simpl; [|by apply Hkept].
  assert (Hv2 : vanna_instance s2 = true) by eauto.
  rewrite bind_run.
  pose proof (Hs3 := Hconnect s2).
  destruct (VannaAgent._connect_database E s2) as [[[]|e] s3]; simpl in Hs3 |- *;
    [|apply Hkept; by etrans|apply Hlogged; by etrans].
  rewrite mbind_run.
  pose proof (Hs4 := engine_kept_train_system E s3).
  destruct (train_system_total E s3) as [[] Htotal].
  destruct (VannaAgent._train_system E s3) as [r s4]. simpl in Hs4, Htotal. subst r.
  simpl.
  assert (H14 : engine_kept s s4) by (etrans; [exact H12|]; by etrans).
  assert (Hv4 : vanna_instance s4 = true).
  { destruct Hs4 as (_ & _ & _ & Hv4). apply Hv4.
    destruct Hs3 as (_ & _ & _ & Hv3). by apply Hv3. }
  destruct (Hkept s4 H14) as (Hmax & Hlen & Hall & _).
  repeat split; auto.
Qed.

Lemma ask_well_formed (E : Env) (question : pyval) (ctx : bool) (s : State) :
  well_formed s -> well_formed (VannaAgent.ask E question ctx s).2.
Proof.
  intros Hwf. rewrite ask_unfold.
  destruct (initialized s); [by apply answer_well_formed|].
  pose proof (Hinit := initialize_well_formed E s Hwf).
  destruct (VannaAgent.initialize E s) as [[[]|e] s1]; simpl in *; try exact Hinit.
  by apply answer_well_formed.
Qed.

Lemma execute_well_formed (E : Env) (question : pyval) (ctx : bool) (s : State) :
  well_formed s -> well_formed (VannaAgent.execute E question ctx s).2.
Proof.
  intros Hwf. pose proof (Hask := ask_well_formed E question ctx s Hwf).
  destruct (execute_run E question ctx s) as (result & s1 & tail & Hrun & -> & Htail).
  rewrite Hrun in Hask. simpl in Hask.
  apply (well_formed_engine_kept s1); [|exact Hask].
  apply Htail; [apply _|apply engine_kept_log|].
  intros sql _ _. apply engine_kept_execute_query.
Qed.

Lemma well_formed_reachable (E : Env) (s : State) :
  reachable E s -> well_formed s.
Proof.
  induction 1 as [|s _ IH|s question ctx _ IH|s question ctx _ IH|s _ IH
                 |s question processed sql ctx _ IH|s sql question _ IH
                 |s invalid_column _ IH|s _ IH|s _ IH|s query params _ IH].
  - unfold VannaAgent.new_agent.
    destruct (truthy (config_api_key E)); repeat split; simpl; try lia; try constructor;
      discriminate.
  - by apply initialize_well_formed.
  - by apply ask_well_formed.
  - by apply execute_well_formed.
  - destruct IH as (Hmax & _ & _ & Hengine).
    repeat split; simpl; try lia; try constructor; auto.
  - by apply record_well_formed.
  - exact (well_formed_engine_kept _ _ (engine_kept_validate_sql E sql question s) IH).
  - exact (well_formed_engine_kept _ _
             (engine_kept_get_column_suggestions E invalid_column s) IH).
  - exact (well_formed_engine_kept _ _ (engine_kept_get_schema_info E s) IH).
  - exact (well_formed_engine_kept _ _ (engine_kept_connect E s) IH).
  - exact (well_formed_engine_kept _ _ (engine_kept_execute_query E query params s) IH).
Qed.


Lemma turns_are_questions (h : list (gmap string pyval)) :
  Forall is_turn h -> List.filter VannaAgent.is_question h = h.
Proof.
  induction 1 as [|item h (t & question & processed & sql & ctx & ->) _ IH]; [reflexivity|].
  simpl. destruct (stamped_turn_is_question t question processed sql ctx) as [-> _].
  by rewrite IH.
Qed.

(** X26: the states that an agent can reach are well formed.  From a new
    agent, whatever sequence of [initialize], [ask], [execute],
    [clear_conversation], [validate_sql], [get_column_suggestions],
    [get_schema_info], [connect] and [execute_query] is run, with whatever
    arguments and however the collaborators answer, and also when turns are
    recorded as the user interface does on loading a conversation: the bound
    of the history is the 20 of [__init__], the history holds at most 20
    entries, each entry is a question turn with its time stamp, and an
    initialized agent holds an engine.  The conversation summary therefore
    counts every entry of the history, and its time is the time stamp of the
    last entry, or [None] for an empty history. *)
Theorem reachable_states_are_well_formed (E : Env) (s : State) :
  reachable E s ->
  well_formed s /\
  exists time,
    VannaAgent.get_conversation_summary s =
      (Ok {[ "total_questions" := PyInt (Z.of_nat (length (conversation_history s)));
             "last_question_time" := time ]}, s) /\
    match last (conversation_history s) with
    | Some turn => exists t, time = PyTime t /\ turn !! "timestamp" = Some (PyTime t)
    | None => time = PyNone
    end.
Proof.
  intros Hreach. apply well_formed_reachable in Hreach. split; [exact Hreach|].
  destruct Hreach as (_ & _ & Hall & _).
  unfold VannaAgent.get_conversation_summary. rewrite bind_run. simpl.
  rewrite (turns_are_questions _ Hall).
  case_bool_decide as Hempty.
  - rewrite Hempty. exists PyNone. split; reflexivity.
  - destruct (last (conversation_history s)) as [turn|] eqn:Hlast.
    2:{ apply last_None in Hlast. contradiction. }
    assert (Hturn : is_turn turn).
    { apply last_Some in Hlast as [h Hh]. rewrite Hh in Hall.
      apply Forall_app in Hall as [_ Hall]. by inversion Hall. }
    destruct Hturn as (t & question & processed & sql & ctx & ->).
    destruct (stamped_turn_is_question t question processed sql ctx) as [_ Ht].
    exists (PyTime t). rewrite Ht. split; [reflexivity|]. by exists t.
Qed.

(** X26, witness: a question, an execution and a cleared conversation. *)
Lemma reachable_witness :
  let question := PyStr "how many experiments?" in
  let s1 := (VannaAgent.ask demo question false (VannaAgent.new_agent demo)).2 in
  let s2 := (VannaAgent.execute demo question true s1).2 in
  length (conversation_history s2) = 2%nat /\
  reachable demo s2 /\
  well_formed s2 /\
  exists time,
    VannaAgent.get_conversation_summary s2 =
      (Ok {[ "total_questions" := PyInt (Z.of_nat (length (conversation_history s2)));
             "last_question_time" := time ]}, s2) /\
    match last (conversation_history s2) with
    | Some turn => exists t, time = PyTime t /\ turn !! "timestamp" = Some (PyTime t)
    | None => time = PyNone
    end.
Proof.
  intros question s1 s2. split; [vm_compute; reflexivity|].
  assert (Hreach : reachable demo s2) by apply reach_execute, reach_ask, reach_new.
  split; [exact Hreach|].
  exact (reachable_states_are_well_formed demo s2 Hreach).
Defined.

(** ** A reachable agent never lacks its engine *)

Lemma answer_consults_engine (E : Env) (text : string) (ctx : bool) (s : State) :
  VannaAgent._validate_question (PyStr text) = true ->
  vanna_instance s = true ->
  exists processed,
    generate_calls (answer E (PyStr text) ctx s).2 =
    generate_calls s ++ [CallGenerateSql processed].
Proof.
  intros Hvalid Hengine. rewrite (answer_run E text ctx s Hvalid).
  set (s1 := add_log INFO "Processing question" s).
  set (m := if ctx then VannaAgent._rewrite_question_with_context E text else mret text).
  assert (Hq : quiet s1 (m s1).2).
  { unfold m. destruct ctx; [apply rewrite_question_quiet|reflexivity]. }
  assert (Hs : settled s1 (m s1).2).
  { unfold m. destruct ctx; [|reflexivity].
    apply (rewrite_question_frame settled false (fun _ => true)); auto with frames. }
  assert (Htotal : exists processed, (m s1).1 = Ok processed).
  { unfold m. destruct ctx; [apply rewrite_question_total|by eexists]. }
  destruct (m s1) as [r s2]. simpl in Hq, Hs, Htotal.
  destruct Htotal as [processed ->].
  destruct Hq as (_ & Hg2 & _). destruct Hs as (_ & _ & Hv2).
  simpl in Hv2. rewrite Hv2, Hengine. cbv zeta. exists processed.
  assert (Hg3 : generate_calls (add_call (CallGenerateSql processed) s2) =
                generate_calls s ++ [CallGenerateSql processed]).
  { rewrite generate_calls_generate. f_equal. exact Hg2. }
  destruct (oracle_generate_sql E (calls s2) processed) as [sql|e];
    [|cbn [snd]; by rewrite generate_calls_log].
  destruct (truthy sql); [|exact Hg3].
  pose proof (Hval := validate_sql_quiet E sql (PyStr processed)
                        (add_call (CallGenerateSql processed) s2)).
  destruct (SQLValidator.validate_sql E sql (PyStr processed) _)
    as [[[[] validation_error]|e] s4]; simpl in Hval; destruct Hval as (_ & Hg4 & _);
    cbn [snd]; rewrite ?generate_calls_log; try congruence.
  destruct (add_to_history_run E (question_turn (PyStr text) processed sql ctx) s4)
    as (s5 & Hrun & _ & _ & Hg5).
  rewrite Hrun. simpl. congruence.
Qed.

(** X27: a reachable agent never lacks its engine.  On an agent in a state
    that can be reached from a new agent, [ask] with a question that is a
    non-blank string either puts exactly one question to the generate
    operation of the engine, or the agent was not initialized, its
    initialization fails now, and the result is the error of an agent that
    could not be initialized.  The error of [ask] for a missing engine is
    thus never seen by a user of these operations. *)
Theorem reachable_agent_consults_engine (E : Env) (question : pyval) (ctx : bool)
    (s : State) :
  reachable E s ->
  VannaAgent._validate_question question = true ->
  (exists processed,
     generate_calls (VannaAgent.ask E question ctx s).2 =
     generate_calls s ++ [CallGenerateSql processed]) \/
  (initialized s = false /\
   (VannaAgent.initialize E s).1 = Ok false /\
   VannaAgent.ask E question ctx s =
     (Ok (VannaAgent.not_initialized_error question), (VannaAgent.initialize E s).2)).
Proof.
  intros Hreach Hvalid. apply well_formed_reachable in Hreach.
  destruct question as [| | |text| |]; try discriminate Hvalid.
  rewrite ask_unfold. destruct (initialized s) eqn:Hinit.
  - left. apply answer_consults_engine; [exact Hvalid|].
    destruct Hreach as (_ & _ & _ & Hengine). by apply Hengine.
  - destruct (initialize_run E s) as (ready & s1 & Hrun & _ & _ & Hready).
    pose proof (Hwf := initialize_well_formed E s Hreach).
    pose proof (Hquiet := initialize_quiet E s).
    rewrite Hrun in *. simpl in Hwf, Hquiet. destruct ready.
    + left. destruct Hwf as (_ & _ & _ & Hengine).
      destruct (answer_consults_engine E text ctx s1 Hvalid) as [processed Hp]; [auto|].
      exists processed. rewrite Hp. destruct Hquiet as (_ & -> & _). reflexivity.
    + right. done.
Qed.

(** X27, witness: the first question to a new agent. *)
Lemma reachable_agent_witness :
  let question := PyStr "how many experiments?" in
  let s := VannaAgent.new_agent demo in
  reachable demo s /\ VannaAgent._validate_question question = true /\
  ((exists processed,
      generate_calls (VannaAgent.ask demo question false s).2 =
      generate_calls s ++ [CallGenerateSql processed]) \/
   (initialized s = false /\
    (VannaAgent.initialize demo s).1 = Ok false /\
    VannaAgent.ask demo question false s =
      (Ok (VannaAgent.not_initialized_error question), (VannaAgent.initialize demo s).2))).
Proof.
  intros question s. split; [apply reach_new|]. split; [reflexivity|].
  apply (reachable_agent_consults_engine demo question false s); [apply reach_new|reflexivity].
Defined.

(** ** The SQL of a successful [ask] passed the validator *)

Lemma get_schema_info_cached (E : Env) (s : State) :
  exists schema s1,
    SchemaManager.get_schema_info E s = (Ok schema, s1) /\
    _schema_cache s1 = Some schema.
Proof.
  unfold SchemaManager.get_schema_info. rewrite bind_run. simpl.
  destruct (_schema_cache s) as [schema|] eqn:Hcache.
  - by exists schema, s.
  - rewrite bind_run. destruct (connector_get_schema_info_total E s) as [schema Hschema].
    destruct (Connector.get_schema_info E s) as [r s1]. simpl in Hschema. subst r.
    by exists schema, (set_schema_cache (Some schema) s1).
Qed.

Lemma lowered_columns_snapshot (E : Env) (s : State) :
  exists schema,
    _schema_cache (lowered_columns E s).2 = Some schema /\
    forall s2, _schema_cache s2 = Some schema ->
               (lowered_columns E s2).1 = (lowered_columns E s).1.
Proof.
  destruct (get_schema_info_cached E s) as (schema & s1 & Hschema & Hcache).
  destruct (get_all_column_names_run E s) as (schema' & s1' & Hschema' & Hrun).
  rewrite Hschema in Hschema'. injection Hschema' as <- <-.
  exists schema.
  assert (Hs : lowered_columns E s = lowered_columns E s1).
  { rewrite (lowered_columns_cached E s1 schema Hcache). unfold lowered_columns.
    rewrite bind_run, Hrun.
    destruct (SchemaManager.add_table_columns schema ∅ s1).1 as [cols|e]; [|reflexivity].
    pose proof (Hstate := lower_all_state (iter_cells (set_order E) cols) ∅ s1).
    destruct (SQLValidator.lower_all _ _ s1) as [r s2]. simpl in *. by subst s2. }
  rewrite Hs, (lowered_columns_cached E s1 schema Hcache). split; [exact Hcache|].
  intros s2 Hcache2. rewrite (lowered_columns_cached E s2 schema Hcache2). simpl.
  destruct (add_table_columns_stateless schema ∅) as [r Hr]. rewrite !Hr. simpl.
  destruct r as [cols|e]; [|reflexivity].
  destruct (lower_all_stateless (iter_cells (set_order E) cols) ∅) as [r' Hr'].
  by rewrite !Hr'.
Qed.

Lemma cache_kept_add_to_history (E : Env) (entry : gmap string pyval) :
  preserves cache_kept (VannaAgent._add_to_conversation_history E entry).
Proof.
  apply (add_to_conversation_history_frame cache_kept false (fun _ => true));
    first [apply _|intros; by apply cache_kept_same].
Qed.

Lemma answer_success_checked (E : Env) (question : pyval) (ctx : bool) (s s' : State)
    (result : gmap string pyval) :
  answer E question ctx s = (Ok result, s') ->
  VannaAgent.is_error result = false ->
  exists text s3,
    result !! "sql" = Some (PyStr text) /\
    cache_kept (SQLValidator._check_column_validity E text s3).2 s' /\
    forall msg, (SQLValidator._check_column_validity E text s3).1 <> Ok (Some msg).
Proof.
  destruct (VannaAgent._validate_question question) eqn:Hvalid.
  2:{ rewrite (answer_invalid_question E question ctx s Hvalid).
      intros [= <- <-] Herr. by rewrite is_error_error in Herr. }
  destruct question as [| | |q| |]; try discriminate Hvalid.
  rewrite (answer_run E q ctx s Hvalid).
  destruct ((if ctx then VannaAgent._rewrite_question_with_context E q else mret q) _)
    as [[processed|e] s2].
  2:{ intros [= <- <-] Herr. by rewrite is_error_exception_result in Herr. }
  destruct (vanna_instance s2) eqn:Hengine.
  2:{ intros [= <- <-] Herr. by rewrite is_error_exception_result in Herr. }
  cbv zeta.
  destruct (oracle_generate_sql E (calls s2) processed) as [sql|e].
  2:{ intros [= <- <-] Herr. by rewrite is_error_exception_result in Herr. }
  destruct (truthy sql).
  2:{ intros [= <- <-] Herr. by rewrite is_error_error in Herr. }
  set (s3 := add_call (CallGenerateSql processed) s2).
  destruct (SQLValidator.validate_sql E sql (PyStr processed) s3)
    as [[[[] reason]|e] s4] eqn:Hval.
  - intros [= <- <-] _.
    pose proof (Hhistory := cache_kept_add_to_history E
                              (question_turn (PyStr q) processed sql ctx) s4).
    rewrite validate_sql_cases in Hval.
    destruct (SQLValidator._is_basic_sql_valid sql); [|discriminate].
    destruct sql as [| | |text| |]; try discriminate.
    destruct (SQLValidator._contains_error_message text); [discriminate|].
    destruct (success_result_lookup (PyStr q) q processed (PyStr text))
      as (_ & _ & Hsql & _).
    exists text, s3. split; [exact Hsql|].
    destruct (SQLValidator._check_column_validity E text s3) as [[[msg|]|e] s4'];
      [discriminate Hval| |]; injection Hval as <- <-; simpl.
    + split; [exact Hhistory|]. intros msg. discriminate.
    + split; [|intros msg; discriminate].
      etrans; [|exact Hhistory]. by apply cache_kept_same.
  - intros [= <- <-] Herr. by rewrite is_error_error in Herr.
  - intros [= <- <-] Herr. by rewrite is_error_exception_result in Herr.
Qed.

(** X21: [ask] returns only SQL that passed its validator in this call.
    The SQL of a successful [ask] is a text in which a statement keyword
    occurs and no error indicator does, and whose stripped form is not
    empty: after a successful [ask], [execute] never ends in its "Empty SQL
    generated" branch.  The agent then holds a schema snapshot, the one that
    the column check of this call worked on; when the SQL and the column
    names of the snapshot are ASCII, the column check on the state that
    [ask] leaves reports no name for this SQL. *)
Theorem ask_returns_validated_sql (E : Env) (question : pyval) (ctx : bool)
    (s s' : State) (result : gmap string pyval) :
  VannaAgent.ask E question ctx s = (Ok result, s') ->
  VannaAgent.is_error result = false ->
  exists text,
    result !! "sql" = Some (PyStr text) /\
    (exists kw, kw ∈ statement_keywords /\ substring kw (lower text)) /\
    (forall indicator,
       indicator ∈ SQLValidator.error_indicators ->
       ~ substring indicator (lower text)) /\
    strip text <> "" /\
    is_Some (_schema_cache s') /\
    (isascii text = true ->
     forall names,
       (lowered_columns E s').1 = Ok names -> ascii_names names ->
       (SQLValidator._check_column_validity E text s').1 = Ok None).
Proof.
  intros Hask Herr.
  assert (Hanswer : exists s1, answer E question ctx s1 = (Ok result, s')).
  { destruct (ask_cases E question ctx s) as (s1 & _ & [Hrun|Hrun]);
      rewrite Hrun in Hask; [eauto|].
    injection Hask as <- <-. unfold VannaAgent.not_initialized_error in Herr.
    by rewrite is_error_error in Herr. }
  destruct Hanswer as [s1 Hanswer].
  destruct (answer_success_validated E question ctx s1 s' result Hanswer Herr)
    as (_ & text & processed & s3 & s4 & Hsql & Hval).
  destruct (validate_sql_accepts _ _ _ _ _ _ Hval)
    as (_ & text' & [= <-] & Hbasic & Hindicator).
  apply is_basic_sql_valid_spec in Hbasic as (text' & kw & [= <-] & Hkw & Hsub).
  destruct (answer_success_checked E question ctx s1 s' result Hanswer Herr)
    as (text' & s0 & Hsql' & Hkept & Hclean).
  rewrite Hsql in Hsql'. injection Hsql' as <-.
  destruct (lowered_columns_snapshot E s0) as (schema & Hcache & Hsame).
  rewrite check_column_validity_run in Hkept, Hclean.
  assert (Hcache' : _schema_cache s' = Some schema).
  { apply Hkept. by destruct (lowered_columns E s0) as [[names0|e0] s0']. }
  exists text. split; [exact Hsql|]. split; [eauto|]. split.
  { intros indicator Hin Hocc.
    assert (SQLValidator._contains_error_message text = true)
      by (apply contains_error_message_spec; eauto).
    congruence. }
  split; [apply (strip_lower_nonempty text kw); [by apply statement_keywords_trimmed|done]|].
  split; [by rewrite Hcache'|].
  intros _ names Hnames _.
  specialize (Hsame s' Hcache'). rewrite Hnames in Hsame.
  rewrite check_column_validity_run.
  destruct (lowered_columns E s') as [r s'']. simpl in Hnames. subst r.
  destruct (lowered_columns E s0) as [r0 s0']. simpl in Hsame. subst r0.
  simpl in *.
  match goal with
  | |- Ok ?verdict = Ok None => destruct verdict as [msg|]; [|reflexivity]
  end.
  by destruct (Hclean msg).
Qed.

(** X21, witness: the first question to the example agent. *)
Lemma ask_returns_validated_sql_witness :
  let question := PyStr "how many experiments?" in
  let outcome := VannaAgent.ask demo question false (VannaAgent.new_agent demo) in
  exists text,
    outcome.1 = Ok {[ "question" := question; "sql" := PyStr text ]} /\
    strip text <> "" /\
    (SQLValidator._check_column_validity demo text outcome.2).1 = Ok None.
Proof.
  intros question outcome.
  destruct (ask_returns_validated_sql demo question false (VannaAgent.new_agent demo)
              outcome.2 {[ "question" := question; "sql" := PyStr "SELECT id FROM experiments" ]})
    as (text & Hsql & _ & _ & Hstrip & _ & Hcheck).
  - vm_compute. reflexivity.
  - vm_compute. reflexivity.
  - exists text.
    assert (Htext : text = "SELECT id FROM experiments")
      by (vm_compute in Hsql; congruence).
    split; [rewrite Htext; vm_compute; reflexivity|]. split; [exact Hstrip|].
    assert (Hascii : isascii text = true) by (rewrite Htext; reflexivity).
    apply (Hcheck Hascii (list_to_set ["id"; "name"])).
    + vm_compute. reflexivity.
    + apply ascii_names_id_name.
Defined.
